(** * Natural-gas price forecasting and storage-contract valuation

    A shallow embedding of [src/forecasting.py] and [src/storage_contract.py].

    Numbers.  The program computes with Python floats.  The embedding has
    them twice.  For the value formulas, the traces and the price estimator
    they are exact rationals [Q]: no rounding, no infinities, no NaN;
    equality of results is [Qeq] (written [==]).  For whatever decides a
    branch of [price_storage_contract] on the volumes (the positivity tests,
    the volume test, the storage replay and the test of the schedule order)
    the module [Binary64] has the same program on IEEE 754 binary64 numbers,
    and the statements about those tests are made there.  Quantities that
    are integers in the program (years, months, time indices, list lengths)
    are [Z] or [nat].

    Library calls.  [pd.to_datetime], [pd.read_csv], [np.sin], [np.cos],
    [np.pi] and scikit-learn's [LinearRegression] are not code of this
    repository: they are the fields of the class [Libraries], and the
    theorems hold for every instance.  The module [Demo] gives one instance
    on which the definitions can be evaluated. *)

From Stdlib Require Import ZArith QArith Qabs List String Ascii Bool Lia Lqa.
From Stdlib Require Import Qminmax Permutation Sorted.
From Stdlib Require Floats.
Import ListNotations.

Local Open Scope Z_scope.

(** ** Calendar dates

    A [pd.Timestamp] obtained from a ['YYYY-MM-DD'] string: a calendar date
    at midnight.  Timestamps compare chronologically, which on calendar
    dates is the lexicographic order on (year, month, day). *)

Record Timestamp : Type := mkTimestamp { year : Z; month : Z; day : Z }.

Definition ts_ltb (a b : Timestamp) : bool :=
  (year a <? year b)
  || ((year a =? year b)
      && ((month a <? month b)
          || ((month a =? month b) && (day a <? day b)))).

Definition ts_eqb (a b : Timestamp) : bool :=
  (year a =? year b) && (month a =? month b) && (day a =? day b).

Definition is_leap_year (y : Z) : bool :=
  ((y mod 4 =? 0) && negb (y mod 100 =? 0)) || (y mod 400 =? 0).

Definition days_in_month (y m : Z) : Z :=
  if m =? 2 then (if is_leap_year y then 29 else 28)
  else if (m =? 4) || (m =? 6) || (m =? 9) || (m =? 11) then 30
  else 31.

(** Days of the year that precede the first day of month [m]. *)
Definition days_before_month (y m : Z) : Z :=
  fold_left (fun acc k => acc + days_in_month y (Z.of_nat k))
            (seq 1 (Z.to_nat (m - 1))) 0.

(** [Timestamp.dayofyear]. *)
Definition dayofyear (t : Timestamp) : Z :=
  days_before_month (year t) (month t) + day t.

Definition valid_date (t : Timestamp) : bool :=
  (1 <=? month t) && (month t <=? 12)
  && (1 <=? day t) && (day t <=? days_in_month (year t) (month t)).

(** ** Rational comparisons and Python's [max] *)

Definition Qltb (a b : Q) : bool := negb (Qle_bool b a).

(** [max(0, price)]: Python's [max] keeps its first argument unless a later
    one is strictly greater. *)
Definition py_max0 (price : Q) : Q := if Qltb 0 price then price else 0%Q.

(** [sum(xs)]: left-to-right accumulation from [0]. *)
Definition py_sum (xs : list Q) : Q := fold_left Qplus xs 0%Q.

(** ** Exceptions

    One constructor per kind of failure.  In the program all of them but
    [FileNotFoundError] are [ValueError]s that differ by their message; the
    names are those of the error taxonomy. *)

Inductive LegKind : Type := Injection | Withdrawal.

Inductive Exception : Type :=
| MismatchedLengthError                 (* forecasting.py:96, :99 *)
| EmptyScheduleError                    (* forecasting.py:102 *)
| InvalidDateError                      (* forecasting.py:109 *)
| NonPositiveVolumeError                (* forecasting.py:114, :118 *)
| VolumeMismatchError                   (* forecasting.py:125 *)
| CapacityExceededError                 (* forecasting.py:157 *)
| InsufficientStorageError              (* forecasting.py:161 *)
| InvalidScheduleOrderError             (* forecasting.py:218 *)
| FileNotFoundError                     (* forecasting.py:12 *)
| LibraryError.                         (* raised inside pandas or scikit-learn *)

(** The errors of the eight validation rules of [price_storage_contract]. *)
Definition is_validation_error (e : Exception) : bool :=
  match e with
  | FileNotFoundError | LibraryError => false
  | _ => true
  end.

Definition Res (A : Type) : Type := (Exception + A)%type.

(** ** The library interface *)

Class Libraries : Type := {
  to_datetime : string -> option Timestamp;    (* [None]: it raises *)
  read_csv : string -> option (list (string * Q));
                                  (* [None]: [os.path.exists] is false *)
  np_sin : Q -> Q;
  np_cos : Q -> Q;
  np_pi : Q;
  Model : Type;                                (* a fitted LinearRegression *)
  LinearRegression_fit : list (list Q) -> list Q -> option Model;
  predict : Model -> list Q -> Q               (* model.predict(features)[0] *)
}.

(** What the statements about month arithmetic need of [pd.to_datetime]:
    it returns calendar dates. *)
Definition parses_calendar_dates (L : Libraries) : Prop :=
  forall s t, to_datetime s = Some t -> valid_date t = true.

(** ** Effects

    A computation yields the events it performed, in order, and then an
    exception or a value.  The events are the pricing steps of
    [price_storage_contract]. *)

Inductive Event : Type :=
| LoadPriceData (csv_file : string)              (* forecasting.py:164 *)
| BuildPriceModel                                (* forecasting.py:165 *)
| GetPrice (date_str : string)                   (* forecasting.py:185, :200 *)
| PostInjection (volume price cost : Q)          (* forecasting.py:186-196 *)
| PostWithdrawal (volume price revenue : Q).     (* forecasting.py:201-211 *)

Definition M (A : Type) : Type := (list Event * Res A)%type.

Definition ret {A} (x : A) : M A := ([], inr x).
Definition raise {A} (e : Exception) : M A := ([], inl e).
Definition tell (ev : Event) : M unit := ([ev], inr tt).
Definition lift {A} (r : Res A) : M A := ([], r).
Definition bind {A B} (m : M A) (k : A -> M B) : M B :=
  match m with
  | (t, inl e) => (t, inl e)
  | (t, inr x) => let (t', r) := k x in (t ++ t', r)
  end.

Notation "x <- m ;; k" := (bind m (fun x => k))
  (at level 61, m at next level, right associativity).
Notation "m ;;; k" := (bind m (fun _ => k))
  (at level 61, right associativity).

(** [if cond: raise e] *)
Definition raise_if (cond : bool) (e : Exception) : M unit :=
  if cond then raise e else ret tt.

Definition outcome {A} (m : M A) : Res A := snd m.

(** ** Data *)

Record Row : Type := mkRow {
  Dates : Timestamp; Prices : Q;
  Month : Z; Year : Z; DayOfYear : Z; TimeIndex : Z }.

Definition DataFrame : Type := list Row.

Record StorageCosts : Type := mkStorageCosts {
  monthly_storage_fee : Q;
  injection_cost : Q;
  withdrawal_cost : Q;
  transport_cost_per_trip : Q }.

Definition default_storage_costs : StorageCosts :=
  {| monthly_storage_fee := 100000;
     injection_cost := 10;
     withdrawal_cost := 10;
     transport_cost_per_trip := 25000 |}.

(** An entry of the [operations] list. *)
Record Operation : Type := mkOperation {
  op_date : Timestamp; op_type : LegKind; op_volume : Q; op_index : nat }.

(** An entry of [injection_details] or [withdrawal_details]; [amount] is the
    key ['cost'] of an injection and ['revenue'] of a withdrawal. *)
Record Detail : Type := mkDetail {
  d_date : string; d_volume : Q; d_price : Q; d_amount : Q }.

(** The accumulators of the cash-flow loops. *)
Record CashFlows : Type := mkCashFlows {
  acc_purchase_cost : Q;
  acc_sale_revenue : Q;
  acc_injection_cost : Q;
  acc_withdrawal_cost : Q;
  acc_transport_cost : Q;
  acc_injection_details : list Detail;
  acc_withdrawal_details : list Detail }.

(** The returned dictionary. *)
Record ContractResult : Type := mkContractResult {
  contract_value : Q;
  total_sale_revenue : Q;
  total_purchase_cost : Q;
  total_injection_cost : Q;
  total_withdrawal_cost : Q;
  total_transport_cost : Q;
  total_storage_cost : Q;
  duration_months : Z;
  total_volume : Q;
  injection_details : list Detail;
  withdrawal_details : list Detail }.

(** ** List helpers of the program *)

(** [[pd.to_datetime(date) for date in dates]]; [None] when one raises. *)
Fixpoint parse_all {L : Libraries} (dates : list string) : option (list Timestamp) :=
  match dates with
  | [] => Some []
  | s :: rest =>
      match to_datetime s with
      | None => None
      | Some t =>
          match parse_all rest with
          | None => None
          | Some ts => Some (t :: ts)
          end
      end
  end.

(** [min(ts)] and [max(ts)] of a non-empty list (the first extremal one). *)
Definition ts_min (t0 : Timestamp) (ts : list Timestamp) : Timestamp :=
  fold_left (fun m t => if ts_ltb t m then t else m) ts t0.
Definition ts_max (t0 : Timestamp) (ts : list Timestamp) : Timestamp :=
  fold_left (fun m t => if ts_ltb m t then t else m) ts t0.

Definition py_min (ts : list Timestamp) : Res Timestamp :=
  match ts with [] => inl LibraryError | t0 :: rest => inr (ts_min t0 rest) end.
Definition py_max (ts : list Timestamp) : Res Timestamp :=
  match ts with [] => inl LibraryError | t0 :: rest => inr (ts_max t0 rest) end.

(** [enumerate(zip(dates, volumes))] turned into operations of one kind. *)
Fixpoint make_operations (k : LegKind) (i : nat)
    (dates : list Timestamp) (volumes : list Q) : list Operation :=
  match dates, volumes with
  | d :: dates', v :: volumes' =>
      mkOperation d k v i :: make_operations k (S i) dates' volumes'
  | _, _ => []
  end.

(** [operations.sort(key=lambda x: x['date'])]: Python's sort is stable, and
    so is this insertion sort: an operation goes in front of the first one
    that is not strictly earlier. *)
Fixpoint insert_by_date (x : Operation) (l : list Operation) : list Operation :=
  match l with
  | [] => [x]
  | y :: l' =>
      if ts_ltb (op_date y) (op_date x) then y :: insert_by_date x l'
      else x :: y :: l'
  end.

Definition sort_by_date (l : list Operation) : list Operation :=
  fold_right insert_by_date [] l.

(** ** Notions used by the statements *)

Local Open Scope Q_scope.

Definition ts_lt (a b : Timestamp) : Prop := ts_ltb a b = true.
Definition ts_le (a b : Timestamp) : Prop := ts_ltb b a = false.

(** Operations in chronological order. *)
Definition op_le (a b : Operation) : Prop := ts_le (op_date a) (op_date b).

Definition on_date (d : Timestamp) (op : Operation) : bool :=
  ts_eqb (op_date op) d.

(** The storage occupancy after one operation, and after each operation of
    a replay that starts at [level]. *)
Definition occupancy_after (level : Q) (op : Operation) : Q :=
  match op_type op with
  | Injection => level + op_volume op
  | Withdrawal => level - op_volume op
  end.

Fixpoint occupancy_levels (operations : list Operation) (level : Q) : list Q :=
  match operations with
  | [] => []
  | op :: rest =>
      occupancy_after level op :: occupancy_levels rest (occupancy_after level op)
  end.

Definition within_capacity (max_storage_capacity level : Q) : Prop :=
  0 <= level /\ level <= max_storage_capacity.

(** The sum of [f x] over the elements [x] of a list. *)
Definition sum_of {A : Type} (f : A -> Q) (l : list A) : Q :=
  fold_right (fun x s => f x + s) 0 l.




Local Close Scope Q_scope.

Section Program.

Context {L : Libraries}.
Local Open Scope Q_scope.

(** ** The price estimator *)

(** The six regressors, as built in [build_price_model] for a row and in
    [estimate_price] for a target date. *)
Definition features (time_index day_of_year mon : Z) : list Q :=
  [ inject_Z time_index;
    np_sin (2 * np_pi * inject_Z day_of_year / 365.25);
    np_cos (2 * np_pi * inject_Z day_of_year / 365.25);
    np_sin (4 * np_pi * inject_Z day_of_year / 365.25);
    np_cos (4 * np_pi * inject_Z day_of_year / 365.25);
    inject_Z mon ].

(** The columns [load_price_data] adds to row number [i]. *)
Definition make_row (i : Z) (d : Timestamp) (p : Q) : Row :=
  {| Dates := d; Prices := p;
     Month := month d; Year := year d; DayOfYear := dayofyear d;
     TimeIndex := i |}.

Fixpoint make_rows (i : Z) (dates : list Timestamp) (prices : list Q) : DataFrame :=
  match dates, prices with
  | d :: dates', p :: prices' => make_row i d p :: make_rows (i + 1) dates' prices'
  | _, _ => []
  end.

(** [load_price_data] (forecasting.py:9-21).  A file that exists is taken to
    be a two-column table of date strings and prices. *)
Definition load_price_data (csv_file : string) : Res DataFrame :=
  match read_csv csv_file with
  | None => inl FileNotFoundError
  | Some table =>
      match parse_all (map fst table) with
      | None => inl LibraryError
      | Some dates => inr (make_rows 0 dates (map snd table))
      end
  end.

(** One line of the design matrix [X]. *)
Definition design_row (r : Row) : list Q :=
  features (TimeIndex r) (DayOfYear r) (Month r).

(** [build_price_model] (forecasting.py:23-36). *)
Definition build_price_model (df : DataFrame) : Res Model :=
  let X := map design_row df in
  let y := map Prices df in
  match LinearRegression_fit X y with
  | None => inl LibraryError
  | Some model => inr model
  end.

Definition months_between (target reference : Timestamp) : Z :=
  ((year target - year reference) * 12 + (month target - month reference))%Z.

(** [estimate_price] (forecasting.py:38-58, storage_contract.py:38-55). *)
Definition estimate_price (date_str : string) (model : Model)
    (reference_date : Timestamp) (last_time_index : Z) : Res Q :=
  match to_datetime date_str with
  | None => inl LibraryError
  | Some target_date =>
      let months_diff := months_between target_date reference_date in
      let time_index := (last_time_index + months_diff)%Z in
      let day_of_year := dayofyear target_date in
      let mon := month target_date in
      let price := predict model (features time_index day_of_year mon) in
      inr (py_max0 price)
  end.

(** [df[...].iloc[-1]] *)
Definition iloc_last (df : DataFrame) : Res Row :=
  match rev df with
  | [] => inl LibraryError
  | r :: _ => inr r
  end.

(** [get_price_estimate] (storage_contract.py:64-68).  Its [load_data] and
    [build_model] (storage_contract.py:9-35) load and fit as
    [load_price_data] and [build_price_model] do and print a summary line
    each; the printing is not modelled. *)
Definition get_price_estimate (date_str csv_file : string) : Res Q :=
  match load_price_data csv_file with
  | inl e => inl e
  | inr df =>
      match build_price_model df with
      | inl e => inl e
      | inr model =>
          match iloc_last df with
          | inl e => inl e
          | inr r => estimate_price date_str model (Dates r) (TimeIndex r)
          end
      end
  end.

(** ** The contract valuator *)

(** forecasting.py:104-109: both comprehensions under one [try]. *)
Definition parse_schedule (injection_dates withdrawal_dates : list string)
    : Res (list Timestamp * list Timestamp) :=
  match parse_all injection_dates with
  | None => inl InvalidDateError
  | Some injection_dates_parsed =>
      match parse_all withdrawal_dates with
      | None => inl InvalidDateError
      | Some withdrawal_dates_parsed =>
          inr (injection_dates_parsed, withdrawal_dates_parsed)
      end
  end.

(** forecasting.py:112-118: the first volume that is not positive raises. *)
Fixpoint check_volumes (volumes : list Q) : Res unit :=
  match volumes with
  | [] => inr tt
  | v :: rest =>
      if Qle_bool v 0 then inl NonPositiveVolumeError
      else check_volumes rest
  end.

(** forecasting.py:151-161: the replay of the sorted operations. *)
Fixpoint check_storage (operations : list Operation)
    (max_storage_capacity current_storage : Q) : Res unit :=
  match operations with
  | [] => inr tt
  | op :: rest =>
      match op_type op with
      | Injection =>
          let current_storage := current_storage + op_volume op in
          if Qltb max_storage_capacity current_storage
          then inl CapacityExceededError
          else check_storage rest max_storage_capacity current_storage
      | Withdrawal =>
          let current_storage := current_storage - op_volume op in
          if Qltb current_storage 0
          then inl InsufficientStorageError
          else check_storage rest max_storage_capacity current_storage
      end
  end.

Definition no_cash_flows : CashFlows :=
  {| acc_purchase_cost := 0; acc_sale_revenue := 0;
     acc_injection_cost := 0; acc_withdrawal_cost := 0;
     acc_transport_cost := 0;
     acc_injection_details := []; acc_withdrawal_details := [] |}.

(** forecasting.py:183-196. *)
Fixpoint process_injections (get_price : string -> M Q) (costs : StorageCosts)
    (legs : list (string * Q)) (acc : CashFlows) : M CashFlows :=
  match legs with
  | [] => ret acc
  | (date, volume) :: rest =>
      price <- get_price date ;;
      let cost := volume * price in
      tell (PostInjection volume price cost) ;;;
      process_injections get_price costs rest
        {| acc_purchase_cost := acc_purchase_cost acc + cost;
           acc_sale_revenue := acc_sale_revenue acc;
           acc_injection_cost :=
             acc_injection_cost acc + (volume / 1000000) * injection_cost costs;
           acc_withdrawal_cost := acc_withdrawal_cost acc;
           acc_transport_cost :=
             acc_transport_cost acc + transport_cost_per_trip costs;
           acc_injection_details :=
             acc_injection_details acc ++ [mkDetail date volume price cost];
           acc_withdrawal_details := acc_withdrawal_details acc |}
  end.

(** forecasting.py:198-211. *)
Fixpoint process_withdrawals (get_price : string -> M Q) (costs : StorageCosts)
    (legs : list (string * Q)) (acc : CashFlows) : M CashFlows :=
  match legs with
  | [] => ret acc
  | (date, volume) :: rest =>
      price <- get_price date ;;
      let revenue := volume * price in
      tell (PostWithdrawal volume price revenue) ;;;
      process_withdrawals get_price costs rest
        {| acc_purchase_cost := acc_purchase_cost acc;
           acc_sale_revenue := acc_sale_revenue acc + revenue;
           acc_injection_cost := acc_injection_cost acc;
           acc_withdrawal_cost :=
             acc_withdrawal_cost acc + (volume / 1000000) * withdrawal_cost costs;
           acc_transport_cost :=
             acc_transport_cost acc + transport_cost_per_trip costs;
           acc_injection_details := acc_injection_details acc;
           acc_withdrawal_details :=
             acc_withdrawal_details acc ++ [mkDetail date volume price revenue] |}
  end.

(** forecasting.py:127-149. *)
Definition sorted_operations (injection_dates_parsed withdrawal_dates_parsed : list Timestamp)
    (injection_volumes withdrawal_volumes : list Q) : list Operation :=
  sort_by_date
    (make_operations Injection 0 injection_dates_parsed injection_volumes
     ++ make_operations Withdrawal 0 withdrawal_dates_parsed withdrawal_volumes).

(** forecasting.py:169-171. *)
Definition get_price (price_model : Model) (reference_date : Timestamp)
    (last_time_index : Z) (date_str : string) : M Q :=
  tell (GetPrice date_str) ;;;
  lift (estimate_price date_str price_model reference_date last_time_index).

(** [price_storage_contract] (forecasting.py:60-244). *)
Definition price_storage_contract
    (injection_dates withdrawal_dates : list string)
    (injection_volumes withdrawal_volumes : list Q)
    (csv_file : string) (max_storage_capacity : Q)
    (storage_costs : option StorageCosts) : M ContractResult :=
  let storage_costs :=
    match storage_costs with
    | None => default_storage_costs
    | Some costs => costs
    end in
  raise_if (negb (List.length injection_dates =? List.length injection_volumes)%nat)
           MismatchedLengthError ;;;
  raise_if (negb (List.length withdrawal_dates =? List.length withdrawal_volumes)%nat)
           MismatchedLengthError ;;;
  raise_if ((List.length injection_dates =? 0)%nat || (List.length withdrawal_dates =? 0)%nat)
           EmptyScheduleError ;;;
  parsed <- lift (parse_schedule injection_dates withdrawal_dates) ;;
  let injection_dates_parsed := fst parsed in
  let withdrawal_dates_parsed := snd parsed in
  lift (check_volumes injection_volumes) ;;;
  lift (check_volumes withdrawal_volumes) ;;;
  let total_injection_volume := py_sum injection_volumes in
  let total_withdrawal_volume := py_sum withdrawal_volumes in
  (* abs(total_injection_volume - total_withdrawal_volume) > 1e-6 *)
  raise_if (Qltb (1 # 1000000)
                 (Qabs (total_injection_volume - total_withdrawal_volume)))
           VolumeMismatchError ;;;
  let operations :=
    sorted_operations injection_dates_parsed withdrawal_dates_parsed
                      injection_volumes withdrawal_volumes in
  lift (check_storage operations max_storage_capacity 0) ;;;
  tell (LoadPriceData csv_file) ;;;
  price_df <- lift (load_price_data csv_file) ;;
  tell BuildPriceModel ;;;
  price_model <- lift (build_price_model price_df) ;;
  last_row <- lift (iloc_last price_df) ;;
  let reference_date := Dates last_row in
  let last_time_index := TimeIndex last_row in
  let get_price := get_price price_model reference_date last_time_index in
  flows <- process_injections get_price storage_costs
             (combine injection_dates injection_volumes) no_cash_flows ;;
  flows <- process_withdrawals get_price storage_costs
             (combine withdrawal_dates withdrawal_volumes) flows ;;
  first_injection_date <- lift (py_min injection_dates_parsed) ;;
  last_withdrawal_date <- lift (py_max withdrawal_dates_parsed) ;;
  raise_if (ts_ltb last_withdrawal_date first_injection_date)
           InvalidScheduleOrderError ;;;
  let duration_months := months_between last_withdrawal_date first_injection_date in
  let duration_months := if (duration_months =? 0)%Z then 1%Z else duration_months in
  let total_storage_cost := inject_Z duration_months * monthly_storage_fee storage_costs in
  let contract_value :=
    acc_sale_revenue flows - acc_purchase_cost flows - acc_injection_cost flows
    - acc_withdrawal_cost flows - acc_transport_cost flows - total_storage_cost in
  ret {| contract_value := contract_value;
         total_sale_revenue := acc_sale_revenue flows;
         total_purchase_cost := acc_purchase_cost flows;
         total_injection_cost := acc_injection_cost flows;
         total_withdrawal_cost := acc_withdrawal_cost flows;
         total_transport_cost := acc_transport_cost flows;
         total_storage_cost := total_storage_cost;
         duration_months := duration_months;
         total_volume := total_injection_volume;
         injection_details := acc_injection_details flows;
         withdrawal_details := acc_withdrawal_details flows |}.

(** ** The specification's view of a call *)

(** The estimated price at a date string that parses. *)
Definition price_at (model : Model) (reference_date : Timestamp)
    (last_time_index : Z) (date_str : string) : Q :=
  match estimate_price date_str model reference_date last_time_index with
  | inr p => p
  | inl _ => 0
  end.

(** Legs whose date strings parse. *)
Definition parsable (legs : list (string * Q)) : Prop :=
  forall leg, In leg legs -> exists t, to_datetime (fst leg) = Some t.

(** Rule 7 on the list of occupancy levels: the first level outside
    [0, max_storage_capacity] decides.  A level that is negative and also
    above a negative capacity counts as negative. *)
Fixpoint first_violation (max_storage_capacity : Q) (levels : list Q)
    : option Exception :=
  match levels with
  | [] => None
  | x :: rest =>
      if Qltb x 0 then Some InsufficientStorageError
      else if Qltb max_storage_capacity x then Some CapacityExceededError
      else first_violation max_storage_capacity rest
  end.

(** The validation sequence as the specification lists it, rules 1 to 8 in
    that order: the error of the first rule that fails, or [None]. *)
Definition spec_validation
    (injection_dates withdrawal_dates : list string)
    (injection_volumes withdrawal_volumes : list Q)
    (max_storage_capacity : Q) : option Exception :=
  if negb (List.length injection_dates =? List.length injection_volumes)%nat
  then Some MismatchedLengthError                                  (* rule 1 *)
  else if negb (List.length withdrawal_dates =? List.length withdrawal_volumes)%nat
  then Some MismatchedLengthError                                  (* rule 2 *)
  else if ((List.length injection_dates =? 0)%nat
           || (List.length withdrawal_dates =? 0)%nat)
  then Some EmptyScheduleError                                     (* rule 3 *)
  else
  match parse_all injection_dates, parse_all withdrawal_dates with
  | None, _ | _, None => Some InvalidDateError                     (* rule 4 *)
  | Some injections, Some withdrawals =>
  if negb (forallb (Qltb 0) injection_volumes
           && forallb (Qltb 0) withdrawal_volumes)
  then Some NonPositiveVolumeError                                 (* rule 5 *)
  else if negb (Qle_bool (Qabs (py_sum injection_volumes
                                - py_sum withdrawal_volumes))
                       (1 # 1000000))
  then Some VolumeMismatchError                                    (* rule 6 *)
  else
  match first_violation max_storage_capacity
          (occupancy_levels
             (sorted_operations injections withdrawals
                                injection_volumes withdrawal_volumes) 0) with
  | Some e => Some e                                               (* rule 7 *)
  | None =>
      match py_max withdrawals, py_min injections with
      | inr last_withdrawal, inr first_injection =>
          if ts_ltb last_withdrawal first_injection
          then Some InvalidScheduleOrderError                      (* rule 8 *)
          else None
      | _, _ => None
      end
  end end.

(** The months of storage that are charged. *)
Definition storage_months (first_injection last_withdrawal : Timestamp) : Z :=
  let months := months_between last_withdrawal first_injection in
  if (months =? 0)%Z then 1%Z else months.

(** A call that returns: what was checked, what was computed, and what the
    returned dictionary holds. *)
Inductive accepted
    (injection_dates withdrawal_dates : list string)
    (injection_volumes withdrawal_volumes : list Q)
    (csv_file : string) (max_storage_capacity : Q) (costs : StorageCosts)
    (trace : list Event) (r : ContractResult) : Prop :=
| accepted_intro
    (injections withdrawals : list Timestamp)
    (price_df : DataFrame) (price_model : Model) (last_row : Row)
    (t1 t2 : list Event) (flows1 flows2 : CashFlows)
    (first_injection last_withdrawal : Timestamp) :
    List.length injection_dates = List.length injection_volumes ->
    List.length withdrawal_dates = List.length withdrawal_volumes ->
    injection_dates <> [] -> withdrawal_dates <> [] ->
    parse_all injection_dates = Some injections ->
    parse_all withdrawal_dates = Some withdrawals ->
    Forall (fun v => 0 < v) injection_volumes ->
    Forall (fun v => 0 < v) withdrawal_volumes ->
    Qabs (py_sum injection_volumes - py_sum withdrawal_volumes) <= 1 # 1000000 ->
    check_storage (sorted_operations injections withdrawals
                     injection_volumes withdrawal_volumes)
                  max_storage_capacity 0 = inr tt ->
    load_price_data csv_file = inr price_df ->
    build_price_model price_df = inr price_model ->
    iloc_last price_df = inr last_row ->
    process_injections
      (get_price price_model (Dates last_row) (TimeIndex last_row)) costs
      (combine injection_dates injection_volumes) no_cash_flows
      = (t1, inr flows1) ->
    process_withdrawals
      (get_price price_model (Dates last_row) (TimeIndex last_row)) costs
      (combine withdrawal_dates withdrawal_volumes) flows1
      = (t2, inr flows2) ->
    py_min injections = inr first_injection ->
    py_max withdrawals = inr last_withdrawal ->
    ts_le first_injection last_withdrawal ->
    trace = [LoadPriceData csv_file; BuildPriceModel] ++ t1 ++ t2 ->
    r = {| contract_value :=
             acc_sale_revenue flows2 - acc_purchase_cost flows2
             - acc_injection_cost flows2 - acc_withdrawal_cost flows2
             - acc_transport_cost flows2
             - inject_Z (storage_months first_injection last_withdrawal)
               * monthly_storage_fee costs;
           total_sale_revenue := acc_sale_revenue flows2;
           total_purchase_cost := acc_purchase_cost flows2;
           total_injection_cost := acc_injection_cost flows2;
           total_withdrawal_cost := acc_withdrawal_cost flows2;
           total_transport_cost := acc_transport_cost flows2;
           total_storage_cost :=
             inject_Z (storage_months first_injection last_withdrawal)
             * monthly_storage_fee costs;
           duration_months := storage_months first_injection last_withdrawal;
           total_volume := py_sum injection_volumes;
           injection_details := acc_injection_details flows2;
           withdrawal_details := acc_withdrawal_details flows2 |} ->
    accepted injection_dates withdrawal_dates
             injection_volumes withdrawal_volumes
             csv_file max_storage_capacity costs trace r.

(** The cost schedule in force. *)
Definition costs_of (storage_costs : option StorageCosts) : StorageCosts :=
  match storage_costs with
  | None => default_storage_costs
  | Some costs => costs
  end.

End Program.

(** ** The interactive tool (storage_contract.py:70-91)

    One answer per line read.  [str.strip] and [str.lower] are arguments;
    the answers keep the values that the program formats into its
    messages. *)

Inductive Response : Type :=
| Unsupported                                   (* "Only forecasts up to 2025-09-30 ..." *)
| Estimated (date_input : string) (price : Q)   (* "Estimated price for ...: $..." *)
| Failed.                                       (* "Error: ... Please use YYYY-MM-DD format." *)

(** How the session ended: the sentinel was read, or [input()] met the end
    of its stream and raised. *)
Inductive Ending : Type := Quit | EndOfInput.

Section Tool.

Context {L : Libraries}.
Variables str_strip str_lower : string -> string.

(** [main] (storage_contract.py:58-61); the summary lines that its
    [load_data] and [build_model] print are not modelled. *)
Definition main : Res (Model * DataFrame) :=
  match load_price_data "Nat_Gas.csv" with
  | inl e => inl e
  | inr df =>
      match build_price_model df with
      | inl e => inl e
      | inr model => inr (model, df)
      end
  end.

(** The body of the [try] (storage_contract.py:84-89); every exception is
    caught and answered with the error message. *)
Definition answer (model : Model) (df : DataFrame) (date_input : string)
    : Response :=
  match to_datetime date_input with
  | None => Failed
  | Some t =>
      if ts_ltb (mkTimestamp 2025 9 30) t then Unsupported
      else
        match iloc_last df with
        | inl _ => Failed
        | inr r =>
            match estimate_price date_input model (Dates r) (TimeIndex r) with
            | inl _ => Failed
            | inr price => Estimated date_input price
            end
        end
  end.

(** The [while True] loop over the lines that [input()] returns. *)
Fixpoint prompt_loop (model : Model) (df : DataFrame) (lines : list string)
    : list Response * Ending :=
  match lines with
  | [] => ([], EndOfInput)
  | line :: rest =>
      let date_input := str_strip line in
      if String.eqb (str_lower date_input) "quit" then ([], Quit)
      else
        let (answers, ending) := prompt_loop model df rest in
        (answer model df date_input :: answers, ending)
  end.

End Tool.

(** ** Notions used by the further properties *)

(** A table of monthly observations: every row is dated one month after the
    row before it. *)
Fixpoint monthly (df : DataFrame) : Prop :=
  match df with
  | r1 :: ((r2 :: _) as rest) =>
      months_between (Dates r2) (Dates r1) = 1%Z /\ monthly rest
  | _ => True
  end.

(** The events of pricing one leg. *)
Definition injection_events (price : string -> Q)
    (leg : string * Q) : list Event :=
  [GetPrice (fst leg);
   PostInjection (snd leg) (price (fst leg)) (snd leg * price (fst leg))%Q].

Definition withdrawal_events (price : string -> Q)
    (leg : string * Q) : list Event :=
  [GetPrice (fst leg);
   PostWithdrawal (snd leg) (price (fst leg)) (snd leg * price (fst leg))%Q].

(** The detail record of a leg. *)
Definition detail_of (price : string -> Q) (leg : string * Q) : Detail :=
  mkDetail (fst leg) (snd leg) (price (fst leg)) (snd leg * price (fst leg))%Q.

(** ** An instance for evaluation

    A strict ['YYYY-MM-DD'] parser, a twelve-month price table, rational
    stand-ins for the trigonometric functions, and linear models given by
    their coefficients and intercept. *)

Module Demo.

Definition digit_of (c : ascii) : option Z :=
  let n := nat_of_ascii c in
  if ((48 <=? n) && (n <=? 57))%nat then Some (Z.of_nat (n - 48)) else None.

Fixpoint number_of (cs : list ascii) (acc : Z) : option Z :=
  match cs with
  | [] => Some acc
  | c :: cs' =>
      match digit_of c with
      | None => None
      | Some d => number_of cs' (10 * acc + d)
      end
  end.

Definition parse_iso_date (s : string) : option Timestamp :=
  match list_ascii_of_string s with
  | [y1; y2; y3; y4; s1; m1; m2; s2; d1; d2] =>
      if (Ascii.eqb s1 "-" && Ascii.eqb s2 "-")%bool then
        match number_of [y1; y2; y3; y4] 0, number_of [m1; m2] 0, number_of [d1; d2] 0 with
        | Some y, Some m, Some d =>
            let t := mkTimestamp y m d in
            if valid_date t then Some t else None
        | _, _, _ => None
        end
      else None
  | _ => None
  end.

Local Open Scope Q_scope.
Local Open Scope string_scope.

Definition nat_gas_csv : list (string * Q) :=
  [ ("2024-01-31", 10.0); ("2024-02-29", 10.1); ("2024-03-31", 10.2);
    ("2024-04-30", 10.3); ("2024-05-31", 10.4); ("2024-06-30", 10.5);
    ("2024-07-31", 10.6); ("2024-08-31", 10.7); ("2024-09-30", 10.8);
    ("2024-10-31", 10.9); ("2024-11-30", 11.0); ("2024-12-31", 11.1) ].

Definition demo_read_csv (csv_file : string) : option (list (string * Q)) :=
  if String.eqb csv_file "Nat_Gas.csv" then Some nat_gas_csv
  else if String.eqb csv_file "empty.csv" then Some []
  else None.

(** A linear model: [coef_] and [intercept_]. *)
Record LinearModel : Type := mkLinearModel { coef_ : list Q; intercept_ : Q }.

Fixpoint dot (ws xs : list Q) : Q :=
  match ws, xs with
  | w :: ws', x :: xs' => w * x + dot ws' xs'
  | _, _ => 0
  end.

Definition linear_predict (m : LinearModel) (x : list Q) : Q :=
  dot (coef_ m) x + intercept_ m.

(** A stand-in for the least-squares fit: the line through the first
    observation with a fixed slope per time step and per month; no sample,
    no model. *)
Definition demo_fit (X : list (list Q)) (y : list Q) : option LinearModel :=
  match y with
  | [] => None
  | p0 :: _ => Some (mkLinearModel [0.1; 0; 0; 0; 0; 0.05] (p0 - 0.05))
  end.

#[export] Instance demo_libraries : Libraries := {
  to_datetime := parse_iso_date;
  read_csv := demo_read_csv;
  np_sin := fun x => x - x * x * x / 6;
  np_cos := fun x => 1 - x * x / 2;
  np_pi := 355 # 113;
  Model := LinearModel;
  LinearRegression_fit := demo_fit;
  predict := linear_predict
}.

(** [str.strip] and [str.lower] on ASCII text. *)
Definition is_space (c : ascii) : bool :=
  let n := nat_of_ascii c in
  (((9 <=? n) && (n <=? 13)) || ((28 <=? n) && (n <=? 32)))%nat.

Fixpoint lstrip (cs : list ascii) : list ascii :=
  match cs with
  | c :: cs' => if is_space c then lstrip cs' else cs
  | [] => []
  end.

Definition ascii_strip (s : string) : string :=
  string_of_list_ascii
    (rev (lstrip (rev (lstrip (list_ascii_of_string s))))).

Definition lower_char (c : ascii) : ascii :=
  let n := nat_of_ascii c in
  if ((65 <=? n) && (n <=? 90))%nat then ascii_of_nat (n + 32) else c.

Definition ascii_lower (s : string) : string :=
  string_of_list_ascii (map lower_char (list_ascii_of_string s)).

(** A model whose raw prediction is negative at every date. *)
Definition sinking_model : @Model demo_libraries :=
  mkLinearModel [0; 0; 0; 0; 0; 0] (-3).

End Demo.

Set Warnings "-inexact-float,-notation-overridden".

(** ** The program on binary64 numbers

    The same two files once more, with Python's [float] as it is: IEEE 754
    binary64, with rounding, infinities and NaN ([PrimFloat]).  A Python
    [int] that meets a float in the program ([0], [1_000_000], a month
    count) is the float of the same value.  Every test that decides a branch
    is the test of the source on these numbers; in particular a comparison
    with a NaN operand is false. *)

Module Binary64.

Import PrimFloat FloatOps SpecFloat.
Local Open Scope float_scope.

(** [float(z)], rounded to nearest. *)
Definition float_of_Z (z : Z) : float :=
  SF2Prim (binary_normalize prec emax z 0%Z false).

(** [max(0, price)]: Python's [max] keeps its first argument unless a later
    one is strictly greater. *)
Definition py_max0 (price : float) : float := if 0 <? price then price else 0.

(** [sum(xs)]: accumulation from [0], one float after the other.  (CPython
    from version 3.12 on also collects the rounding errors of the additions
    and adds them at the end; that changes no sum of one or two floats.  The
    statements below leave [py_sum] uninterpreted or sum at most two
    volumes.) *)
Definition py_sum (xs : list float) : float := fold_left add xs 0.

Class Libraries : Type := {
  to_datetime : string -> option Timestamp;    (* [None]: it raises *)
  read_csv : string -> option (list (string * float));
                                  (* [None]: [os.path.exists] is false *)
  np_sin : float -> float;
  np_cos : float -> float;
  np_pi : float;
  Model : Type;                                (* a fitted LinearRegression *)
  LinearRegression_fit : list (list float) -> list float -> option Model;
  predict : Model -> list float -> float       (* model.predict(features)[0] *)
}.

Inductive Event : Type :=
| LoadPriceData (csv_file : string)              (* forecasting.py:164 *)
| BuildPriceModel                                (* forecasting.py:165 *)
| GetPrice (date_str : string)                   (* forecasting.py:185, :200 *)
| PostInjection (volume price cost : float)      (* forecasting.py:186-196 *)
| PostWithdrawal (volume price revenue : float). (* forecasting.py:201-211 *)

Definition M (A : Type) : Type := (list Event * Res A)%type.

Definition ret {A} (x : A) : M A := ([], inr x).
Definition raise {A} (e : Exception) : M A := ([], inl e).
Definition tell (ev : Event) : M unit := ([ev], inr tt).
Definition lift {A} (r : Res A) : M A := ([], r).
Definition bind {A B} (m : M A) (k : A -> M B) : M B :=
  match m with
  | (t, inl e) => (t, inl e)
  | (t, inr x) => let (t', r) := k x in (t ++ t', r)
  end.

Notation "x <- m ;; k" := (bind m (fun x => k))
  (at level 61, m at next level, right associativity).
Notation "m ;;; k" := (bind m (fun _ => k))
  (at level 61, right associativity).

Definition raise_if (cond : bool) (e : Exception) : M unit :=
  if cond then raise e else ret tt.

Definition outcome {A} (m : M A) : Res A := snd m.

Record Row : Type := mkRow {
  Dates : Timestamp; Prices : float;
  Month : Z; Year : Z; DayOfYear : Z; TimeIndex : Z }.

Definition DataFrame : Type := list Row.

Record StorageCosts : Type := mkStorageCosts {
  monthly_storage_fee : float;
  injection_cost : float;
  withdrawal_cost : float;
  transport_cost_per_trip : float }.

Definition default_storage_costs : StorageCosts :=
  {| monthly_storage_fee := 100000;
     injection_cost := 10;
     withdrawal_cost := 10;
     transport_cost_per_trip := 25000 |}.

Record Operation : Type := mkOperation {
  op_date : Timestamp; op_type : LegKind; op_volume : float; op_index : nat }.

Record Detail : Type := mkDetail {
  d_date : string; d_volume : float; d_price : float; d_amount : float }.

Record CashFlows : Type := mkCashFlows {
  acc_purchase_cost : float;
  acc_sale_revenue : float;
  acc_injection_cost : float;
  acc_withdrawal_cost : float;
  acc_transport_cost : float;
  acc_injection_details : list Detail;
  acc_withdrawal_details : list Detail }.

Record ContractResult : Type := mkContractResult {
  contract_value : float;
  total_sale_revenue : float;
  total_purchase_cost : float;
  total_injection_cost : float;
  total_withdrawal_cost : float;
  total_transport_cost : float;
  total_storage_cost : float;
  duration_months : Z;
  total_volume : float;
  injection_details : list Detail;
  withdrawal_details : list Detail }.

Fixpoint parse_all {L : Libraries} (dates : list string) : option (list Timestamp) :=
  match dates with
  | [] => Some []
  | s :: rest =>
      match to_datetime s with
      | None => None
      | Some t =>
          match parse_all rest with
          | None => None
          | Some ts => Some (t :: ts)
          end
      end
  end.

Fixpoint make_operations (k : LegKind) (i : nat)
    (dates : list Timestamp) (volumes : list float) : list Operation :=
  match dates, volumes with
  | d :: dates', v :: volumes' =>
      mkOperation d k v i :: make_operations k (S i) dates' volumes'
  | _, _ => []
  end.

(** [operations.sort(key=lambda x: x['date'])], stable. *)
Fixpoint insert_by_date (x : Operation) (l : list Operation) : list Operation :=
  match l with
  | [] => [x]
  | y :: l' =>
      if ts_ltb (op_date y) (op_date x) then y :: insert_by_date x l'
      else x :: y :: l'
  end.

Definition sort_by_date (l : list Operation) : list Operation :=
  fold_right insert_by_date [] l.

Section Program.

Context {L : Libraries}.

Definition features (time_index day_of_year mon : Z) : list float :=
  [ float_of_Z time_index;
    np_sin (2 * np_pi * float_of_Z day_of_year / 365.25);
    np_cos (2 * np_pi * float_of_Z day_of_year / 365.25);
    np_sin (4 * np_pi * float_of_Z day_of_year / 365.25);
    np_cos (4 * np_pi * float_of_Z day_of_year / 365.25);
    float_of_Z mon ].

Definition make_row (i : Z) (d : Timestamp) (p : float) : Row :=
  {| Dates := d; Prices := p;
     Month := month d; Year := year d; DayOfYear := dayofyear d;
     TimeIndex := i |}.

Fixpoint make_rows (i : Z) (dates : list Timestamp) (prices : list float)
    : DataFrame :=
  match dates, prices with
  | d :: dates', p :: prices' => make_row i d p :: make_rows (i + 1) dates' prices'
  | _, _ => []
  end.

(** [load_price_data] (forecasting.py:9-21). *)
Definition load_price_data (csv_file : string) : Res DataFrame :=
  match read_csv csv_file with
  | None => inl FileNotFoundError
  | Some table =>
      match parse_all (map fst table) with
      | None => inl LibraryError
      | Some dates => inr (make_rows 0 dates (map snd table))
      end
  end.

Definition design_row (r : Row) : list float :=
  features (TimeIndex r) (DayOfYear r) (Month r).

(** [build_price_model] (forecasting.py:23-36). *)
Definition build_price_model (df : DataFrame) : Res Model :=
  let X := map design_row df in
  let y := map Prices df in
  match LinearRegression_fit X y with
  | None => inl LibraryError
  | Some model => inr model
  end.

(** [estimate_price] (forecasting.py:38-58). *)
Definition estimate_price (date_str : string) (model : Model)
    (reference_date : Timestamp) (last_time_index : Z) : Res float :=
  match to_datetime date_str with
  | None => inl LibraryError
  | Some target_date =>
      let months_diff := months_between target_date reference_date in
      let time_index := (last_time_index + months_diff)%Z in
      let day_of_year := dayofyear target_date in
      let mon := month target_date in
      let price := predict model (features time_index day_of_year mon) in
      inr (py_max0 price)
  end.

Definition iloc_last (df : DataFrame) : Res Row :=
  match rev df with
  | [] => inl LibraryError
  | r :: _ => inr r
  end.

(** forecasting.py:104-109. *)
Definition parse_schedule (injection_dates withdrawal_dates : list string)
    : Res (list Timestamp * list Timestamp) :=
  match parse_all injection_dates with
  | None => inl InvalidDateError
  | Some injection_dates_parsed =>
      match parse_all withdrawal_dates with
      | None => inl InvalidDateError
      | Some withdrawal_dates_parsed =>
          inr (injection_dates_parsed, withdrawal_dates_parsed)
      end
  end.

(** forecasting.py:112-118: [if volume <= 0: raise]. *)
Fixpoint check_volumes (volumes : list float) : Res unit :=
  match volumes with
  | [] => inr tt
  | v :: rest =>
      if v <=? 0 then inl NonPositiveVolumeError
      else check_volumes rest
  end.

(** forecasting.py:151-161. *)
Fixpoint check_storage (operations : list Operation)
    (max_storage_capacity current_storage : float) : Res unit :=
  match operations with
  | [] => inr tt
  | op :: rest =>
      match op_type op with
      | Injection =>
          let current_storage := current_storage + op_volume op in
          if max_storage_capacity <? current_storage
          then inl CapacityExceededError
          else check_storage rest max_storage_capacity current_storage
      | Withdrawal =>
          let current_storage := current_storage - op_volume op in
          if current_storage <? 0
          then inl InsufficientStorageError
          else check_storage rest max_storage_capacity current_storage
      end
  end.

Definition no_cash_flows : CashFlows :=
  {| acc_purchase_cost := 0; acc_sale_revenue := 0;
     acc_injection_cost := 0; acc_withdrawal_cost := 0;
     acc_transport_cost := 0;
     acc_injection_details := []; acc_withdrawal_details := [] |}.

(** forecasting.py:183-196. *)
Fixpoint process_injections (get_price : string -> M float) (costs : StorageCosts)
    (legs : list (string * float)) (acc : CashFlows) : M CashFlows :=
  match legs with
  | [] => ret acc
  | (date, volume) :: rest =>
      price <- get_price date ;;
      let cost := volume * price in
      tell (PostInjection volume price cost) ;;;
      process_injections get_price costs rest
        {| acc_purchase_cost := acc_purchase_cost acc + cost;
           acc_sale_revenue := acc_sale_revenue acc;
           acc_injection_cost :=
             acc_injection_cost acc + (volume / 1000000) * injection_cost costs;
           acc_withdrawal_cost := acc_withdrawal_cost acc;
           acc_transport_cost :=
             acc_transport_cost acc + transport_cost_per_trip costs;
           acc_injection_details :=
             acc_injection_details acc ++ [mkDetail date volume price cost];
           acc_withdrawal_details := acc_withdrawal_details acc |}
  end.

(** forecasting.py:198-211. *)
Fixpoint process_withdrawals (get_price : string -> M float) (costs : StorageCosts)
    (legs : list (string * float)) (acc : CashFlows) : M CashFlows :=
  match legs with
  | [] => ret acc
  | (date, volume) :: rest =>
      price <- get_price date ;;
      let revenue := volume * price in
      tell (PostWithdrawal volume price revenue) ;;;
      process_withdrawals get_price costs rest
        {| acc_purchase_cost := acc_purchase_cost acc;
           acc_sale_revenue := acc_sale_revenue acc + revenue;
           acc_injection_cost := acc_injection_cost acc;
           acc_withdrawal_cost :=
             acc_withdrawal_cost acc + (volume / 1000000) * withdrawal_cost costs;
           acc_transport_cost :=
             acc_transport_cost acc + transport_cost_per_trip costs;
           acc_injection_details := acc_injection_details acc;
           acc_withdrawal_details :=
             acc_withdrawal_details acc ++ [mkDetail date volume price revenue] |}
  end.

(** forecasting.py:127-149. *)
Definition sorted_operations
    (injection_dates_parsed withdrawal_dates_parsed : list Timestamp)
    (injection_volumes withdrawal_volumes : list float) : list Operation :=
  sort_by_date
    (make_operations Injection 0 injection_dates_parsed injection_volumes
     ++ make_operations Withdrawal 0 withdrawal_dates_parsed withdrawal_volumes).

(** forecasting.py:169-171. *)
Definition get_price (price_model : Model) (reference_date : Timestamp)
    (last_time_index : Z) (date_str : string) : M float :=
  tell (GetPrice date_str) ;;;
  lift (estimate_price date_str price_model reference_date last_time_index).

(** [price_storage_contract] (forecasting.py:60-244). *)
Definition price_storage_contract
    (injection_dates withdrawal_dates : list string)
    (injection_volumes withdrawal_volumes : list float)
    (csv_file : string) (max_storage_capacity : float)
    (storage_costs : option StorageCosts) : M ContractResult :=
  let storage_costs :=
    match storage_costs with
    | None => default_storage_costs
    | Some costs => costs
    end in
  raise_if (negb (List.length injection_dates =? List.length injection_volumes)%nat)
           MismatchedLengthError ;;;
  raise_if (negb (List.length withdrawal_dates =? List.length withdrawal_volumes)%nat)
           MismatchedLengthError ;;;
  raise_if ((List.length injection_dates =? 0)%nat || (List.length withdrawal_dates =? 0)%nat)
           EmptyScheduleError ;;;
  parsed <- lift (parse_schedule injection_dates withdrawal_dates) ;;
  let injection_dates_parsed := fst parsed in
  let withdrawal_dates_parsed := snd parsed in
  lift (check_volumes injection_volumes) ;;;
  lift (check_volumes withdrawal_volumes) ;;;
  let total_injection_volume := py_sum injection_volumes in
  let total_withdrawal_volume := py_sum withdrawal_volumes in
  raise_if (1e-6 <? abs (total_injection_volume - total_withdrawal_volume))
           VolumeMismatchError ;;;
  let operations :=
    sorted_operations injection_dates_parsed withdrawal_dates_parsed
                      injection_volumes withdrawal_volumes in
  lift (check_storage operations max_storage_capacity 0) ;;;
  tell (LoadPriceData csv_file) ;;;
  price_df <- lift (load_price_data csv_file) ;;
  tell BuildPriceModel ;;;
  price_model <- lift (build_price_model price_df) ;;
  last_row <- lift (iloc_last price_df) ;;
  let reference_date := Dates last_row in
  let last_time_index := TimeIndex last_row in
  let get_price := get_price price_model reference_date last_time_index in
  flows <- process_injections get_price storage_costs
             (combine injection_dates injection_volumes) no_cash_flows ;;
  flows <- process_withdrawals get_price storage_costs
             (combine withdrawal_dates withdrawal_volumes) flows ;;
  first_injection_date <- lift (py_min injection_dates_parsed) ;;
  last_withdrawal_date <- lift (py_max withdrawal_dates_parsed) ;;
  raise_if (ts_ltb last_withdrawal_date first_injection_date)
           InvalidScheduleOrderError ;;;
  let duration_months := months_between last_withdrawal_date first_injection_date in
  let duration_months := if (duration_months =? 0)%Z then 1%Z else duration_months in
  let total_storage_cost :=
    float_of_Z duration_months * monthly_storage_fee storage_costs in
  let contract_value :=
    acc_sale_revenue flows - acc_purchase_cost flows - acc_injection_cost flows
    - acc_withdrawal_cost flows - acc_transport_cost flows - total_storage_cost in
  ret {| contract_value := contract_value;
         total_sale_revenue := acc_sale_revenue flows;
         total_purchase_cost := acc_purchase_cost flows;
         total_injection_cost := acc_injection_cost flows;
         total_withdrawal_cost := acc_withdrawal_cost flows;
         total_transport_cost := acc_transport_cost flows;
         total_storage_cost := total_storage_cost;
         duration_months := duration_months;
         total_volume := total_injection_volume;
         injection_details := acc_injection_details flows;
         withdrawal_details := acc_withdrawal_details flows |}.

(** The estimated price at a date string that parses. *)
Definition price_at (model : Model) (reference_date : Timestamp)
    (last_time_index : Z) (date_str : string) : float :=
  match estimate_price date_str model reference_date last_time_index with
  | inr p => p
  | inl _ => 0
  end.

End Program.

(** *** Notions used by the statements *)

(** A float that is a number. *)
Definition is_number (x : float) : Prop := (x =? x) = true.

(** The storage occupancy after one operation, and after each operation of
    a replay that starts at [level]. *)
Definition occupancy_after (level : float) (op : Operation) : float :=
  match op_type op with
  | Injection => level + op_volume op
  | Withdrawal => level - op_volume op
  end.

Fixpoint occupancy_levels (operations : list Operation) (level : float)
    : list float :=
  match operations with
  | [] => []
  | op :: rest =>
      occupancy_after level op :: occupancy_levels rest (occupancy_after level op)
  end.

Definition within_capacity (max_storage_capacity level : float) : Prop :=
  (0 <=? level) = true /\ (level <=? max_storage_capacity) = true.

(** The number a finite float stands for. *)
Definition exact (x : float) : Q :=
  match Prim2SF x with
  | S754_finite s m e =>
      ((if s then -1 else 1) * inject_Z (Z.pos m) * Qpower 2 e)%Q
  | _ => 0%Q
  end.

(** The sum of the numbers of a list of floats, without rounding. *)
Definition exact_sum (xs : list float) : Q :=
  fold_right (fun x s => (exact x + s)%Q) 0%Q xs.

(** The events of pricing one leg. *)
Definition injection_events (price : string -> float)
    (leg : string * float) : list Event :=
  [GetPrice (fst leg);
   PostInjection (snd leg) (price (fst leg)) (snd leg * price (fst leg))].

Definition withdrawal_events (price : string -> float)
    (leg : string * float) : list Event :=
  [GetPrice (fst leg);
   PostWithdrawal (snd leg) (price (fst leg)) (snd leg * price (fst leg))].

(** *** An instance for evaluation *)

Local Open Scope string_scope.

Definition nat_gas_csv : list (string * float) :=
  [ ("2024-01-31", 10.0); ("2024-02-29", 10.1); ("2024-03-31", 10.2);
    ("2024-04-30", 10.3); ("2024-05-31", 10.4); ("2024-06-30", 10.5);
    ("2024-07-31", 10.6); ("2024-08-31", 10.7); ("2024-09-30", 10.8);
    ("2024-10-31", 10.9); ("2024-11-30", 11.0); ("2024-12-31", 11.1) ].

Definition demo_read_csv (csv_file : string) : option (list (string * float)) :=
  if String.eqb csv_file "Nat_Gas.csv" then Some nat_gas_csv else None.

Record LinearModel : Type := mkLinearModel { coef_ : list float; intercept_ : float }.

Fixpoint dot (ws xs : list float) : float :=
  match ws, xs with
  | w :: ws', x :: xs' => w * x + dot ws' xs'
  | _, _ => 0
  end.

Definition linear_predict (m : LinearModel) (x : list float) : float :=
  dot (coef_ m) x + intercept_ m.

(** A stand-in for the least-squares fit, as in [Demo]. *)
Definition demo_fit (X : list (list float)) (y : list float) : option LinearModel :=
  match y with
  | [] => None
  | p0 :: _ => Some (mkLinearModel [0.1; 0; 0; 0; 0; 0.05] (p0 - 0.05))
  end.

#[export] Instance demo_libraries : Libraries := {
  to_datetime := Demo.parse_iso_date;
  read_csv := demo_read_csv;
  np_sin := fun x => x - x * x * x / 6;
  np_cos := fun x => 1 - x * x / 2;
  np_pi := 3.141592653589793;
  Model := LinearModel;
  LinearRegression_fit := demo_fit;
  predict := linear_predict
}.

End Binary64.

(** * Properties *)

Local Open Scope Q_scope.

(** ** Comparisons *)

Lemma Qltb_true (a b : Q) : Qltb a b = true <-> a < b.
Proof.
  unfold Qltb. rewrite negb_true_iff. split; intro H.
  - apply Qnot_le_lt. intro Hle. apply Qle_bool_iff in Hle. congruence.
  - destruct (Qle_bool b a) eqn:E; [|reflexivity].
    apply Qle_bool_iff in E. lra.
Qed.

Lemma Qltb_false (a b : Q) : Qltb a b = false <-> b <= a.
Proof.
  unfold Qltb. rewrite negb_false_iff. apply Qle_bool_iff.
Qed.

Lemma Qle_bool_false (a b : Q) : Qle_bool a b = false <-> b < a.
Proof.
  rewrite <- Qltb_true. unfold Qltb. now rewrite negb_true_iff.
Qed.

Lemma py_max0_nonneg (p : Q) : 0 <= py_max0 p.
Proof.
  unfold py_max0. destruct (Qltb 0 p) eqn:E; [|lra].
  apply Qltb_true in E. lra.
Qed.

Lemma py_max0_Qmax (p : Q) : py_max0 p == Qmax 0 p.
Proof.
  unfold py_max0. destruct (Qltb 0 p) eqn:E.
  - apply Qltb_true in E. symmetry. apply Q.max_r. lra.
  - apply Qltb_false in E. symmetry. apply Q.max_l. lra.
Qed.

(** ** The price estimator *)

Section Estimator.

Context {L : Libraries}.

(** C6.  Whenever the target date parses, [estimate_price] returns
    [max(0, p)] for [p] the prediction of the fitted model at the six
    features of that date: the result equals [p] when [p] is positive and is
    the integer [0] otherwise, so it is never negative. *)
Theorem estimate_price_clamped :
  forall (date_str : string) (model : Model) (reference_date : Timestamp)
         (last_time_index : Z) (target_date : Timestamp),
    to_datetime date_str = Some target_date ->
    let p := predict model
               (features (last_time_index + months_between target_date reference_date)
                         (dayofyear target_date) (month target_date)) in
    exists q,
      estimate_price date_str model reference_date last_time_index = inr q /\
      q == Qmax 0 p /\
      0 <= q /\
      (0 < p -> q = p) /\
      (p <= 0 -> q = 0).
Proof.
  intros date_str model reference_date last_time_index target_date Hparse p.
  exists (py_max0 p). unfold estimate_price. rewrite Hparse. fold p.
  split; [reflexivity|]. split; [apply py_max0_Qmax|].
  split; [apply py_max0_nonneg|].
  unfold py_max0. split; intro Hp.
  - apply Qltb_true in Hp. now rewrite Hp.
  - apply Qltb_false in Hp. now rewrite Hp.
Qed.

Lemma make_rows_columns (dates : list Timestamp) :
  forall (prices : list Q) (i : Z) (r : Row),
    In r (make_rows i dates prices) ->
    Month r = month (Dates r) /\ Year r = year (Dates r)
    /\ DayOfYear r = dayofyear (Dates r).
Proof.
  induction dates as [|d dates IH]; intros [|p prices] i r Hin;
    simpl in Hin; try contradiction.
  destruct Hin as [<- | Hin]; [now cbn | eauto].
Qed.

Lemma iloc_last_In (df : DataFrame) (r : Row) :
  iloc_last df = inr r -> In r df.
Proof.
  unfold iloc_last. destruct (rev df) as [|r' rest] eqn:E; [discriminate|].
  intros [= ->]. apply in_rev. rewrite E. now left.
Qed.

Lemma months_between_same (t : Timestamp) : months_between t t = 0%Z.
Proof. unfold months_between. lia. Qed.

(** C8.  At the reference date (the date of the last row of the price
    table) the month difference is [0], so the regressors built by
    [estimate_price] are exactly the last line of the design matrix, and the
    estimate is the model's prediction on that line, clamped at zero. *)
Theorem estimate_at_reference_date :
  forall (csv_file date_str : string) (df : DataFrame) (last_row : Row)
         (model : Model),
    load_price_data csv_file = inr df ->
    iloc_last df = inr last_row ->
    to_datetime date_str = Some (Dates last_row) ->
    let reference_date := Dates last_row in
    let last_time_index := TimeIndex last_row in
    months_between reference_date reference_date = 0%Z /\
    features (last_time_index + months_between reference_date reference_date)
             (dayofyear reference_date) (month reference_date)
      = design_row last_row /\
    estimate_price date_str model reference_date last_time_index
      = inr (py_max0 (predict model (design_row last_row))).
Proof.
  intros csv_file date_str df last_row model Hload Hlast Hparse ref lti.
  assert (Hcols : Month last_row = month ref /\ Year last_row = year ref
                  /\ DayOfYear last_row = dayofyear ref).
  { unfold load_price_data in Hload.
    destruct (read_csv csv_file) as [table|]; [|discriminate].
    destruct (parse_all (map fst table)) as [dates|]; [|discriminate].
    injection Hload as <-.
    eapply make_rows_columns, iloc_last_In, Hlast. }
  destruct Hcols as (Hm & _ & Hd).
  assert (Hfeat : features (lti + months_between ref ref) (dayofyear ref) (month ref)
                  = design_row last_row).
  { unfold design_row. rewrite months_between_same, Z.add_0_r, Hm, Hd.
    reflexivity. }
  split; [apply months_between_same|]. split; [exact Hfeat|].
  unfold estimate_price. rewrite Hparse. cbv zeta. fold ref lti.
  now rewrite Hfeat.
Qed.

End Estimator.

(** ** Chronological order *)

Local Open Scope Z_scope.

Lemma ts_ltb_true (a b : Timestamp) :
  ts_ltb a b = true <->
  year a < year b
  \/ (year a = year b
      /\ (month a < month b \/ (month a = month b /\ day a < day b))).
Proof.
  unfold ts_ltb.
  rewrite !orb_true_iff, !andb_true_iff, orb_true_iff, andb_true_iff.
  rewrite !Z.ltb_lt, !Z.eqb_eq. tauto.
Qed.

Lemma ts_ltb_false (a b : Timestamp) :
  ts_ltb a b = false <->
  year b < year a
  \/ (year a = year b
      /\ (month b < month a \/ (month a = month b /\ day b <= day a))).
Proof.
  rewrite <- not_true_iff_false, ts_ltb_true. lia.
Qed.

Ltac ts_order :=
  unfold op_le, ts_lt, ts_le in *;
  repeat match goal with
         | H : ts_ltb _ _ = true |- _ => apply ts_ltb_true in H
         | H : ts_ltb _ _ = false |- _ => apply ts_ltb_false in H
         | |- ts_ltb _ _ = true => apply ts_ltb_true
         | |- ts_ltb _ _ = false => apply ts_ltb_false
         end;
  lia.

Lemma ts_le_refl (a : Timestamp) : ts_le a a.
Proof. ts_order. Qed.

Lemma ts_le_trans (a b c : Timestamp) : ts_le a b -> ts_le b c -> ts_le a c.
Proof. intros; ts_order. Qed.

Lemma ts_le_antisym (a b : Timestamp) : ts_le a b -> ts_le b a -> a = b.
Proof.
  intros Hab Hba. destruct a as [ya ma da], b as [yb mb db].
  unfold ts_le in *. apply ts_ltb_false in Hab, Hba. cbn in *.
  f_equal; lia.
Qed.

Lemma ts_eqb_eq (a b : Timestamp) : ts_eqb a b = true <-> a = b.
Proof.
  unfold ts_eqb. rewrite !andb_true_iff, !Z.eqb_eq.
  destruct a, b; cbn. split; [intros [[-> ->] ->]; reflexivity|].
  intros [= -> -> ->]; auto.
Qed.

(** [min] and [max] return the least and the greatest date of the list. *)
Lemma ts_min_spec (ts : list Timestamp) :
  forall t0, In (ts_min t0 ts) (t0 :: ts)
             /\ forall t, In t (t0 :: ts) -> ts_le (ts_min t0 ts) t.
Proof.
  induction ts as [|t1 ts IH]; intro t0; cbn [ts_min fold_left].
  - split; [now left|]. intros t [<-|[]]. apply ts_le_refl.
  - fold (ts_min (if ts_ltb t1 t0 then t1 else t0) ts).
    destruct (IH (if ts_ltb t1 t0 then t1 else t0)) as [Hin Hle].
    split.
    + destruct Hin as [Hin|Hin]; [|now right; right].
      rewrite <- Hin. destruct (ts_ltb t1 t0); [right; now left | now left].
    + intros t Ht.
      assert (Hm : ts_le (ts_min (if ts_ltb t1 t0 then t1 else t0) ts)
                         (if ts_ltb t1 t0 then t1 else t0))
        by (apply Hle; now left).
      destruct Ht as [<-|[<-|Ht]].
      * eapply ts_le_trans; [exact Hm|].
        destruct (ts_ltb t1 t0) eqn:E; [ts_order | apply ts_le_refl].
      * eapply ts_le_trans; [exact Hm|].
        destruct (ts_ltb t1 t0) eqn:E; [apply ts_le_refl | exact E].
      * apply Hle. now right.
Qed.

Lemma ts_max_spec (ts : list Timestamp) :
  forall t0, In (ts_max t0 ts) (t0 :: ts)
             /\ forall t, In t (t0 :: ts) -> ts_le t (ts_max t0 ts).
Proof.
  induction ts as [|t1 ts IH]; intro t0; cbn [ts_max fold_left].
  - split; [now left|]. intros t [<-|[]]. apply ts_le_refl.
  - fold (ts_max (if ts_ltb t0 t1 then t1 else t0) ts).
    destruct (IH (if ts_ltb t0 t1 then t1 else t0)) as [Hin Hle].
    split.
    + destruct Hin as [Hin|Hin]; [|now right; right].
      rewrite <- Hin. destruct (ts_ltb t0 t1); [right; now left | now left].
    + intros t Ht.
      assert (Hm : ts_le (if ts_ltb t0 t1 then t1 else t0)
                         (ts_max (if ts_ltb t0 t1 then t1 else t0) ts))
        by (apply Hle; now left).
      destruct Ht as [<-|[<-|Ht]].
      * eapply ts_le_trans; [|exact Hm].
        destruct (ts_ltb t0 t1) eqn:E; [ts_order | apply ts_le_refl].
      * eapply ts_le_trans; [|exact Hm].
        destruct (ts_ltb t0 t1) eqn:E; [apply ts_le_refl | exact E].
      * apply Hle. now right.
Qed.

(** ** The sort *)

Lemma insert_by_date_perm (x : Operation) (l : list Operation) :
  Permutation (insert_by_date x l) (x :: l).
Proof.
  induction l as [|y l IH]; cbn; [reflexivity|].
  destruct (ts_ltb (op_date y) (op_date x)); [|reflexivity].
  rewrite IH. apply perm_swap.
Qed.

Lemma sort_by_date_perm (l : list Operation) :
  Permutation (sort_by_date l) l.
Proof.
  induction l as [|x l IH]; cbn; [reflexivity|].
  rewrite insert_by_date_perm. now constructor.
Qed.

Lemma insert_by_date_sorted (x : Operation) (l : list Operation) :
  StronglySorted op_le l -> StronglySorted op_le (insert_by_date x l).
Proof.
  induction 1 as [|y l Hs IH Hy]; cbn.
  - repeat constructor.
  - destruct (ts_ltb (op_date y) (op_date x)) eqn:E.
    + constructor; [exact IH|].
      rewrite insert_by_date_perm. constructor; [|exact Hy].
      unfold op_le. ts_order.
    + constructor; [now constructor|].
      constructor; [exact E|].
      eapply Forall_impl; [|exact Hy]. intros z Hz.
      unfold op_le in *. eapply ts_le_trans; [exact E|exact Hz].
Qed.

Lemma sort_by_date_sorted (l : list Operation) :
  StronglySorted op_le (sort_by_date l).
Proof.
  induction l as [|x l IH]; cbn; [constructor|].
  now apply insert_by_date_sorted.
Qed.

(** Stability: the operations of one date keep their relative order. *)
Lemma insert_by_date_stable (d : Timestamp) (x : Operation) (l : list Operation) :
  filter (on_date d) (insert_by_date x l) = filter (on_date d) (x :: l).
Proof.
  induction l as [|y l IH]; [reflexivity|].
  cbn [insert_by_date].
  destruct (ts_ltb (op_date y) (op_date x)) eqn:E; [|reflexivity].
  cbn [filter] in *. rewrite IH.
  destruct (on_date d x) eqn:Ex; [|reflexivity].
  destruct (on_date d y) eqn:Ey; [|reflexivity].
  unfold on_date in *. apply ts_eqb_eq in Ex, Ey.
  rewrite Ex, Ey in E. ts_order.
Qed.

Lemma sort_by_date_stable (d : Timestamp) (l : list Operation) :
  filter (on_date d) (sort_by_date l) = filter (on_date d) l.
Proof.
  induction l as [|x l IH]; [reflexivity|].
  cbn [sort_by_date fold_right]. fold (sort_by_date l).
  rewrite insert_by_date_stable. cbn [filter]. now rewrite IH.
Qed.

Lemma sort_by_date_head (l : list Operation) (o : Operation) (rest : list Operation) :
  sort_by_date l = o :: rest ->
  In o l /\ forall x, In x l -> op_le o x.
Proof.
  intro E. pose proof (sort_by_date_sorted l) as Hs.
  pose proof (sort_by_date_perm l) as Hp. rewrite E in Hs, Hp.
  split.
  - eapply Permutation_in; [exact Hp | now left].
  - intros x Hx. apply Permutation_sym in Hp.
    apply (Permutation_in _ Hp) in Hx.
    destruct Hx as [<-|Hx]; [apply ts_le_refl|].
    apply StronglySorted_inv in Hs. destruct Hs as [_ Hall].
    rewrite Forall_forall in Hall. now apply Hall.
Qed.

(** ** The operations list *)

Local Open Scope Q_scope.

Lemma make_operations_In (k : LegKind) (dates : list Timestamp) :
  forall (volumes : list Q) (i : nat) (o : Operation),
    In o (make_operations k i dates volumes) ->
    op_type o = k /\ In (op_date o) dates /\ In (op_volume o) volumes.
Proof.
  induction dates as [|d dates IH]; intros [|v volumes] i o Hin;
    cbn in Hin; try contradiction.
  destruct Hin as [<-|Hin]; cbn.
  - auto.
  - destruct (IH _ _ _ Hin) as (? & ? & ?). auto.
Qed.

Lemma make_operations_nonempty (k : LegKind) (i : nat) (d : Timestamp)
    (dates : list Timestamp) (volumes : list Q) :
  List.length (d :: dates) = List.length volumes ->
  exists o, In o (make_operations k i (d :: dates) volumes).
Proof.
  destruct volumes as [|v volumes]; [discriminate|].
  intros _. eexists. cbn. now left.
Qed.

Lemma check_volumes_ok (volumes : list Q) :
  check_volumes volumes = inr tt <-> Forall (fun v => 0 < v) volumes.
Proof.
  induction volumes as [|v volumes IH]; cbn.
  - split; [constructor | reflexivity].
  - destruct (Qle_bool v 0) eqn:E.
    + split; [discriminate|]. intro H. inversion H; subst.
      apply Qle_bool_iff in E. lra.
    + apply Qle_bool_false in E. rewrite IH. split.
      * now constructor.
      * intro H. now inversion H.
Qed.

(** ** The replay of the operations *)

(** A schedule whose last withdrawal precedes its first injection starts
    its replay with a withdrawal from empty storage; so a replay that raises
    nothing has its last withdrawal no earlier than its first injection. *)
Lemma replay_implies_schedule_order
    (i0 w0 : Timestamp) (irest wrest : list Timestamp)
    (ivols wvols : list Q) (cap : Q) :
  List.length (w0 :: wrest) = List.length wvols ->
  Forall (fun v => 0 < v) wvols ->
  check_storage (sorted_operations (i0 :: irest) (w0 :: wrest) ivols wvols) cap 0
    = inr tt ->
  ts_ltb (ts_max w0 wrest) (ts_min i0 irest) = false.
Proof.
  intros Hlen Hpos Hcheck.
  destruct (ts_ltb (ts_max w0 wrest) (ts_min i0 irest)) eqn:Hord; [|reflexivity].
  exfalso. unfold sorted_operations in Hcheck.
  set (injs := make_operations Injection 0 (i0 :: irest) ivols) in *.
  set (wds := make_operations Withdrawal 0 (w0 :: wrest) wvols) in *.
  destruct (make_operations_nonempty Withdrawal 0 w0 wrest wvols Hlen) as [w Hw].
  fold wds in Hw.
  destruct (make_operations_In _ _ _ _ _ Hw) as (_ & Hwd & _).
  destruct (sort_by_date (injs ++ wds)) as [|o rest] eqn:Es.
  - pose proof (sort_by_date_perm (injs ++ wds)) as Hp. rewrite Es in Hp.
    apply Permutation_nil in Hp. apply app_eq_nil in Hp.
    destruct Hp as [_ Hnil]. rewrite Hnil in Hw. contradiction.
  - destruct (sort_by_date_head _ _ _ Es) as [Hin Hmin].
    apply in_app_or in Hin. destruct Hin as [Hin|Hin].
    + destruct (make_operations_In _ _ _ _ _ Hin) as (_ & Hod & _).
      assert (How : op_le o w) by (apply Hmin, in_or_app; now right).
      pose proof (proj2 (ts_min_spec irest i0) _ Hod) as H1.
      pose proof (proj2 (ts_max_spec wrest w0) _ Hwd) as H2.
      ts_order.
    + destruct (make_operations_In _ _ _ _ _ Hin) as (Hty & _ & Hvol).
      rewrite Forall_forall in Hpos. specialize (Hpos _ Hvol).
      cbn in Hcheck. rewrite Hty in Hcheck.
      assert (E : Qltb (0 - op_volume o) 0 = true) by (apply Qltb_true; lra).
      rewrite E in Hcheck. discriminate.
Qed.

(** ** Sequencing *)

Lemma bind_inr_inv {A B : Type} (m : M A) (k : A -> M B)
    (t : list Event) (y : B) :
  bind m k = (t, inr y) ->
  exists t1 x t2, m = (t1, inr x) /\ k x = (t2, inr y) /\ t = t1 ++ t2.
Proof.
  unfold bind. destruct m as [t1 [e|x]]; [discriminate|].
  destruct (k x) as [t2 r] eqn:Ek. intros [= <- ->].
  exists t1, x, t2. auto.
Qed.

Lemma bind_inl_inv {A B : Type} (m : M A) (k : A -> M B)
    (t : list Event) (e : Exception) :
  bind m k = (t, inl e) ->
  m = (t, inl e)
  \/ exists t1 x t2, m = (t1, inr x) /\ k x = (t2, inl e) /\ t = t1 ++ t2.
Proof.
  unfold bind. destruct m as [t1 [e'|x]].
  - intros [= <- <-]. now left.
  - destruct (k x) as [t2 r] eqn:Ek. intros [= <- ->].
    right. exists t1, x, t2. auto.
Qed.

Lemma bind_ret {A B : Type} (x : A) (k : A -> M B) : bind (ret x) k = k x.
Proof. unfold bind, ret. now destruct (k x). Qed.

Lemma bind_lift_inr {A B : Type} (x : A) (k : A -> M B) :
  bind (lift (inr x)) k = k x.
Proof. exact (bind_ret x k). Qed.

Lemma raise_if_inr (c : bool) (e : Exception) (t : list Event) (u : unit) :
  raise_if c e = (t, inr u) -> c = false /\ t = [].
Proof. destruct c; cbn; [discriminate|]. intros [= <-]. auto. Qed.

Lemma raise_if_inl (c : bool) (e e' : Exception) (t : list Event) :
  raise_if c e = (t, inl e') -> c = true /\ e' = e /\ t = [].
Proof. destruct c; cbn; [|discriminate]. intros [= <- <-]. auto. Qed.

Lemma lift_eq {A : Type} (r r' : Res A) (t : list Event) :
  lift r = (t, r') -> r = r' /\ t = [].
Proof. unfold lift. intros [= <- <-]. auto. Qed.

Lemma tell_inr (ev : Event) (t : list Event) (u : unit) :
  tell ev = (t, inr u) -> t = [ev].
Proof. unfold tell. now intros [= <-]. Qed.

Lemma tell_inl (ev : Event) (t : list Event) (e : Exception) :
  tell ev = (t, inl e) -> False.
Proof. unfold tell. discriminate. Qed.

(** One step of a run that returned: the first computation returned, and
    the continuation returned. *)
Ltac run_step H :=
  let t1 := fresh "t" in
  let x := fresh "x" in
  let t2 := fresh "t" in
  let Hm := fresh "Hm" in
  apply bind_inr_inv in H; destruct H as (t1 & x & t2 & Hm & H & ->);
  first [ apply raise_if_inr in Hm; destruct Hm as [Hm ->]
        | apply lift_eq in Hm; destruct Hm as [Hm ->]
        | apply tell_inr in Hm; subst t1
        | idtac ];
  cbv beta in H.

(** One step of a run that raised: either the first computation raised
    (first goal) or it returned and the continuation raised. *)
Ltac fail_step H :=
  let t1 := fresh "t" in
  let x := fresh "x" in
  let t2 := fresh "t" in
  let Hm := fresh "Hm" in
  apply bind_inl_inv in H;
  destruct H as [H | (t1 & x & t2 & Hm & H & ->)];
  [ first [ apply raise_if_inl in H; destruct H as (H & -> & ->)
          | apply lift_eq in H; destruct H as [H ->]
          | apply tell_inl in H; contradiction
          | idtac ]
  | first [ apply raise_if_inr in Hm; destruct Hm as [Hm ->]
          | apply lift_eq in Hm; destruct Hm as [Hm ->]
          | apply tell_inr in Hm; subst t1
          | idtac ];
    cbv beta in H ].

(** ** Sums *)




(** ** The cash-flow loops *)

Section Valuation.

Context {L : Libraries}.

Lemma parse_all_length (dates : list string) :
  forall ts, parse_all dates = Some ts -> List.length ts = List.length dates.
Proof.
  induction dates as [|s dates IH]; cbn; intros ts H.
  - now injection H as <-.
  - destruct (to_datetime s); [|discriminate].
    destruct (parse_all dates) as [ts'|]; [|discriminate].
    injection H as <-. cbn. now rewrite (IH ts').
Qed.

Lemma parse_all_Forall2 (dates : list string) (ts : list Timestamp) :
  parse_all dates = Some ts <->
  Forall2 (fun s t => to_datetime s = Some t) dates ts.
Proof.
  revert ts. induction dates as [|s dates IH]; intro ts; cbn.
  - split.
    + intros [= <-]. constructor.
    + intro H. now inversion H.
  - split.
    + destruct (to_datetime s) as [t|] eqn:Es; [|discriminate].
      destruct (parse_all dates) as [ts'|]; [|discriminate].
      intros [= <-]. constructor; [exact Es | now apply IH].
    + intro H. inversion H as [|? t ? ts' Ht Hts]; subst.
      rewrite Ht. apply IH in Hts. now rewrite Hts.
Qed.

Lemma parse_all_In (dates : list string) (ts : list Timestamp) (s : string) :
  parse_all dates = Some ts -> In s dates -> exists t, to_datetime s = Some t.
Proof.
  rewrite parse_all_Forall2. induction 1 as [|s' t' ? ? Ht _ IH]; cbn.
  - contradiction.
  - intros [<-|Hin]; eauto.
Qed.

Variable model : Model.
Variable reference_date : Timestamp.
Variable last_time_index : Z.
Variable costs : StorageCosts.

Let price : string -> Q := price_at model reference_date last_time_index.
Let lookup : string -> M Q := get_price model reference_date last_time_index.

Lemma get_price_parsed (date_str : string) (t : Timestamp) :
  to_datetime date_str = Some t ->
  lookup date_str = ([GetPrice date_str], inr (price date_str)).
Proof.
  intro H. unfold lookup, get_price, price, price_at, estimate_price.
  rewrite H. reflexivity.
Qed.

Lemma parsable_combine (dates : list string) (ts : list Timestamp)
    (volumes : list Q) :
  parse_all dates = Some ts -> parsable (combine dates volumes).
Proof.
  intros H [s v] Hin. apply in_combine_l in Hin.
  exact (parse_all_In _ _ _ H Hin).
Qed.

(** The injection loop never raises on dates that parse; it adds to the
    purchase, injection and transport totals and appends one detail per
    leg, in input order. *)
Lemma process_injections_spec (legs : list (string * Q)) :
  forall acc, parsable legs ->
  exists tr acc',
    process_injections lookup costs legs acc = (tr, inr acc') /\
    acc_purchase_cost acc'
      == acc_purchase_cost acc + sum_of (fun leg => snd leg * price (fst leg)) legs /\
    acc_injection_cost acc'
      == acc_injection_cost acc
         + sum_of (fun leg => snd leg / 1000000 * injection_cost costs) legs /\
    acc_transport_cost acc'
      == acc_transport_cost acc
         + inject_Z (Z.of_nat (List.length legs)) * transport_cost_per_trip costs /\
    acc_sale_revenue acc' = acc_sale_revenue acc /\
    acc_withdrawal_cost acc' = acc_withdrawal_cost acc /\
    acc_injection_details acc'
      = acc_injection_details acc
        ++ map (fun leg => mkDetail (fst leg) (snd leg) (price (fst leg))
                                    (snd leg * price (fst leg))) legs /\
    acc_withdrawal_details acc' = acc_withdrawal_details acc.
Proof.
  induction legs as [|[d v] legs IH]; intros acc Hp.
  - exists [], acc. cbn [process_injections sum_of fold_right map List.length].
    change (inject_Z (Z.of_nat 0)) with 0.
    rewrite app_nil_r. repeat split; try reflexivity; ring.
  - destruct (Hp (d, v) (or_introl eq_refl)) as [t Ht]. cbn [fst] in Ht.
    cbn [process_injections].
    rewrite (get_price_parsed d t Ht).
    unfold bind at 1. cbv beta. unfold bind at 1, tell. cbv beta iota.
    match goal with
    | |- context [process_injections _ _ _ ?a] =>
        destruct (IH a (fun leg H => Hp leg (or_intror H)))
          as (tr & acc' & Hrun & H1 & H2 & H3 & H4 & H5 & H6 & H7)
    end.
    exists ([GetPrice d] ++ [PostInjection v (price d) (v * price d)] ++ tr), acc'.
    split; [now rewrite Hrun|].
    cbn [acc_purchase_cost acc_injection_cost acc_transport_cost
                     acc_sale_revenue acc_withdrawal_cost acc_injection_details
                     acc_withdrawal_details] in *.
    unfold sum_of in *. cbn [fold_right map List.length fst snd].
    rewrite Nat2Z.inj_succ. unfold Z.succ. rewrite inject_Z_plus.
    rewrite H1, H2, H3, H4, H5, H6, H7, <- app_assoc.
    repeat split; try reflexivity; ring.
Qed.

Lemma process_withdrawals_spec (legs : list (string * Q)) :
  forall acc, parsable legs ->
  exists tr acc',
    process_withdrawals lookup costs legs acc = (tr, inr acc') /\
    acc_sale_revenue acc'
      == acc_sale_revenue acc + sum_of (fun leg => snd leg * price (fst leg)) legs /\
    acc_withdrawal_cost acc'
      == acc_withdrawal_cost acc
         + sum_of (fun leg => snd leg / 1000000 * withdrawal_cost costs) legs /\
    acc_transport_cost acc'
      == acc_transport_cost acc
         + inject_Z (Z.of_nat (List.length legs)) * transport_cost_per_trip costs /\
    acc_purchase_cost acc' = acc_purchase_cost acc /\
    acc_injection_cost acc' = acc_injection_cost acc /\
    acc_withdrawal_details acc'
      = acc_withdrawal_details acc
        ++ map (fun leg => mkDetail (fst leg) (snd leg) (price (fst leg))
                                    (snd leg * price (fst leg))) legs /\
    acc_injection_details acc' = acc_injection_details acc.
Proof.
  induction legs as [|[d v] legs IH]; intros acc Hp.
  - exists [], acc. cbn [process_withdrawals sum_of fold_right map List.length].
    change (inject_Z (Z.of_nat 0)) with 0.
    rewrite app_nil_r. repeat split; try reflexivity; ring.
  - destruct (Hp (d, v) (or_introl eq_refl)) as [t Ht]. cbn [fst] in Ht.
    cbn [process_withdrawals].
    rewrite (get_price_parsed d t Ht).
    unfold bind at 1. cbv beta. unfold bind at 1, tell. cbv beta iota.
    match goal with
    | |- context [process_withdrawals _ _ _ ?a] =>
        destruct (IH a (fun leg H => Hp leg (or_intror H)))
          as (tr & acc' & Hrun & H1 & H2 & H3 & H4 & H5 & H6 & H7)
    end.
    exists ([GetPrice d] ++ [PostWithdrawal v (price d) (v * price d)] ++ tr), acc'.
    split; [now rewrite Hrun|].
    cbn [acc_purchase_cost acc_injection_cost acc_transport_cost
                     acc_sale_revenue acc_withdrawal_cost acc_injection_details
                     acc_withdrawal_details] in *.
    unfold sum_of in *. cbn [fold_right map List.length fst snd].
    rewrite Nat2Z.inj_succ. unfold Z.succ. rewrite inject_Z_plus.
    rewrite H1, H2, H3, H4, H5, H6, H7, <- app_assoc.
    repeat split; try reflexivity; ring.
Qed.

End Valuation.

(** ** The validation rules *)

Lemma check_volumes_forallb (volumes : list Q) :
  check_volumes volumes
  = if forallb (Qltb 0) volumes then inr tt else inl NonPositiveVolumeError.
Proof.
  induction volumes as [|v volumes IH]; cbn; [reflexivity|].
  unfold Qltb at 1. destruct (Qle_bool v 0); cbn; [reflexivity | exact IH].
Qed.

Lemma forallb_positive (volumes : list Q) :
  forallb (Qltb 0) volumes = true <-> Forall (fun v => 0 < v) volumes.
Proof.
  rewrite <- check_volumes_ok, check_volumes_forallb.
  destruct (forallb (Qltb 0) volumes); split; congruence.
Qed.

Lemma sorted_operations_positive (ip wp : list Timestamp) (ivols wvols : list Q) :
  Forall (fun v => 0 < v) ivols -> Forall (fun v => 0 < v) wvols ->
  Forall (fun op => 0 < op_volume op) (sorted_operations ip wp ivols wvols).
Proof.
  intros Hi Hw. rewrite Forall_forall in *. intros op Hin.
  unfold sorted_operations in Hin.
  apply (Permutation_in _ (sort_by_date_perm _)) in Hin.
  apply in_app_or in Hin.
  destruct Hin as [Hin|Hin]; apply make_operations_In in Hin;
    destruct Hin as (_ & _ & Hv); auto.
Qed.

(** The replay of the program and rule 7 of the specification agree. *)
Lemma check_storage_first_violation_eq (cap : Q) (operations : list Operation) :
  forall level,
    Forall (fun op => 0 < op_volume op) operations ->
    0 <= level -> (level <= cap \/ level <= 0) ->
    check_storage operations cap level
    = match first_violation cap (occupancy_levels operations level) with
      | Some e => inl e
      | None => inr tt
      end.
Proof.
  induction operations as [|op rest IH]; intros level Hpos Hlo Hhi;
    [reflexivity|].
  inversion Hpos as [|? ? Hv Hrest]; subst.
  cbn [check_storage occupancy_levels first_violation].
  unfold occupancy_after. destruct (op_type op).
  - assert (E0 : Qltb (level + op_volume op) 0 = false)
      by (apply Qltb_false; lra).
    rewrite E0.
    destruct (Qltb cap (level + op_volume op)) eqn:E; [reflexivity|].
    apply Qltb_false in E. apply IH; [assumption | lra | lra].
  - destruct (Qltb (level - op_volume op) 0) eqn:E; [reflexivity|].
    apply Qltb_false in E.
    assert (E1 : Qltb cap (level - op_volume op) = false)
      by (apply Qltb_false; lra).
    rewrite E1. apply IH; [assumption | lra | lra].
Qed.

Lemma first_violation_none (cap : Q) (levels : list Q) :
  first_violation cap levels = None <-> Forall (within_capacity cap) levels.
Proof.
  unfold within_capacity. induction levels as [|x levels IH]; cbn.
  - split; [constructor | reflexivity].
  - destruct (Qltb x 0) eqn:E0.
    + apply Qltb_true in E0. split; [discriminate|].
      intro H. inversion H; subst. lra.
    + apply Qltb_false in E0. destruct (Qltb cap x) eqn:E1.
      * apply Qltb_true in E1. split; [discriminate|].
        intro H. inversion H; subst. lra.
      * apply Qltb_false in E1. rewrite IH. split.
        -- intro H. constructor; [lra | exact H].
        -- intro H. now inversion H.
Qed.

(** ** Calls that return *)

Section Calls.

Context {L : Libraries}.

Lemma nonempty_length {A : Type} (l : list A) :
  (List.length l =? 0)%nat = false <-> l <> [].
Proof. destruct l; cbn; split; congruence. Qed.

Lemma parse_schedule_inr (idates wdates : list string) (ip wp : list Timestamp) :
  parse_schedule idates wdates = inr (ip, wp) <->
  parse_all idates = Some ip /\ parse_all wdates = Some wp.
Proof.
  unfold parse_schedule.
  destruct (parse_all idates) as [ip'|]; [|split; [discriminate|intros [? _]; discriminate]].
  destruct (parse_all wdates) as [wp'|]; [|split; [discriminate|intros [_ ?]; discriminate]].
  split.
  - intros [= <- <-]. auto.
  - intros [[= <-] [= <-]]. reflexivity.
Qed.

(** [price_storage_contract] returns exactly on accepted calls. *)
Lemma price_storage_contract_returns
    (idates wdates : list string) (ivols wvols : list Q)
    (csv_file : string) (cap : Q) (storage_costs : option StorageCosts)
    (t : list Event) (r : ContractResult) :
  price_storage_contract idates wdates ivols wvols csv_file cap storage_costs
    = (t, inr r)
  <-> accepted idates wdates ivols wvols csv_file cap (costs_of storage_costs) t r.
Proof.
  split.
  - intro H. unfold price_storage_contract in H. cbv zeta in H.
    do 4 run_step H. destruct x2 as [ip wp]. cbn [fst snd] in H.
    do 14 run_step H.
    unfold ret in H. injection H as <- <-.
    rewrite negb_false_iff in Hm, Hm0.
    apply Nat.eqb_eq in Hm, Hm0.
    apply orb_false_iff in Hm1. destruct Hm1 as [Hi Hw].
    apply nonempty_length in Hi, Hw.
    apply parse_schedule_inr in Hm2. destruct Hm2 as [Hip Hwp].
    destruct x2, x3, x5.
    apply check_volumes_ok in Hm3, Hm4.
    apply Qltb_false in Hm5.
    eapply accepted_intro; eauto.
    now rewrite app_nil_r.
  - intros [ip wp df model row t1 t2 flows1 flows2 first last
            Hli Hlw Hi Hw Hip Hwp Hpi Hpw Htol Hcheck Hload Hbuild Hlast
            Hinj Hwd Hmin Hmax Hord -> ->].
    unfold price_storage_contract. cbv zeta.
    apply Nat.eqb_eq in Hli, Hlw. rewrite Hli, Hlw.
    apply nonempty_length in Hi, Hw. rewrite Hi, Hw.
    rewrite (proj2 (parse_schedule_inr _ _ _ _) (conj Hip Hwp)).
    apply check_volumes_ok in Hpi, Hpw.
    apply Qltb_false in Htol.
    cbn [negb orb raise_if ret lift bind fst snd app].
    rewrite Hpi, Hpw. cbn [bind]. rewrite Htol. cbn [bind].
    rewrite Hcheck. cbn [bind tell].
    rewrite Hload. cbn [bind]. rewrite Hbuild. cbn [bind].
    rewrite Hlast. cbn [bind].
    fold (costs_of storage_costs). rewrite Hinj. cbn [bind]. rewrite Hwd.
    cbn [bind]. rewrite Hmin, Hmax. cbn [bind].
    unfold ts_le in Hord. rewrite Hord.
    cbn [bind raise_if ret raise lift tell app fst snd].
    rewrite ?app_nil_r. reflexivity.
Qed.

Lemma load_price_data_error (csv_file : string) (e : Exception) :
  load_price_data csv_file = inl e -> is_validation_error e = false.
Proof.
  unfold load_price_data. destruct (read_csv csv_file) as [table|].
  - destruct (parse_all (map fst table)); [discriminate | now intros [= <-]].
  - now intros [= <-].
Qed.

Lemma build_price_model_error (df : DataFrame) (e : Exception) :
  build_price_model df = inl e -> is_validation_error e = false.
Proof.
  unfold build_price_model.
  destruct (LinearRegression_fit _ _); [discriminate | now intros [= <-]].
Qed.

Lemma iloc_last_error (df : DataFrame) (e : Exception) :
  iloc_last df = inl e -> is_validation_error e = false.
Proof.
  unfold iloc_last. destruct (rev df); [now intros [= <-] | discriminate].
Qed.

Lemma py_min_error (ts : list Timestamp) (e : Exception) :
  py_min ts = inl e -> is_validation_error e = false.
Proof. destruct ts; cbn; [now intros [= <-] | discriminate]. Qed.

Lemma py_max_error (ts : list Timestamp) (e : Exception) :
  py_max ts = inl e -> is_validation_error e = false.
Proof. destruct ts; cbn; [now intros [= <-] | discriminate]. Qed.

(** Rule 8 holds whenever rules 1 to 7 do. *)
Lemma rules_imply_schedule_order
    (ip wp : list Timestamp) (ivols wvols : list Q) (cap : Q)
    (first last : Timestamp) :
  List.length wp = List.length wvols ->
  Forall (fun v => 0 < v) wvols ->
  check_storage (sorted_operations ip wp ivols wvols) cap 0 = inr tt ->
  py_min ip = inr first -> py_max wp = inr last ->
  ts_ltb last first = false.
Proof.
  intros Hlen Hpos Hcheck Hmin Hmax.
  destruct ip as [|i0 irest]; [discriminate|].
  destruct wp as [|w0 wrest]; [discriminate|].
  cbn in Hmin, Hmax. injection Hmin as <-. injection Hmax as <-.
  eapply replay_implies_schedule_order; eauto.
Qed.

(** The program against the specification's validation sequence: when a
    rule fails the call raises that rule's error with no event; when none
    fails the call raises no validation error at all. *)
Lemma validation_refines
    (idates wdates : list string) (ivols wvols : list Q)
    (csv_file : string) (cap : Q) (storage_costs : option StorageCosts) :
  match spec_validation idates wdates ivols wvols cap with
  | Some e =>
      price_storage_contract idates wdates ivols wvols csv_file cap storage_costs
      = ([], inl e)
  | None =>
      forall t e,
        price_storage_contract idates wdates ivols wvols csv_file cap storage_costs
        = (t, inl e) ->
        is_validation_error e = false
  end.
Proof.
  unfold spec_validation, price_storage_contract. cbv zeta.
  destruct (negb (List.length idates =? List.length ivols)%nat) eqn:E1;
    [reflexivity|].
  destruct (negb (List.length wdates =? List.length wvols)%nat) eqn:E2;
    [reflexivity|].
  destruct ((List.length idates =? 0)%nat || (List.length wdates =? 0)%nat) eqn:E3;
    [reflexivity|].
  unfold parse_schedule.
  destruct (parse_all idates) as [ip|] eqn:Eip; [|reflexivity].
  destruct (parse_all wdates) as [wp|] eqn:Ewp; [|reflexivity].
  cbn [raise_if]. rewrite !bind_ret, bind_lift_inr. cbn [fst snd].
  rewrite !check_volumes_forallb.
  destruct (forallb (Qltb 0) ivols) eqn:Epi; [|reflexivity].
  destruct (forallb (Qltb 0) wvols) eqn:Epw; [|reflexivity].
  cbn [andb negb].
  change (negb (Qle_bool (Qabs (py_sum ivols - py_sum wvols))
                       (1 # 1000000)))
    with (Qltb (1 # 1000000) (Qabs (py_sum ivols - py_sum wvols))).
  destruct (Qltb (1 # 1000000) (Qabs (py_sum ivols - py_sum wvols))) eqn:Etol;
    [reflexivity|].
  apply forallb_positive in Epi, Epw.
  rewrite (check_storage_first_violation_eq cap
             (sorted_operations ip wp ivols wvols) 0
             (sorted_operations_positive ip wp ivols wvols Epi Epw));
    [|lra|right; lra].
  destruct (first_violation cap _) as [e7|] eqn:E7; [reflexivity|].
  assert (Hcheck : check_storage (sorted_operations ip wp ivols wvols) cap 0
                   = inr tt).
  { rewrite (check_storage_first_violation_eq cap _ 0
               (sorted_operations_positive ip wp ivols wvols Epi Epw));
      [|lra|right; lra].
    now rewrite E7. }
  assert (Hlenw : List.length wp = List.length wvols).
  { rewrite (parse_all_length _ _ Ewp).
    rewrite negb_false_iff in E2. now apply Nat.eqb_eq in E2. }
  assert (Hrule8 : forall first last,
             py_min ip = inr first -> py_max wp = inr last ->
             ts_ltb last first = false)
    by (intros; eapply rules_imply_schedule_order; eauto).
  assert (Hnone :
    match py_max wp, py_min ip with
    | inr last_withdrawal, inr first_injection =>
        if ts_ltb last_withdrawal first_injection
        then Some InvalidScheduleOrderError else None
    | _, _ => None
    end = None).
  { destruct (py_max wp) as [emax|last] eqn:Emax; [reflexivity|].
    destruct (py_min ip) as [emin|first] eqn:Emin; [reflexivity|].
    now rewrite (Hrule8 _ _ eq_refl eq_refl). }
  rewrite Hnone. intros t e H.
  do 4 (fail_step H; [discriminate|]).
  fail_step H.
  fail_step H; [eauto using load_price_data_error|].
  fail_step H.
  fail_step H; [eauto using build_price_model_error|].
  fail_step H; [eauto using iloc_last_error|].
  fail_step H.
  { match type of H with
    | process_injections (get_price ?m ?d ?i) ?c ?legs ?acc = _ =>
        destruct (process_injections_spec m d i c legs acc
                    (parsable_combine _ _ _ Eip)) as (tr & acc' & Hrun & _)
    end.
    rewrite Hrun in H. discriminate. }
  fail_step H.
  { match type of H with
    | process_withdrawals (get_price ?m ?d ?i) ?c ?legs ?acc = _ =>
        destruct (process_withdrawals_spec m d i c legs acc
                    (parsable_combine _ _ _ Ewp)) as (tr & acc' & Hrun & _)
    end.
    rewrite Hrun in H. discriminate. }
  fail_step H; [eauto using py_min_error|].
  fail_step H; [eauto using py_max_error|].
  fail_step H.
  { erewrite Hrule8 in H by eassumption. discriminate. }
  unfold ret in H. discriminate.
Qed.

(** The specification's sequence once rules 1 to 5 hold: rule 6, then
    rule 7; rule 8 cannot fail after them. *)
Lemma spec_validation_checked
    (idates wdates : list string) (ivols wvols : list Q) (cap : Q)
    (ip wp : list Timestamp) :
  List.length idates = List.length ivols ->
  List.length wdates = List.length wvols ->
  idates <> [] -> wdates <> [] ->
  parse_all idates = Some ip -> parse_all wdates = Some wp ->
  Forall (fun v => 0 < v) ivols -> Forall (fun v => 0 < v) wvols ->
  spec_validation idates wdates ivols wvols cap
  = if Qltb (1 # 1000000) (Qabs (py_sum ivols - py_sum wvols))
    then Some VolumeMismatchError
    else first_violation cap
           (occupancy_levels (sorted_operations ip wp ivols wvols) 0).
Proof.
  intros Hli Hlw Hi Hw Hip Hwp Hpi Hpw. unfold spec_validation.
  apply Nat.eqb_eq in Hli. rewrite Hli.
  pose proof Hlw as Hlw'. apply Nat.eqb_eq in Hlw'. rewrite Hlw'.
  apply nonempty_length in Hi, Hw. rewrite Hi, Hw, Hip, Hwp.
  rewrite (proj2 (forallb_positive _) Hpi), (proj2 (forallb_positive _) Hpw).
  cbn [negb andb orb].
  change (negb (Qle_bool (Qabs (py_sum ivols - py_sum wvols))
                       (1 # 1000000)))
    with (Qltb (1 # 1000000) (Qabs (py_sum ivols - py_sum wvols))).
  destruct (Qltb (1 # 1000000) _); [reflexivity|].
  destruct (first_violation cap _) as [e|] eqn:E7; [reflexivity|].
  destruct (py_max wp) as [emax|last] eqn:Emax; [reflexivity|].
  destruct (py_min ip) as [emin|first] eqn:Emin; [reflexivity|].
  erewrite rules_imply_schedule_order; eauto.
  - rewrite (parse_all_length _ _ Hwp). exact Hlw.
  - rewrite (check_storage_first_violation_eq cap _ 0
               (sorted_operations_positive ip wp ivols wvols Hpi Hpw));
      [|lra|right; lra].
    now rewrite E7.
Qed.

(** A call raises the error of the first rule of the specification that
    fails, before any event. *)
Lemma spec_validation_raises
    (idates wdates : list string) (ivols wvols : list Q)
    (csv_file : string) (cap : Q) (storage_costs : option StorageCosts)
    (e : Exception) :
  spec_validation idates wdates ivols wvols cap = Some e ->
  price_storage_contract idates wdates ivols wvols csv_file cap storage_costs
  = ([], inl e).
Proof.
  intro H.
  pose proof (validation_refines idates wdates ivols wvols csv_file cap
                storage_costs) as Href.
  now rewrite H in Href.
Qed.

End Calls.

(** ** Accounting *)

Section Accounting.

Context {L : Libraries}.

Lemma estimate_price_parsed (date_str : string) (t : Timestamp)
    (model : Model) (reference_date : Timestamp) (last_time_index : Z) :
  to_datetime date_str = Some t ->
  estimate_price date_str model reference_date last_time_index
  = inr (price_at model reference_date last_time_index date_str).
Proof.
  intro H. unfold price_at, estimate_price. now rewrite H.
Qed.

Lemma parse_all_In_parsed (dates : list string) (ts : list Timestamp)
    (t : Timestamp) :
  parse_all dates = Some ts -> In t ts ->
  exists s, In s dates /\ to_datetime s = Some t.
Proof.
  rewrite parse_all_Forall2. induction 1 as [|s' t' ? ? Ht _ IH]; cbn.
  - contradiction.
  - intros [<-|Hin]; [eauto|].
    destruct (IH Hin) as (s & Hs & Hst). eauto.
Qed.

Lemma valid_date_month (t : Timestamp) :
  valid_date t = true -> (1 <= month t <= 12)%Z.
Proof.
  unfold valid_date. rewrite !andb_true_iff, !Z.leb_le. lia.
Qed.

Lemma months_between_nonneg (first last : Timestamp) :
  valid_date first = true -> valid_date last = true ->
  ts_le first last -> (0 <= months_between last first)%Z.
Proof.
  intros Hf Hl Hle. apply valid_date_month in Hf, Hl.
  unfold ts_le in Hle. apply ts_ltb_false in Hle.
  unfold months_between. lia.
Qed.

Lemma storage_months_max (first last : Timestamp) :
  (0 <= months_between last first)%Z ->
  storage_months first last = Z.max 1 (months_between last first).
Proof.
  intro H. unfold storage_months. cbv zeta.
  destruct (months_between last first =? 0)%Z eqn:E.
  - apply Z.eqb_eq in E. lia.
  - apply Z.eqb_neq in E. lia.
Qed.

Variables (injection_dates withdrawal_dates : list string).
Variables (injection_volumes withdrawal_volumes : list Q).
Variables (csv_file : string) (max_storage_capacity : Q).
Variable storage_costs : option StorageCosts.

Let call : M ContractResult :=
  price_storage_contract injection_dates withdrawal_dates
    injection_volumes withdrawal_volumes
    csv_file max_storage_capacity storage_costs.


(** C5.  When the call returns (dates being calendar dates), the duration
    is the month difference between the earliest injection date and the
    latest withdrawal date, raised to 1 when it is 0; the difference is
    never negative, so the duration is at least 1; and the storage cost is
    the duration times the monthly fee.  One injection on 2024-06-01 and one
    withdrawal on 2024-09-01 under the default costs: 3 months, 300000. *)
Theorem storage_duration :
  parses_calendar_dates L ->
  forall t r,
    call = (t, inr r) ->
    exists injections withdrawals first_injection last_withdrawal,
      parse_all injection_dates = Some injections /\
      parse_all withdrawal_dates = Some withdrawals /\
      In first_injection injections /\
      (forall d, In d injections -> ts_le first_injection d) /\
      In last_withdrawal withdrawals /\
      (forall d, In d withdrawals -> ts_le d last_withdrawal) /\
      duration_months r
        = Z.max 1 (months_between last_withdrawal first_injection) /\
      (1 <= duration_months r)%Z /\
      total_storage_cost r
        == inject_Z (duration_months r)
           * monthly_storage_fee (costs_of storage_costs) /\
      (injections = [mkTimestamp 2024 6 1] ->
       withdrawals = [mkTimestamp 2024 9 1] ->
       storage_costs = None ->
       duration_months r = 3%Z /\ total_storage_cost r == 300000).
Proof.
  intros Hcal t r Hrun. apply price_storage_contract_returns in Hrun.
  destruct Hrun as [ip wp df model row t1 t2 flows1 flows2 first last
                    _ _ _ _ Hip Hwp _ _ _ _ _ _ _ _ _ Hmin Hmax Hord _ ->].
  exists ip, wp, first, last.
  destruct ip as [|i0 irest]; [discriminate|].
  destruct wp as [|w0 wrest]; [discriminate|].
  cbn in Hmin, Hmax. injection Hmin as <-. injection Hmax as <-.
  destruct (ts_min_spec irest i0) as [Hfin Hfle].
  destruct (ts_max_spec wrest w0) as [Hlin Hlle].
  assert (Hnonneg : (0 <= months_between (ts_max w0 wrest) (ts_min i0 irest))%Z).
  { destruct (parse_all_In_parsed _ _ _ Hip Hfin) as (s1 & _ & Hs1).
    destruct (parse_all_In_parsed _ _ _ Hwp Hlin) as (s2 & _ & Hs2).
    apply months_between_nonneg; eauto. }
  cbn [duration_months total_storage_cost].
  rewrite (storage_months_max _ _ Hnonneg).
  repeat (split; [assumption || reflexivity || lia|]).
  intros [= -> ->] [= -> ->] ->. cbn. split; [reflexivity|].
  vm_compute. reflexivity.
Qed.

End Accounting.

(** ** Operations of the same date *)

Lemma ts_ltb_irrefl (t : Timestamp) : ts_ltb t t = false.
Proof. apply ts_le_refl. Qed.

Lemma ts_eqb_refl (t : Timestamp) : ts_eqb t t = true.
Proof. now apply ts_eqb_eq. Qed.

Lemma make_operations_type (k : LegKind) (i : nat)
    (dates : list Timestamp) (volumes : list Q) :
  Forall (fun o => op_type o = k) (make_operations k i dates volumes).
Proof.
  rewrite Forall_forall. intros o Hin.
  now apply make_operations_In in Hin.
Qed.

Lemma Forall_filter {A : Type} (P : A -> Prop) (f : A -> bool) (l : list A) :
  Forall P l -> Forall P (filter f l).
Proof.
  induction 1 as [|x l Hx _ IH]; cbn; [constructor|].
  destruct (f x); [now constructor | exact IH].
Qed.

(** In a list of injections followed by withdrawals, whatever stands before
    an injection is an injection. *)
Lemma injections_then_withdrawals (injs wds : list Operation) :
  Forall (fun o => op_type o = Injection) injs ->
  Forall (fun o => op_type o = Withdrawal) wds ->
  forall l1 a l2 b l3,
    injs ++ wds = l1 ++ a :: l2 ++ b :: l3 ->
    op_type b = Injection -> op_type a = Injection.
Proof.
  intros Hinj Hwd. induction Hinj as [|x injs Hx _ IH];
    intros l1 a l2 b l3 Heq Hb.
  - cbn in Heq. rewrite Forall_forall in Hwd.
    assert (Hin : In b wds).
    { rewrite Heq. apply in_or_app. right. right.
      apply in_or_app. right. now left. }
    rewrite (Hwd _ Hin) in Hb. discriminate.
  - destruct l1 as [|y l1]; cbn in Heq.
    + now injection Heq as <- _.
    + injection Heq as _ Heq. eapply IH; eauto.
Qed.

Section SameDay.

Context {L : Libraries}.

(** C10.  (i) In the sorted operations list, an operation that stands
    before an injection of the same date is an injection: on a shared date
    no withdrawal is replayed before an injection.  (ii) This is stability:
    the operations of any one date are the injections of that date in input
    order followed by its withdrawals in input order.  (iii) So injecting a
    volume and withdrawing it on the same day, within capacity, breaks no
    validation rule: the call raises no validation error, in particular not
    [InsufficientStorageError]. *)
Theorem same_day_injections_first :
  (forall injections withdrawals injection_volumes withdrawal_volumes
          l1 a l2 b l3,
      sorted_operations injections withdrawals
        injection_volumes withdrawal_volumes
      = l1 ++ a :: l2 ++ b :: l3 ->
      op_date a = op_date b ->
      op_type b = Injection -> op_type a = Injection)
  /\ (forall injections withdrawals injection_volumes withdrawal_volumes d,
        filter (on_date d)
          (sorted_operations injections withdrawals
             injection_volumes withdrawal_volumes)
        = filter (on_date d)
            (make_operations Injection 0 injections injection_volumes)
          ++ filter (on_date d)
               (make_operations Withdrawal 0 withdrawals withdrawal_volumes))
  /\ (forall date_str d v csv_file max_storage_capacity storage_costs,
        to_datetime date_str = Some d ->
        0 < v -> v <= max_storage_capacity ->
        spec_validation [date_str] [date_str] [v] [v] max_storage_capacity
        = None
        /\ forall t e,
             price_storage_contract [date_str] [date_str] [v] [v]
               csv_file max_storage_capacity storage_costs = (t, inl e) ->
             is_validation_error e = false
             /\ e <> InsufficientStorageError).
Proof.
  assert (Hstable : forall ip wp ivols wvols d,
    filter (on_date d) (sorted_operations ip wp ivols wvols)
    = filter (on_date d) (make_operations Injection 0 ip ivols)
      ++ filter (on_date d) (make_operations Withdrawal 0 wp wvols)).
  { intros. unfold sorted_operations.
    now rewrite sort_by_date_stable, filter_app. }
  split; [|split; [exact Hstable|]].
  - intros ip wp ivols wvols l1 a l2 b l3 Hsorted Hdate Hb.
    pose proof (Hstable ip wp ivols wvols (op_date b)) as Hf.
    rewrite Hsorted in Hf.
    rewrite filter_app in Hf. cbn [filter] in Hf.
    rewrite filter_app in Hf. cbn [filter] in Hf.
    assert (Ha : on_date (op_date b) a = true)
      by (unfold on_date; rewrite Hdate; apply ts_eqb_refl).
    assert (Hb' : on_date (op_date b) b = true)
      by (unfold on_date; apply ts_eqb_refl).
    rewrite Ha, Hb' in Hf. symmetry in Hf.
    eapply injections_then_withdrawals; [| |exact Hf|exact Hb];
      apply Forall_filter, make_operations_type.
  - intros s d v csv_file cap costs Hparse Hv Hcap.
    assert (Hp : parse_all [s] = Some [d]) by (cbn; now rewrite Hparse).
    assert (Hnone : spec_validation [s] [s] [v] [v] cap = None).
    { rewrite (spec_validation_checked [s] [s] [v] [v] cap [d] [d]);
        try reflexivity; try discriminate; try assumption;
        try (constructor; [exact Hv|constructor]).
      assert (E : Qltb (1 # 1000000) (Qabs (py_sum [v] - py_sum [v])) = false).
      { apply Qltb_false. apply Qabs_Qle_condition.
        unfold py_sum. cbn [fold_left]. split; lra. }
      rewrite E. unfold sorted_operations.
      cbn [make_operations app sort_by_date fold_right insert_by_date op_date].
      rewrite ts_ltb_irrefl.
      cbn [occupancy_levels occupancy_after op_type op_volume first_violation].
      repeat match goal with
             | |- context [Qltb ?a ?b] =>
                 let E' := fresh "E" in
                 assert (E' : Qltb a b = false) by (apply Qltb_false; lra);
                 rewrite E'; clear E'
             end.
      reflexivity. }
    split; [exact Hnone|]. intros t e Hrun.
    pose proof (validation_refines [s] [s] [v] [v] csv_file cap costs) as Href.
    rewrite Hnone in Href. specialize (Href _ _ Hrun).
    split; [exact Href|]. intros ->. discriminate.
Qed.

End SameDay.

(** ** Exchanging two legs *)















Section Swap.

Context {L : Libraries}.






End Swap.

(** * Further properties *)

(** ** What an accepted call holds *)

Section Results.

Context {L : Libraries}.

Lemma price_at_nonneg (model : Model) (reference_date : Timestamp)
    (last_time_index : Z) (date_str : string) :
  0 <= price_at model reference_date last_time_index date_str.
Proof.
  unfold price_at, estimate_price.
  destruct (to_datetime date_str); [apply py_max0_nonneg | lra].
Qed.

Lemma sum_of_map {A B : Type} (g : A -> B) (f : B -> Q) (l : list A) :
  sum_of f (map g l) = sum_of (fun x => f (g x)) l.
Proof.
  unfold sum_of. induction l as [|x l IH]; cbn; [reflexivity | now rewrite IH].
Qed.

Lemma process_injections_events
    (model : Model) (reference_date : Timestamp) (last_time_index : Z)
    (costs : StorageCosts) (legs : list (string * Q)) :
  forall acc tr acc',
    parsable legs ->
    process_injections (get_price model reference_date last_time_index)
      costs legs acc = (tr, inr acc') ->
    tr = flat_map
           (injection_events (price_at model reference_date last_time_index))
           legs.
Proof.
  induction legs as [|[d v] legs IH]; intros acc tr acc' Hp Hrun.
  - cbn in Hrun. now injection Hrun as <- _.
  - destruct (Hp (d, v) (or_introl eq_refl)) as [t Ht]. cbn [fst] in Ht.
    cbn [process_injections] in Hrun.
    rewrite (get_price_parsed model reference_date last_time_index d t Ht)
      in Hrun.
    run_step Hrun. injection Hm as <- <-.
    run_step Hrun.
    cbn [flat_map injection_events fst snd app].
    erewrite <- IH; [reflexivity | | exact Hrun].
    intros leg Hin. apply Hp. now right.
Qed.

Lemma process_withdrawals_events
    (model : Model) (reference_date : Timestamp) (last_time_index : Z)
    (costs : StorageCosts) (legs : list (string * Q)) :
  forall acc tr acc',
    parsable legs ->
    process_withdrawals (get_price model reference_date last_time_index)
      costs legs acc = (tr, inr acc') ->
    tr = flat_map
           (withdrawal_events (price_at model reference_date last_time_index))
           legs.
Proof.
  induction legs as [|[d v] legs IH]; intros acc tr acc' Hp Hrun.
  - cbn in Hrun. now injection Hrun as <- _.
  - destruct (Hp (d, v) (or_introl eq_refl)) as [t Ht]. cbn [fst] in Ht.
    cbn [process_withdrawals] in Hrun.
    rewrite (get_price_parsed model reference_date last_time_index d t Ht)
      in Hrun.
    run_step Hrun. injection Hm as <- <-.
    run_step Hrun.
    cbn [flat_map withdrawal_events fst snd app].
    erewrite <- IH; [reflexivity | | exact Hrun].
    intros leg Hin. apply Hp. now right.
Qed.

Variables (injection_dates withdrawal_dates : list string).
Variables (injection_volumes withdrawal_volumes : list Q).
Variables (csv_file : string) (max_storage_capacity : Q).
Variable storage_costs : option StorageCosts.

Let call : M ContractResult :=
  price_storage_contract injection_dates withdrawal_dates
    injection_volumes withdrawal_volumes
    csv_file max_storage_capacity storage_costs.

(** The fitted model, its reference row and the totals of a call that
    returned. *)
Lemma returned_totals (t : list Event) (r : ContractResult) :
  call = (t, inr r) ->
  exists price_df price_model last_row,
    load_price_data csv_file = inr price_df /\
    build_price_model price_df = inr price_model /\
    iloc_last price_df = inr last_row /\
    let price := price_at price_model (Dates last_row) (TimeIndex last_row) in
    let costs := costs_of storage_costs in
    let injections := combine injection_dates injection_volumes in
    let withdrawals := combine withdrawal_dates withdrawal_volumes in
    parsable injections /\ parsable withdrawals /\
    t = [LoadPriceData csv_file; BuildPriceModel]
        ++ flat_map (injection_events price) injections
        ++ flat_map (withdrawal_events price) withdrawals /\
    injection_details r = map (detail_of price) injections /\
    withdrawal_details r = map (detail_of price) withdrawals /\
    total_purchase_cost r
      == sum_of (fun leg => snd leg * price (fst leg)) injections /\
    total_sale_revenue r
      == sum_of (fun leg => snd leg * price (fst leg)) withdrawals /\
    total_injection_cost r
      == sum_of (fun leg => snd leg / 1000000 * injection_cost costs) injections /\
    total_withdrawal_cost r
      == sum_of (fun leg => snd leg / 1000000 * withdrawal_cost costs) withdrawals /\
    total_transport_cost r
      == inject_Z (Z.of_nat (List.length injections + List.length withdrawals))
         * transport_cost_per_trip costs.
Proof.
  intro Hrun. apply price_storage_contract_returns in Hrun.
  destruct Hrun as [ip wp df model row t1 t2 flows1 flows2 first last
                    Hli Hlw _ _ Hip Hwp _ _ _ _ Hload Hbuild Hlast
                    Hinj Hwd _ _ _ -> ->].
  exists df, model, row. repeat (split; [assumption|]). cbv zeta.
  pose proof (parsable_combine _ _ injection_volumes Hip) as Hpari.
  pose proof (parsable_combine _ _ withdrawal_volumes Hwp) as Hparw.
  destruct (process_injections_spec model (Dates row) (TimeIndex row)
              (costs_of storage_costs) _ no_cash_flows Hpari)
    as (tr1 & acc1 & Hrun1 & P1 & P2 & P3 & P4 & P5 & P6 & P7).
  rewrite Hinj in Hrun1. injection Hrun1 as <- <-.
  destruct (process_withdrawals_spec model (Dates row) (TimeIndex row)
              (costs_of storage_costs) _ flows1 Hparw)
    as (tr2 & acc2 & Hrun2 & W1 & W2 & W3 & W4 & W5 & W6 & W7).
  rewrite Hwd in Hrun2. injection Hrun2 as <- <-.
  rewrite (process_injections_events _ _ _ _ _ _ _ _ Hpari Hinj).
  rewrite (process_withdrawals_events _ _ _ _ _ _ _ _ Hparw Hwd).
  cbn [injection_details withdrawal_details total_sale_revenue
       total_purchase_cost total_injection_cost total_withdrawal_cost
       total_transport_cost].
  cbn [no_cash_flows acc_purchase_cost acc_injection_cost acc_transport_cost
       acc_sale_revenue acc_withdrawal_cost acc_injection_details
       acc_withdrawal_details app] in P1, P2, P3, P4, P5, P6, P7.
  repeat (split; [assumption || reflexivity|]).
  split; [now rewrite W7, P6|].
  split; [now rewrite W6, P7|].
  split; [rewrite W4, P1; ring|].
  split; [rewrite W1, P4; ring|].
  split; [rewrite W5, P2; ring|].
  split; [rewrite W2, P5; ring|].
  rewrite W3, P3, Nat2Z.inj_add, inject_Z_plus. ring.
Qed.

Lemma map_fst_combine {A B : Type} (l : list A) :
  forall l' : list B,
    List.length l = List.length l' -> map fst (combine l l') = l.
Proof.
  induction l as [|x l IH]; intros [|y l'] H; cbn in *; try discriminate;
    [reflexivity|].
  f_equal. apply IH. now injection H.
Qed.

Lemma map_snd_combine {A B : Type} (l : list A) :
  forall l' : list B,
    List.length l = List.length l' -> map snd (combine l l') = l'.
Proof.
  induction l as [|x l IH]; intros [|y l'] H; cbn in *; try discriminate;
    [reflexivity|].
  f_equal. apply IH. now injection H.
Qed.

(** The detail records of a returned call list the legs in input order,
    one record per leg with the leg's own date string and volume, a price
    that is not negative and the amount volume times price; the purchase
    cost and the sale revenue are the sums of the amounts. *)
Theorem details_list_the_legs :
  forall t r,
    call = (t, inr r) ->
    map d_date (injection_details r) = injection_dates /\
    map d_volume (injection_details r) = injection_volumes /\
    map d_date (withdrawal_details r) = withdrawal_dates /\
    map d_volume (withdrawal_details r) = withdrawal_volumes /\
    (forall d, In d (injection_details r ++ withdrawal_details r) ->
       0 <= d_price d /\ d_amount d = d_volume d * d_price d) /\
    total_purchase_cost r == sum_of d_amount (injection_details r) /\
    total_sale_revenue r == sum_of d_amount (withdrawal_details r).
Proof.
  intros t r Hrun.
  destruct (returned_totals t r Hrun)
    as (df & model & row & _ & _ & _ & _ & _ & _ & Hdi & Hdw & Hp & Hs & _).
  apply price_storage_contract_returns in Hrun.
  destruct Hrun as [? ? ? ? ? ? ? ? ? ? ? Hli Hlw].
  rewrite Hdi, Hdw.
  assert (Hdates : forall p legs,
             map d_date (map (detail_of p) legs) = map fst legs)
    by (intros; rewrite map_map; now apply map_ext).
  assert (Hvols : forall p legs,
             map d_volume (map (detail_of p) legs) = map snd legs)
    by (intros; rewrite map_map; now apply map_ext).
  rewrite !Hdates, !Hvols.
  rewrite (map_fst_combine _ _ Hli), (map_snd_combine _ _ Hli).
  rewrite (map_fst_combine _ _ Hlw), (map_snd_combine _ _ Hlw).
  repeat (split; [reflexivity|]).
  split.
  - intros d Hin. rewrite <- map_app in Hin. apply in_map_iff in Hin.
    destruct Hin as (leg & <- & _). cbn [detail_of d_price d_amount d_volume].
    split; [apply price_at_nonneg | reflexivity].
  - rewrite !sum_of_map. cbn [detail_of d_amount]. now split.
Qed.

(** A returned call loaded the price table once and fitted one model, then
    looked up one price per injection in input order, posting each to the
    totals, and then one price per withdrawal in input order. *)
Theorem pricing_steps_in_order :
  forall t r,
    call = (t, inr r) ->
    exists price_df price_model last_row,
      load_price_data csv_file = inr price_df /\
      build_price_model price_df = inr price_model /\
      iloc_last price_df = inr last_row /\
      let price := price_at price_model (Dates last_row) (TimeIndex last_row) in
      t = [LoadPriceData csv_file; BuildPriceModel]
          ++ flat_map (injection_events price)
               (combine injection_dates injection_volumes)
          ++ flat_map (withdrawal_events price)
               (combine withdrawal_dates withdrawal_volumes).
Proof.
  intros t r Hrun.
  destruct (returned_totals t r Hrun)
    as (df & model & row & Hload & Hbuild & Hlast & _ & _ & Ht & _).
  exists df, model, row. auto.
Qed.

End Results.

(** ** Volumes, capacity and the simplest schedule *)

Lemma check_storage_capacity_mono (operations : list Operation) (cap cap' : Q) :
  cap <= cap' ->
  forall level,
    check_storage operations cap level = inr tt ->
    check_storage operations cap' level = inr tt.
Proof.
  intro Hle. induction operations as [|op rest IH]; intros level H;
    [reflexivity|].
  cbn in *. destruct (op_type op).
  - destruct (Qltb cap (level + op_volume op)) eqn:E; [discriminate|].
    apply Qltb_false in E.
    assert (E' : Qltb cap' (level + op_volume op) = false)
      by (apply Qltb_false; lra).
    rewrite E'. now apply IH.
  - destruct (Qltb (level - op_volume op) 0); [discriminate | now apply IH].
Qed.

Section Volumes.

Context {L : Libraries}.

Variables (injection_dates withdrawal_dates : list string).
Variables (injection_volumes withdrawal_volumes : list Q).
Variables (csv_file : string) (max_storage_capacity : Q).
Variable storage_costs : option StorageCosts.

Let call : M ContractResult :=
  price_storage_contract injection_dates withdrawal_dates
    injection_volumes withdrawal_volumes
    csv_file max_storage_capacity storage_costs.

(** Storage capacity only ever limits: a call that returns under one
    capacity returns the same result, after the same steps, under any
    larger capacity. *)
Theorem larger_capacity_same_result :
  forall t r larger_capacity,
    call = (t, inr r) ->
    max_storage_capacity <= larger_capacity ->
    price_storage_contract injection_dates withdrawal_dates
      injection_volumes withdrawal_volumes
      csv_file larger_capacity storage_costs = (t, inr r).
Proof.
  intros t r cap' Hrun Hle. apply price_storage_contract_returns in Hrun.
  apply price_storage_contract_returns.
  destruct Hrun as [ip wp df model row t1 t2 flows1 flows2 first last
                    ? ? ? ? ? ? ? ? ? Hcheck].
  eapply accepted_intro; eauto.
  eapply check_storage_capacity_mono; eauto.
Qed.

End Volumes.

(** ** Failures after validation *)

Section PricingFailures.

Context {L : Libraries}.






Variables (injection_dates withdrawal_dates : list string).
Variables (injection_volumes withdrawal_volumes : list Q).
Variables (csv_file : string) (max_storage_capacity : Q).
Variable storage_costs : option StorageCosts.

Let call : M ContractResult :=
  price_storage_contract injection_dates withdrawal_dates
    injection_volumes withdrawal_volumes
    csv_file max_storage_capacity storage_costs.




End PricingFailures.

(** ** The price table and the estimator *)

Section PriceTable.

Context {L : Libraries}.

Lemma iloc_last_cons (x y : Row) (l : list Row) :
  iloc_last (x :: y :: l) = iloc_last (y :: l).
Proof.
  unfold iloc_last. cbn [rev].
  destruct (rev l ++ [y]) as [|z zs] eqn:E; [|reflexivity].
  destruct (rev l); discriminate.
Qed.

Lemma make_rows_shape (dates : list Timestamp) :
  forall (prices : list Q) (i : Z),
    List.length dates = List.length prices ->
    List.length (make_rows i dates prices) = List.length dates /\
    map Dates (make_rows i dates prices) = dates /\
    map Prices (make_rows i dates prices) = prices /\
    map TimeIndex (make_rows i dates prices)
    = map (fun k => (i + Z.of_nat k)%Z) (seq 0 (List.length dates)).
Proof.
  induction dates as [|d dates IH]; intros [|p prices] i H; cbn in H;
    try discriminate.
  - repeat split; reflexivity.
  - injection H as H. destruct (IH prices (i + 1)%Z H) as (H1 & H2 & H3 & H4).
    cbn [make_rows List.length map seq]. rewrite H1, H2, H3, H4.
    repeat split; try reflexivity.
    cbn [make_row TimeIndex]. f_equal; [f_equal; lia|].
    rewrite <- seq_shift, map_map. apply map_ext. intro k. lia.
Qed.

Lemma make_rows_last (dates : list Timestamp) :
  forall (prices : list Q) (i : Z) (last : Row),
    iloc_last (make_rows i dates prices) = inr last ->
    TimeIndex last
    = (i + Z.of_nat (List.length (make_rows i dates prices)) - 1)%Z.
Proof.
  induction dates as [|d dates IH]; intros [|p prices] i last H;
    try discriminate.
  cbn [make_rows] in *.
  destruct (make_rows (i + 1) dates prices) as [|r2 rest] eqn:E.
  - cbn in H. injection H as <-. cbn. lia.
  - rewrite iloc_last_cons in H. rewrite <- E in H.
    rewrite (IH _ _ _ H), E. cbn [List.length]. lia.
Qed.

(** What [load_price_data] returns: one row per line of the table, in
    order, with the parsed date and the price of the line, the calendar
    columns of that date, and the row number from 0 as time index; so the
    time index of the last row is the number of rows minus 1. *)
Theorem price_table_shape :
  forall csv_file df,
    load_price_data csv_file = inr df ->
    exists table,
      read_csv csv_file = Some table /\
      List.length df = List.length table /\
      parse_all (map fst table) = Some (map Dates df) /\
      map Prices df = map snd table /\
      map TimeIndex df = map Z.of_nat (seq 0 (List.length df)) /\
      (forall r, In r df ->
         Month r = month (Dates r) /\ Year r = year (Dates r)
         /\ DayOfYear r = dayofyear (Dates r)) /\
      (forall last, iloc_last df = inr last ->
         TimeIndex last = (Z.of_nat (List.length df) - 1)%Z).
Proof.
  intros csv_file df Hload. unfold load_price_data in Hload.
  destruct (read_csv csv_file) as [table|]; [|discriminate].
  destruct (parse_all (map fst table)) as [dates|] eqn:Hparse; [|discriminate].
  injection Hload as <-. exists table.
  assert (Hlen : List.length dates = List.length (map snd table)).
  { rewrite (parse_all_length _ _ Hparse). now rewrite !length_map. }
  destruct (make_rows_shape dates (map snd table) 0 Hlen)
    as (H1 & H2 & H3 & H4).
  split; [reflexivity|].
  split; [rewrite H1, Hlen; apply length_map|].
  split; [now rewrite H2|]. split; [exact H3|].
  split; [rewrite H4, H1; apply map_ext; intro k; lia|].
  split; [intros r Hin; eapply make_rows_columns; eauto|].
  intros last Hlast. rewrite (make_rows_last _ _ _ _ Hlast). lia.
Qed.

Lemma months_between_add (a b c : Timestamp) :
  months_between a c = (months_between a b + months_between b c)%Z.
Proof. unfold months_between. lia. Qed.

Lemma monthly_cons (x y : Row) (l : list Row) :
  monthly (x :: y :: l) ->
  months_between (Dates y) (Dates x) = 1%Z /\ monthly (y :: l).
Proof. intro H. exact H. Qed.

Lemma make_rows_monthly (dates : list Timestamp) :
  forall (prices : list Q) (i : Z) (r last : Row),
    monthly (make_rows i dates prices) ->
    In r (make_rows i dates prices) ->
    iloc_last (make_rows i dates prices) = inr last ->
    months_between (Dates r) (Dates last)
    = (TimeIndex r - TimeIndex last)%Z.
Proof.
  induction dates as [|d dates IH]; intros [|p prices] i r last Hm Hin Hlast;
    try contradiction.
  cbn [make_rows] in *.
  destruct (make_rows (i + 1) dates prices) as [|r2 rest] eqn:E.
  - cbn in Hlast. injection Hlast as <-.
    destruct Hin as [<-|[]]. rewrite months_between_same. lia.
  - rewrite iloc_last_cons in Hlast. apply monthly_cons in Hm.
    destruct Hm as [Hstep Hm].
    assert (Hr2 : TimeIndex r2 = (i + 1)%Z).
    { destruct dates as [|d2 dates], prices as [|p2 prices];
        try discriminate.
      cbn in E. now injection E as <- _. }
    rewrite <- E in Hm, Hlast.
    destruct Hin as [<-|Hin].
    + rewrite (months_between_add _ (Dates r2)).
      rewrite (IH prices (i + 1)%Z r2 last Hm); [|rewrite E; now left|exact Hlast].
      cbn [make_row Dates TimeIndex] in *.
      unfold months_between in *. lia.
    + rewrite <- E in Hin. now apply (IH prices (i + 1)%Z).
Qed.

(** On a monthly table the estimate at the date of any observation is the
    model's prediction on that observation's own line of the design matrix,
    clamped at zero: the month arithmetic recovers the row number. *)
Theorem estimate_at_observation :
  forall (csv_file date_str : string) (df : DataFrame) (r last_row : Row)
         (model : Model),
    load_price_data csv_file = inr df ->
    monthly df ->
    iloc_last df = inr last_row ->
    In r df ->
    to_datetime date_str = Some (Dates r) ->
    estimate_price date_str model (Dates last_row) (TimeIndex last_row)
    = inr (py_max0 (predict model (design_row r))).
Proof.
  intros csv_file date_str df r last model Hload Hmonthly Hlast Hin Hparse.
  unfold load_price_data in Hload.
  destruct (read_csv csv_file) as [table|]; [|discriminate].
  destruct (parse_all (map fst table)) as [dates|]; [|discriminate].
  injection Hload as <-.
  pose proof (make_rows_monthly _ _ _ _ _ Hmonthly Hin Hlast) as Hmb.
  destruct (make_rows_columns _ _ _ _ Hin) as (Hmon & _ & Hdoy).
  unfold estimate_price. rewrite Hparse. cbv zeta.
  unfold design_row. rewrite Hmb, Hmon, Hdoy.
  do 3 f_equal. f_equal. lia.
Qed.

(** A price that [get_price_estimate] returns is not negative and is the
    clamped prediction of the model fitted on the whole table, at the time
    index "rows minus 1, plus the months from the last row's date to the
    target date". *)
Theorem get_price_estimate_returns :
  forall date_str csv_file q,
    get_price_estimate date_str csv_file = inr q ->
    0 <= q /\
    exists df model last_row target,
      load_price_data csv_file = inr df /\
      build_price_model df = inr model /\
      iloc_last df = inr last_row /\
      to_datetime date_str = Some target /\
      q = py_max0
            (predict model
               (features
                  (Z.of_nat (List.length df) - 1
                   + months_between target (Dates last_row))
                  (dayofyear target) (month target))).
Proof.
  intros date_str csv_file q H. unfold get_price_estimate in H.
  destruct (load_price_data csv_file) as [e|df] eqn:Hload; [discriminate|].
  destruct (build_price_model df) as [e|model] eqn:Hbuild; [discriminate|].
  destruct (iloc_last df) as [e|row] eqn:Hlast; [discriminate|].
  unfold estimate_price in H.
  destruct (to_datetime date_str) as [target|] eqn:Hparse; [|discriminate].
  injection H as <-. split; [apply py_max0_nonneg|].
  exists df, model, row, target. repeat (split; [reflexivity|]).
  unfold load_price_data in Hload.
  destruct (read_csv csv_file) as [table|]; [|discriminate].
  destruct (parse_all (map fst table)) as [dates|]; [|discriminate].
  injection Hload as <-. rewrite (make_rows_last _ _ _ _ Hlast).
  now rewrite Z.add_0_l.
Qed.

(** The two files agree: the unit price recorded for each leg of a
    returned contract is what [get_price_estimate] returns for that leg's
    date string on the same file. *)
Theorem contract_prices_are_estimates :
  forall idates wdates ivols wvols csv_file cap storage_costs t r,
    price_storage_contract idates wdates ivols wvols csv_file cap storage_costs
      = (t, inr r) ->
    forall d, In d (injection_details r ++ withdrawal_details r) ->
              get_price_estimate (d_date d) csv_file = inr (d_price d).
Proof.
  intros idates wdates ivols wvols csv_file cap storage_costs t r Hrun d Hin.
  destruct (returned_totals _ _ _ _ _ _ _ t r Hrun)
    as (df & model & row & Hload & Hbuild & Hlast & Hpi & Hpw & _
        & Hdi & Hdw & _).
  rewrite Hdi, Hdw, <- map_app in Hin. apply in_map_iff in Hin.
  destruct Hin as (leg & <- & Hleg). cbn [detail_of d_date d_price].
  unfold get_price_estimate. rewrite Hload, Hbuild, Hlast.
  apply in_app_or in Hleg.
  destruct Hleg as [Hleg|Hleg];
    [destruct (Hpi _ Hleg) as [tt Ht] | destruct (Hpw _ Hleg) as [tt Ht]];
    eapply estimate_price_parsed; eauto.
Qed.

End PriceTable.

(** ** The sort is the stable sort *)

Lemma filter_on_own_date (x : Operation) (l : list Operation) :
  filter (on_date (op_date x)) (x :: l)
  = x :: filter (on_date (op_date x)) l.
Proof. cbn [filter]. unfold on_date at 1. now rewrite ts_eqb_refl. Qed.

Lemma filter_head_In (d : Timestamp) (x : Operation) (l l' : list Operation) :
  filter (on_date d) l = x :: l' -> In x l /\ op_date x = d.
Proof.
  intro H. assert (Hin : In x (filter (on_date d) l)) by (rewrite H; now left).
  apply filter_In in Hin. destruct Hin as [Hin Hd].
  split; [exact Hin | now apply ts_eqb_eq in Hd].
Qed.

Lemma sorted_head_le (x : Operation) (l : list Operation) (y : Operation) :
  StronglySorted op_le (x :: l) -> In y (x :: l) -> op_le x y.
Proof.
  intros Hs [<-|Hin]; [apply ts_le_refl|].
  apply StronglySorted_inv in Hs. destruct Hs as [_ Hall].
  rewrite Forall_forall in Hall. now apply Hall.
Qed.

(** Two chronologically sorted lists that agree date by date are equal. *)
Lemma sorted_same_dates_eq (l1 : list Operation) :
  forall l2,
    StronglySorted op_le l1 -> StronglySorted op_le l2 ->
    (forall d, filter (on_date d) l1 = filter (on_date d) l2) ->
    l1 = l2.
Proof.
  induction l1 as [|x xs IH]; intros [|y ys] Hs1 Hs2 Hf.
  - reflexivity.
  - specialize (Hf (op_date y)). rewrite filter_on_own_date in Hf.
    discriminate.
  - specialize (Hf (op_date x)). rewrite filter_on_own_date in Hf.
    discriminate.
  - assert (Hxy : op_date x = op_date y).
    { pose proof (Hf (op_date x)) as Hx. rewrite filter_on_own_date in Hx.
      symmetry in Hx. apply filter_head_In in Hx. destruct Hx as [Hx _].
      pose proof (Hf (op_date y)) as Hy. rewrite filter_on_own_date in Hy.
      apply filter_head_In in Hy. destruct Hy as [Hy _].
      apply ts_le_antisym.
      - exact (sorted_head_le _ _ _ Hs1 Hy).
      - exact (sorted_head_le _ _ _ Hs2 Hx). }
    assert (Heq : x = y).
    { pose proof (Hf (op_date x)) as Hx.
      rewrite filter_on_own_date, Hxy, filter_on_own_date in Hx.
      now injection Hx. }
    subst y. f_equal.
    apply StronglySorted_inv in Hs1, Hs2.
    apply IH; [tauto | tauto |].
    intro d. specialize (Hf d). cbn [filter] in Hf.
    destruct (on_date d x); [now injection Hf | exact Hf].
Qed.

(** [operations.sort(key=date)] as modelled: the result is in date order,
    holds the same operations, keeps the operations of each date in their
    original order, and is the only list that does. *)
Theorem sort_by_date_is_the_stable_sort :
  forall l : list Operation,
    StronglySorted op_le (sort_by_date l)
    /\ Permutation (sort_by_date l) l
    /\ (forall d, filter (on_date d) (sort_by_date l) = filter (on_date d) l)
    /\ (forall l',
          StronglySorted op_le l' ->
          (forall d, filter (on_date d) l' = filter (on_date d) l) ->
          l' = sort_by_date l).
Proof.
  intro l. split; [apply sort_by_date_sorted|].
  split; [apply sort_by_date_perm|].
  split; [intro d; apply sort_by_date_stable|].
  intros l' Hs Hf. apply sorted_same_dates_eq;
    [exact Hs | apply sort_by_date_sorted |].
  intro d. now rewrite sort_by_date_stable.
Qed.

(** ** The simplest schedule and the interactive tool *)

Section RoundTrip.

Context {L : Libraries}.

(** One injection and one withdrawal of the same volume [v], decided
    completely: a volume that is not positive is refused; withdrawing before
    the injection date finds the storage empty; a volume above the capacity
    does not fit; every other schedule passes validation, a volume equal to
    the capacity included. *)
Theorem single_round_trip :
  forall (s1 s2 : string) (d1 d2 : Timestamp) (v : Q)
         (csv_file : string) (cap : Q) (storage_costs : option StorageCosts),
    to_datetime s1 = Some d1 ->
    to_datetime s2 = Some d2 ->
    (v <= 0 ->
     price_storage_contract [s1] [s2] [v] [v] csv_file cap storage_costs
     = ([], inl NonPositiveVolumeError))
    /\ (0 < v -> ts_lt d2 d1 ->
        price_storage_contract [s1] [s2] [v] [v] csv_file cap storage_costs
        = ([], inl InsufficientStorageError))
    /\ (0 < v -> ts_le d1 d2 -> cap < v ->
        price_storage_contract [s1] [s2] [v] [v] csv_file cap storage_costs
        = ([], inl CapacityExceededError))
    /\ (0 < v -> ts_le d1 d2 -> v <= cap ->
        spec_validation [s1] [s2] [v] [v] cap = None
        /\ forall t e,
             price_storage_contract [s1] [s2] [v] [v] csv_file cap storage_costs
             = (t, inl e) ->
             is_validation_error e = false).
Proof.
  intros s1 s2 d1 d2 v csv_file cap costs H1 H2.
  assert (Hp1 : parse_all [s1] = Some [d1]) by (cbn; now rewrite H1).
  assert (Hp2 : parse_all [s2] = Some [d2]) by (cbn; now rewrite H2).
  assert (Hchecked : 0 < v ->
            spec_validation [s1] [s2] [v] [v] cap
            = first_violation cap
                (occupancy_levels (sorted_operations [d1] [d2] [v] [v]) 0)).
  { intro Hv.
    rewrite (spec_validation_checked [s1] [s2] [v] [v] cap [d1] [d2]);
      try reflexivity; try discriminate; try assumption;
      try (constructor; [exact Hv|constructor]).
    assert (E : Qltb (1 # 1000000) (Qabs (py_sum [v] - py_sum [v])) = false).
    { apply Qltb_false. apply Qabs_Qle_condition.
      unfold py_sum. cbn [fold_left]. split; lra. }
    now rewrite E. }
  assert (Hsorted : sorted_operations [d1] [d2] [v] [v]
                    = if ts_ltb d2 d1
                      then [mkOperation d2 Withdrawal v 0;
                            mkOperation d1 Injection v 0]
                      else [mkOperation d1 Injection v 0;
                            mkOperation d2 Withdrawal v 0])
    by reflexivity.
  split; [|split; [|split]].
  - intro Hv. apply spec_validation_raises. unfold spec_validation.
    rewrite Hp1, Hp2. cbn [List.length Nat.eqb negb orb forallb andb].
    assert (E : Qltb 0 v = false) by now apply Qltb_false.
    now rewrite E.
  - intros Hv Hord. apply spec_validation_raises.
    rewrite (Hchecked Hv), Hsorted. unfold ts_lt in Hord. rewrite Hord.
    cbn [occupancy_levels occupancy_after op_type op_volume first_violation].
    assert (E : Qltb (0 - v) 0 = true) by (apply Qltb_true; lra).
    now rewrite E.
  - intros Hv Hord Hcap. apply spec_validation_raises.
    rewrite (Hchecked Hv), Hsorted. unfold ts_le in Hord. rewrite Hord.
    cbn [occupancy_levels occupancy_after op_type op_volume first_violation].
    assert (E0 : Qltb (0 + v) 0 = false) by (apply Qltb_false; lra).
    assert (E1 : Qltb cap (0 + v) = true) by (apply Qltb_true; lra).
    now rewrite E0, E1.
  - intros Hv Hord Hcap.
    assert (Hnone : spec_validation [s1] [s2] [v] [v] cap = None).
    { rewrite (Hchecked Hv), Hsorted. unfold ts_le in Hord. rewrite Hord.
      cbn [occupancy_levels occupancy_after op_type op_volume first_violation].
      repeat match goal with
             | |- context [Qltb ?a ?b] =>
                 let E' := fresh "E" in
                 assert (E' : Qltb a b = false) by (apply Qltb_false; lra);
                 rewrite E'; clear E'
             end.
      reflexivity. }
    split; [exact Hnone|].
    pose proof (validation_refines [s1] [s2] [v] [v] csv_file cap costs) as Href.
    now rewrite Hnone in Href.
Qed.

End RoundTrip.

Section ToolProperties.

Context {L : Libraries}.
Variables str_strip str_lower : string -> string.

Let is_quit (line : string) : Prop := str_lower (str_strip line) = "quit"%string.
Let reply (model : Model) (df : DataFrame) (line : string) : Response :=
  answer model df (str_strip line).

(** The session answers every line read before the first sentinel, one
    answer per line in order, and reads nothing after it; without a
    sentinel it answers every line and ends on the end of input. *)
Theorem prompt_loop_until_quit :
  forall (model : Model) (df : DataFrame) (before : list string),
    Forall (fun line => ~ is_quit line) before ->
    prompt_loop str_strip str_lower model df before
    = (map (reply model df) before, EndOfInput)
    /\ forall line after,
         is_quit line ->
         prompt_loop str_strip str_lower model df (before ++ line :: after)
         = (map (reply model df) before, Quit).
Proof.
  intros model df before Hbefore.
  induction Hbefore as [|l before Hl _ [IH1 IH2]].
  - split; [reflexivity|]. intros line after Hq. cbn.
    unfold is_quit in Hq. rewrite Hq. reflexivity.
  - assert (E : String.eqb (str_lower (str_strip l)) "quit" = false).
    { apply String.eqb_neq. exact Hl. }
    split.
    + cbn [prompt_loop map]. rewrite E, IH1. reflexivity.
    + intros line after Hq. cbn [prompt_loop map app].
      rewrite E, (IH2 line after Hq). reflexivity.
Qed.

(** No answer of a session prices a date after 2025-09-30 or reports a
    negative price: an estimate is given only for an input that parses to a
    date on or before the limit, and it is the value [estimate_price] returns
    for that input on the last row of the table. *)
Theorem answers_within_limit :
  forall (model : Model) (df : DataFrame) (lines : list string),
    Forall (fun a =>
              match a with
              | Estimated date_input price =>
                  0 <= price /\
                  exists target last_row,
                    to_datetime date_input = Some target /\
                    ts_le target (mkTimestamp 2025 9 30) /\
                    iloc_last df = inr last_row /\
                    estimate_price date_input model
                      (Dates last_row) (TimeIndex last_row) = inr price
              | _ => True
              end)
           (fst (prompt_loop str_strip str_lower model df lines)).
Proof.
  intros model df lines. induction lines as [|line rest IH]; cbn [prompt_loop].
  - constructor.
  - destruct (String.eqb _ _); [constructor|].
    destruct (prompt_loop str_strip str_lower model df rest) as [answers ending].
    cbn [fst] in *. constructor; [|exact IH].
    unfold answer.
    destruct (to_datetime (str_strip line)) as [target|] eqn:Hparse; [|exact I].
    destruct (ts_ltb (mkTimestamp 2025 9 30) target) eqn:Hgate; [exact I|].
    destruct (iloc_last df) as [e|row] eqn:Hlast; [exact I|].
    destruct (estimate_price _ _ _ _) as [e|price] eqn:Hest; [exact I|].
    split.
    + unfold estimate_price in Hest. rewrite Hparse in Hest.
      injection Hest as <-. apply py_max0_nonneg.
    + exists target, row. auto.
Qed.

(** The session and [get_price_estimate] agree: with the model and the
    table of [main], a line is answered with a price exactly when it parses
    to a date on or before the limit and [get_price_estimate] returns that
    price for it on the default file. *)
Theorem tool_answers_are_estimates :
  forall (model : Model) (df : DataFrame),
    main = inr (model, df) ->
    forall (date_input shown : string) (price : Q),
      answer model df date_input = Estimated shown price
      <-> shown = date_input
          /\ (exists target,
                to_datetime date_input = Some target
                /\ ts_le target (mkTimestamp 2025 9 30))
          /\ get_price_estimate date_input "Nat_Gas.csv" = inr price.
Proof.
  intros model df Hmain date_input shown price.
  unfold main in Hmain. unfold get_price_estimate, answer.
  destruct (load_price_data "Nat_Gas.csv") as [e|df0]; [discriminate|].
  destruct (build_price_model df0) as [e|model0]; [discriminate|].
  injection Hmain as -> ->. split.
  - destruct (to_datetime date_input) as [target|] eqn:Hparse; [|discriminate].
    destruct (ts_ltb (mkTimestamp 2025 9 30) target) eqn:Hgate; [discriminate|].
    destruct (iloc_last df) as [e|row]; [discriminate|].
    destruct (estimate_price _ _ _ _) as [e|q]; [discriminate|].
    intros [= <- <-]. split; [reflexivity|]. split; [|reflexivity].
    exists target. split; [reflexivity | exact Hgate].
  - intros (-> & (target & Hparse & Hgate) & Hest).
    rewrite Hparse. unfold ts_le in Hgate. rewrite Hgate.
    destruct (iloc_last df) as [e|row]; [discriminate|].
    now rewrite Hest.
Qed.

End ToolProperties.

(** * The tests on the volumes, in binary64 *)

Module Binary64Facts.

Import PrimFloat FloatOps SpecFloat FloatAxioms Binary64.
Local Open Scope float_scope.

(** *** Comparisons with NaN and with zero *)

Lemma ltb_nan_r (x : float) : (x <? nan) = false.
Proof.
  rewrite ltb_spec. change (Prim2SF nan) with S754_nan.
  unfold SFltb, SFcompare. now destruct (Prim2SF x).
Qed.

Lemma ltb_nan_l (x : float) : (nan <? x) = false.
Proof.
  rewrite ltb_spec. change (Prim2SF nan) with S754_nan. reflexivity.
Qed.

Lemma leb_nan_l (x : float) : (nan <=? x) = false.
Proof.
  rewrite leb_spec. change (Prim2SF nan) with S754_nan. reflexivity.
Qed.

Lemma leb_nan_r (x : float) : (x <=? nan) = false.
Proof.
  rewrite leb_spec. change (Prim2SF nan) with S754_nan.
  unfold SFleb, SFcompare. now destruct (Prim2SF x).
Qed.

Lemma nan_is_no_number : ~ is_number nan.
Proof. unfold is_number. discriminate. Qed.

(** A number that is not [<= 0] is above zero, and taking it from an empty
    storage leaves a negative level: the test of forecasting.py:160 fires. *)
Lemma withdrawal_from_empty (v : float) :
  (v <=? 0) = false -> is_number v -> (0 - v <? 0) = true.
Proof.
  unfold is_number. rewrite leb_spec, eqb_spec, ltb_spec, sub_spec.
  change (Prim2SF 0) with (S754_zero false).
  destruct (Prim2SF v) as [s|s| |s m e]; cbn.
  - destruct s; discriminate.
  - destruct s; [discriminate | reflexivity].
  - discriminate.
  - destruct s; [discriminate | reflexivity].
Qed.

(** *** Sequencing *)

Lemma bind_returned {A B : Type} (m : M A) (k : A -> M B)
    (t : list Event) (y : B) :
  bind m k = (t, inr y) ->
  exists t1 x t2, m = (t1, inr x) /\ k x = (t2, inr y) /\ t = t1 ++ t2.
Proof.
  unfold bind. destruct m as [t1 [e|x]]; [discriminate|].
  destruct (k x) as [t2 r] eqn:Ek. intros [= <- ->].
  exists t1, x, t2. auto.
Qed.

Lemma bind_raised {A B : Type} (m : M A) (k : A -> M B)
    (t : list Event) (e : Exception) :
  bind m k = (t, inl e) ->
  m = (t, inl e)
  \/ exists t1 x t2, m = (t1, inr x) /\ k x = (t2, inl e) /\ t = t1 ++ t2.
Proof.
  unfold bind. destruct m as [t1 [e'|x]].
  - intros [= <- <-]. now left.
  - destruct (k x) as [t2 r] eqn:Ek. intros [= <- ->].
    right. exists t1, x, t2. auto.
Qed.

Lemma raise_if_returned (c : bool) (e : Exception) (t : list Event) (u : unit) :
  raise_if c e = (t, inr u) -> c = false /\ t = [].
Proof. destruct c; cbn; [discriminate|]. intros [= <-]. auto. Qed.

Lemma raise_if_raised (c : bool) (e e' : Exception) (t : list Event) :
  raise_if c e = (t, inl e') -> c = true /\ e' = e /\ t = [].
Proof. destruct c; cbn; [|discriminate]. intros [= <- <-]. auto. Qed.

Lemma lift_result {A : Type} (r r' : Res A) (t : list Event) :
  lift r = (t, r') -> r = r' /\ t = [].
Proof. unfold lift. intros [= <- <-]. auto. Qed.

Lemma tell_returned (ev : Event) (t : list Event) (u : unit) :
  tell ev = (t, inr u) -> t = [ev].
Proof. unfold tell. now intros [= <-]. Qed.

Lemma tell_never_raises (ev : Event) (t : list Event) (e : Exception) :
  tell ev = (t, inl e) -> False.
Proof. unfold tell. discriminate. Qed.

Ltac returned_step H :=
  let t1 := fresh "t" in
  let x := fresh "x" in
  let t2 := fresh "t" in
  let Hm := fresh "Hm" in
  apply bind_returned in H; destruct H as (t1 & x & t2 & Hm & H & ->);
  first [ apply raise_if_returned in Hm; destruct Hm as [Hm ->]
        | apply lift_result in Hm; destruct Hm as [Hm ->]
        | apply tell_returned in Hm; subst t1
        | idtac ];
  cbv beta in H.

Ltac raised_step H :=
  let t1 := fresh "t" in
  let x := fresh "x" in
  let t2 := fresh "t" in
  let Hm := fresh "Hm" in
  apply bind_raised in H;
  destruct H as [H | (t1 & x & t2 & Hm & H & ->)];
  [ first [ apply raise_if_raised in H; destruct H as (H & -> & ->)
          | apply lift_result in H; destruct H as [H ->]
          | apply tell_never_raises in H; contradiction
          | idtac ]
  | first [ apply raise_if_returned in Hm; destruct Hm as [Hm ->]
          | apply lift_result in Hm; destruct Hm as [Hm ->]
          | apply tell_returned in Hm; subst t1
          | idtac ];
    cbv beta in H ].

(** *** The operations list and its sort *)

Lemma inserted_perm (x : Operation) (l : list Operation) :
  Permutation (insert_by_date x l) (x :: l).
Proof.
  induction l as [|y l IH]; cbn; [reflexivity|].
  destruct (ts_ltb (op_date y) (op_date x)); [|reflexivity].
  rewrite IH. apply perm_swap.
Qed.

Lemma sorted_perm (l : list Operation) : Permutation (sort_by_date l) l.
Proof.
  induction l as [|x l IH]; [reflexivity|].
  change (sort_by_date (x :: l)) with (insert_by_date x (sort_by_date l)).
  rewrite inserted_perm. now constructor.
Qed.

(** The first operation of the sorted list is one of the earliest. *)
Lemma sorted_head (l : list Operation) (o : Operation) (rest : list Operation) :
  sort_by_date l = o :: rest ->
  In o l /\ forall x, In x l -> ts_le (op_date o) (op_date x).
Proof.
  revert o rest. induction l as [|a l IH]; intros o rest E; [discriminate|].
  change (sort_by_date (a :: l)) with (insert_by_date a (sort_by_date l)) in E.
  destruct (sort_by_date l) as [|y ys] eqn:Es.
  - cbn in E. injection E as <- <-.
    assert (l = []) as ->.
    { pose proof (sorted_perm l) as Hp. rewrite Es in Hp.
      now apply Permutation_nil in Hp. }
    split; [now left|]. intros x [<-|[]]. apply ts_le_refl.
  - destruct (IH y ys eq_refl) as [Hy Hmin].
    cbn [insert_by_date] in E.
    destruct (ts_ltb (op_date y) (op_date a)) eqn:Ec; injection E as <- <-.
    + split; [now right|]. intros x [<-|Hx]; [|now apply Hmin].
      unfold ts_le. clear - Ec. ts_order.
    + split; [now left|]. intros x [<-|Hx]; [apply ts_le_refl|].
      specialize (Hmin x Hx). clear - Ec Hmin. ts_order.
Qed.

Lemma made_operations (k : LegKind) (dates : list Timestamp) :
  forall (volumes : list float) (i : nat) (o : Operation),
    In o (make_operations k i dates volumes) ->
    op_type o = k /\ In (op_date o) dates /\ In (op_volume o) volumes.
Proof.
  induction dates as [|d dates IH]; intros [|v volumes] i o Hin;
    cbn in Hin; try contradiction.
  destruct Hin as [<-|Hin]; cbn.
  - auto.
  - destruct (IH _ _ _ Hin) as (? & ? & ?). auto.
Qed.

Lemma volumes_checked (volumes : list float) :
  check_volumes volumes = inr tt
  <-> Forall (fun v => (v <=? 0) = false) volumes.
Proof.
  induction volumes as [|v volumes IH]; cbn [check_volumes].
  - split; [constructor | reflexivity].
  - destruct (v <=? 0) eqn:E.
    + split; [discriminate|]. intro H. inversion H; subst. congruence.
    + rewrite IH. split.
      * now constructor.
      * intro H. now inversion H.
Qed.

(** A replay that raises nothing over a schedule whose last withdrawal
    precedes its first injection began with a withdrawal from the empty
    storage that the test of forecasting.py:160 let through: its volume is
    not a number. *)
Lemma replay_before_first_injection
    (i0 w0 : Timestamp) (irest wrest : list Timestamp)
    (ivols wvols : list float) (cap : float) :
  List.length (w0 :: wrest) = List.length wvols ->
  Forall (fun v => (v <=? 0) = false) wvols ->
  check_storage (sorted_operations (i0 :: irest) (w0 :: wrest) ivols wvols) cap 0
    = inr tt ->
  ts_ltb (ts_max w0 wrest) (ts_min i0 irest) = true ->
  exists v, In v wvols /\ ~ is_number v.
Proof.
  intros Hlen Hpos Hcheck Hord. unfold sorted_operations in Hcheck.
  set (injs := make_operations Injection 0 (i0 :: irest) ivols) in *.
  set (wds := make_operations Withdrawal 0 (w0 :: wrest) wvols) in *.
  assert (Hw : exists w, In w wds).
  { destruct wvols as [|v wvols]; [discriminate|]. eexists. now left. }
  destruct Hw as [w Hw].
  destruct (made_operations _ _ _ _ _ Hw) as (_ & Hwd & _).
  destruct (sort_by_date (injs ++ wds)) as [|o rest] eqn:Es.
  - pose proof (sorted_perm (injs ++ wds)) as Hp. rewrite Es in Hp.
    apply Permutation_nil in Hp. apply app_eq_nil in Hp.
    destruct Hp as [_ Hnil]. rewrite Hnil in Hw. contradiction.
  - destruct (sorted_head _ _ _ Es) as [Hin Hmin].
    apply in_app_or in Hin. destruct Hin as [Hin|Hin].
    + exfalso. destruct (made_operations _ _ _ _ _ Hin) as (_ & Hod & _).
      assert (How : ts_le (op_date o) (op_date w))
        by (apply Hmin, in_or_app; now right).
      pose proof (proj2 (ts_min_spec irest i0) _ Hod) as H1.
      pose proof (proj2 (ts_max_spec wrest w0) _ Hwd) as H2.
      clear - How H1 H2 Hord. ts_order.
    + destruct (made_operations _ _ _ _ _ Hin) as (Hty & _ & Hvol).
      exists (op_volume o). split; [exact Hvol|]. intro Hnum.
      rewrite Forall_forall in Hpos. specialize (Hpos _ Hvol).
      cbn [check_storage] in Hcheck. rewrite Hty in Hcheck.
      rewrite (withdrawal_from_empty _ Hpos Hnum) in Hcheck. discriminate.
Qed.

(** *** The steps of a call *)

Section Calls.

Context {L : Libraries}.

Lemma parsed_length (dates : list string) :
  forall ts, parse_all dates = Some ts -> List.length ts = List.length dates.
Proof.
  induction dates as [|s dates IH]; cbn; intros ts H.
  - now injection H as <-.
  - destruct (to_datetime s); [|discriminate].
    destruct (parse_all dates) as [ts'|]; [|discriminate].
    injection H as <-. cbn. now rewrite (IH ts').
Qed.

Lemma parsed_In (dates : list string) :
  forall ts s,
    parse_all dates = Some ts -> In s dates ->
    exists t, to_datetime s = Some t.
Proof.
  induction dates as [|s0 dates IH]; cbn; intros ts s H Hin; [contradiction|].
  destruct (to_datetime s0) as [t0|] eqn:E0; [|discriminate].
  destruct (parse_all dates) as [ts'|]; [|discriminate].
  destruct Hin as [<-|Hin]; eauto.
Qed.

Lemma legs_parsed (dates : list string) (ts : list Timestamp)
    (volumes : list float) :
  parse_all dates = Some ts ->
  forall leg, In leg (combine dates volumes) ->
              exists t, to_datetime (fst leg) = Some t.
Proof.
  intros H [s v] Hin. apply in_combine_l in Hin.
  exact (parsed_In _ _ _ H Hin).
Qed.

Lemma schedule_parsed (idates wdates : list string) (ip wp : list Timestamp) :
  parse_schedule idates wdates = inr (ip, wp) <->
  parse_all idates = Some ip /\ parse_all wdates = Some wp.
Proof.
  unfold parse_schedule.
  destruct (parse_all idates) as [ip'|];
    [|split; [discriminate|intros [? _]; discriminate]].
  destruct (parse_all wdates) as [wp'|];
    [|split; [discriminate|intros [_ ?]; discriminate]].
  split.
  - intros [= <- <-]. auto.
  - intros [[= <-] [= <-]]. reflexivity.
Qed.

Lemma schedule_not_parsed (idates wdates : list string) (e : Exception) :
  parse_schedule idates wdates = inl e -> e = InvalidDateError.
Proof.
  unfold parse_schedule.
  destruct (parse_all idates); [destruct (parse_all wdates)|];
    try discriminate; now intros [= <-].
Qed.

Lemma volumes_refused (volumes : list float) (e : Exception) :
  check_volumes volumes = inl e -> e = NonPositiveVolumeError.
Proof.
  induction volumes as [|v volumes IH]; cbn [check_volumes]; [discriminate|].
  destruct (v <=? 0); [now intros [= <-] | exact IH].
Qed.

Lemma replay_refused (operations : list Operation) (cap : float) :
  forall (level : float) (e : Exception),
    check_storage operations cap level = inl e ->
    e = CapacityExceededError \/ e = InsufficientStorageError.
Proof.
  induction operations as [|op rest IH]; intros level e; cbn [check_storage];
    [discriminate|].
  destruct (op_type op).
  - destruct (cap <? level + op_volume op); [intros [= <-]; now left | apply IH].
  - destruct (level - op_volume op <? 0); [intros [= <-]; now right | apply IH].
Qed.

Lemma price_looked_up (model : Model) (reference_date : Timestamp)
    (last_time_index : Z) (date_str : string) (t : Timestamp) :
  to_datetime date_str = Some t ->
  get_price model reference_date last_time_index date_str
  = ([GetPrice date_str],
     inr (price_at model reference_date last_time_index date_str)).
Proof.
  intro H. unfold get_price, price_at, estimate_price.
  rewrite H. reflexivity.
Qed.

(** The loops never raise on dates that parse, and price the legs in input
    order. *)
Lemma injections_priced (model : Model) (reference_date : Timestamp)
    (last_time_index : Z) (costs : StorageCosts) (legs : list (string * float)) :
  forall acc,
    (forall leg, In leg legs -> exists t, to_datetime (fst leg) = Some t) ->
    exists acc',
      process_injections (get_price model reference_date last_time_index)
        costs legs acc
      = (flat_map (injection_events
                     (price_at model reference_date last_time_index)) legs,
         inr acc').
Proof.
  induction legs as [|[d v] legs IH]; intros acc Hp.
  - exists acc. reflexivity.
  - destruct (Hp (d, v) (or_introl eq_refl)) as [t Ht]. cbn [fst] in Ht.
    cbn [process_injections].
    rewrite (price_looked_up model reference_date last_time_index d t Ht).
    cbn [bind tell].
    match goal with
    | |- context [process_injections _ _ _ ?a] =>
        destruct (IH a (fun leg Hin => Hp leg (or_intror Hin))) as [acc' E]
    end.
    rewrite E. exists acc'. reflexivity.
Qed.

Lemma withdrawals_priced (model : Model) (reference_date : Timestamp)
    (last_time_index : Z) (costs : StorageCosts) (legs : list (string * float)) :
  forall acc,
    (forall leg, In leg legs -> exists t, to_datetime (fst leg) = Some t) ->
    exists acc',
      process_withdrawals (get_price model reference_date last_time_index)
        costs legs acc
      = (flat_map (withdrawal_events
                     (price_at model reference_date last_time_index)) legs,
         inr acc').
Proof.
  induction legs as [|[d v] legs IH]; intros acc Hp.
  - exists acc. reflexivity.
  - destruct (Hp (d, v) (or_introl eq_refl)) as [t Ht]. cbn [fst] in Ht.
    cbn [process_withdrawals].
    rewrite (price_looked_up model reference_date last_time_index d t Ht).
    cbn [bind tell].
    match goal with
    | |- context [process_withdrawals _ _ _ ?a] =>
        destruct (IH a (fun leg Hin => Hp leg (or_intror Hin))) as [acc' E]
    end.
    rewrite E. exists acc'. reflexivity.
Qed.

Lemma nonempty_dates {A : Type} (l : list A) :
  (List.length l =? 0)%nat = false <-> l <> [].
Proof. destruct l; cbn; split; congruence. Qed.

(** Where a call that raises stopped: at one of the tests of rules 1 to 7,
    with no event; inside the libraries while loading or fitting; or at the
    test of forecasting.py:217, after both loops. *)
Lemma raised_inv
    (idates wdates : list string) (ivols wvols : list float)
    (csv_file : string) (cap : float) (storage_costs : option StorageCosts)
    (t : list Event) (e : Exception) :
  price_storage_contract idates wdates ivols wvols csv_file cap storage_costs
    = (t, inl e) ->
  (t = [] /\ e <> InvalidScheduleOrderError /\ is_validation_error e = true
   /\ (e = VolumeMismatchError ->
       (1e-6 <? abs (py_sum ivols - py_sum wvols)) = true))
  \/ (is_validation_error e = false
      /\ (t = [LoadPriceData csv_file]
          \/ t = [LoadPriceData csv_file; BuildPriceModel]))
  \/ (e = InvalidScheduleOrderError
      /\ exists ip wp df model row first last,
           List.length wdates = List.length wvols /\
           parse_all idates = Some ip /\ parse_all wdates = Some wp /\
           Forall (fun v => (v <=? 0) = false) wvols /\
           check_storage (sorted_operations ip wp ivols wvols) cap 0 = inr tt /\
           load_price_data csv_file = inr df /\
           build_price_model df = inr model /\
           iloc_last df = inr row /\
           t = [LoadPriceData csv_file; BuildPriceModel]
               ++ flat_map (injection_events
                              (price_at model (Dates row) (TimeIndex row)))
                           (combine idates ivols)
               ++ flat_map (withdrawal_events
                              (price_at model (Dates row) (TimeIndex row)))
                           (combine wdates wvols) /\
           py_min ip = inr first /\ py_max wp = inr last /\
           ts_ltb last first = true).
Proof.
  intro H. unfold price_storage_contract in H. cbv zeta in H.
  raised_step H.
  { left. repeat split; try discriminate. }
  raised_step H.
  { left. repeat split; try discriminate. }
  raised_step H.
  { left. repeat split; try discriminate. }
  raised_step H.
  { apply schedule_not_parsed in H. subst e.
    left. repeat split; try discriminate. }
  destruct x2 as [ip wp]. cbn [fst snd] in H.
  match goal with
  | Hp : parse_schedule _ _ = _ |- _ =>
      apply schedule_parsed in Hp; destruct Hp as [Hip Hwp]
  end.
  raised_step H.
  { apply volumes_refused in H. subst e.
    left. repeat split; try discriminate. }
  raised_step H.
  { apply volumes_refused in H. subst e.
    left. repeat split; try discriminate. }
  raised_step H.
  { left. repeat split; try discriminate. intros _. exact H. }
  raised_step H.
  { apply replay_refused in H.
    left. destruct H as [-> | ->]; repeat split; discriminate. }
  raised_step H.
  raised_step H.
  { right. left. split; [|now left].
    unfold load_price_data in H. destruct (read_csv csv_file) as [table|].
    - destruct (parse_all (map fst table)); [discriminate|].
      now injection H as <-.
    - now injection H as <-. }
  raised_step H.
  raised_step H.
  { right. left. split; [|now right].
    unfold build_price_model in H.
    destruct (LinearRegression_fit _ _); [discriminate|].
    now injection H as <-. }
  raised_step H.
  { right. left. split; [|now right].
    unfold iloc_last in H. destruct (rev _); [|discriminate].
    now injection H as <-. }
  assert (Hlenw : List.length wdates = List.length wvols).
  { match goal with
    | Hl : negb (List.length wdates =? _)%nat = false |- _ =>
        rewrite negb_false_iff in Hl; now apply Nat.eqb_eq in Hl
    end. }
  assert (Hne : idates <> [] /\ wdates <> []).
  { match goal with
    | Ho : (_ || _)%bool = false |- _ =>
        apply orb_false_iff in Ho; destruct Ho as [Ho1 Ho2];
        apply nonempty_dates in Ho1, Ho2; auto
    end. }
  destruct Hne as [Hnei Hnew].
  assert (Hpw : Forall (fun v => (v <=? 0) = false) wvols).
  { match goal with
    | Hc : check_volumes wvols = inr ?u |- _ =>
        destruct u; now apply volumes_checked in Hc
    end. }
  assert (Hcheck : check_storage (sorted_operations ip wp ivols wvols) cap 0
                   = inr tt).
  { match goal with
    | Hc : check_storage _ _ _ = inr ?u |- _ => destruct u; exact Hc
    end. }
  match type of H with
  | bind (process_injections (get_price ?m ?d ?i) ?c ?legs ?acc) _ = _ =>
      destruct (injections_priced m d i c legs acc (legs_parsed _ _ _ Hip))
        as [flows1 Hrun1]
  end.
  raised_step H.
  { rewrite Hrun1 in H. discriminate. }
  match goal with
  | Hr : process_injections _ _ _ _ = (_, inr _) |- _ =>
      rewrite Hrun1 in Hr; injection Hr as <- <-
  end.
  match type of H with
  | bind (process_withdrawals (get_price ?m ?d ?i) ?c ?legs ?acc) _ = _ =>
      destruct (withdrawals_priced m d i c legs acc (legs_parsed _ _ _ Hwp))
        as [flows2 Hrun2]
  end.
  raised_step H.
  { rewrite Hrun2 in H. discriminate. }
  match goal with
  | Hr : process_withdrawals _ _ _ _ = (_, inr _) |- _ =>
      rewrite Hrun2 in Hr; injection Hr as <- <-
  end.
  raised_step H.
  { exfalso. destruct ip; [|discriminate].
    apply parsed_length in Hip. cbn in Hip. symmetry in Hip.
    apply length_zero_iff_nil in Hip. congruence. }
  raised_step H.
  { exfalso. destruct wp; [|discriminate].
    apply parsed_length in Hwp. cbn in Hwp. symmetry in Hwp.
    apply length_zero_iff_nil in Hwp. congruence. }
  raised_step H.
  { right. right. split; [reflexivity|].
    repeat match goal with
           | Hl : lift _ = _ |- _ => apply lift_result in Hl
           end.
    do 7 eexists. repeat (split; [eassumption || reflexivity|]).
    split; [|split; [eassumption | split; [eassumption | exact H]]].
    rewrite ?app_nil_r. cbn [app]. reflexivity. }
  unfold ret in H. discriminate.
Qed.

(** A call whose tests of rules 1 to 5 pass and whose volume test fires. *)
Lemma mismatch_raised
    (idates wdates : list string) (ivols wvols : list float)
    (csv_file : string) (cap : float) (storage_costs : option StorageCosts)
    (ip wp : list Timestamp) :
  List.length idates = List.length ivols ->
  List.length wdates = List.length wvols ->
  idates <> [] -> wdates <> [] ->
  parse_all idates = Some ip -> parse_all wdates = Some wp ->
  Forall (fun v => (v <=? 0) = false) ivols ->
  Forall (fun v => (v <=? 0) = false) wvols ->
  (1e-6 <? abs (py_sum ivols - py_sum wvols)) = true ->
  price_storage_contract idates wdates ivols wvols csv_file cap storage_costs
  = ([], inl VolumeMismatchError).
Proof.
  intros Hli Hlw Hi Hw Hip Hwp Hpi Hpw Htest.
  unfold price_storage_contract. cbv zeta.
  apply Nat.eqb_eq in Hli, Hlw. rewrite Hli, Hlw.
  apply nonempty_dates in Hi, Hw. rewrite Hi, Hw.
  rewrite (proj2 (schedule_parsed _ _ _ _) (conj Hip Hwp)).
  apply volumes_checked in Hpi, Hpw.
  cbn [negb orb raise_if ret lift bind fst snd app].
  rewrite Hpi, Hpw. cbn [bind]. rewrite Htest. reflexivity.
Qed.

(** A call whose tests of rules 1 to 7 pass prices every leg and then
    reaches the test of forecasting.py:217. *)
Lemma priced
    (idates wdates : list string) (ivols wvols : list float)
    (csv_file : string) (cap : float) (storage_costs : option StorageCosts)
    (ip wp : list Timestamp) (df : DataFrame) (model : Model) (row : Row)
    (first last : Timestamp) :
  List.length idates = List.length ivols ->
  List.length wdates = List.length wvols ->
  idates <> [] -> wdates <> [] ->
  parse_all idates = Some ip -> parse_all wdates = Some wp ->
  Forall (fun v => (v <=? 0) = false) ivols ->
  Forall (fun v => (v <=? 0) = false) wvols ->
  (1e-6 <? abs (py_sum ivols - py_sum wvols)) = false ->
  check_storage (sorted_operations ip wp ivols wvols) cap 0 = inr tt ->
  load_price_data csv_file = inr df ->
  build_price_model df = inr model ->
  iloc_last df = inr row ->
  py_min ip = inr first -> py_max wp = inr last ->
  exists res,
    price_storage_contract idates wdates ivols wvols csv_file cap storage_costs
    = ([LoadPriceData csv_file; BuildPriceModel]
         ++ flat_map (injection_events
                        (price_at model (Dates row) (TimeIndex row)))
                     (combine idates ivols)
         ++ flat_map (withdrawal_events
                        (price_at model (Dates row) (TimeIndex row)))
                     (combine wdates wvols),
       res)
    /\ (ts_ltb last first = true -> res = inl InvalidScheduleOrderError)
    /\ (ts_ltb last first = false ->
        exists r, res = inr r /\ total_volume r = py_sum ivols).
Proof.
  intros Hli Hlw Hi Hw Hip Hwp Hpi Hpw Htest Hcheck Hload Hbuild Hlast
         Hmin Hmax.
  unfold price_storage_contract. cbv zeta.
  apply Nat.eqb_eq in Hli, Hlw. rewrite Hli, Hlw.
  apply nonempty_dates in Hi, Hw. rewrite Hi, Hw.
  rewrite (proj2 (schedule_parsed _ _ _ _) (conj Hip Hwp)).
  apply volumes_checked in Hpi, Hpw.
  cbn [negb orb raise_if ret lift bind fst snd app].
  rewrite Hpi, Hpw. cbn [bind]. rewrite Htest. cbn [bind].
  rewrite Hcheck. cbn [bind tell].
  rewrite Hload. cbn [bind]. rewrite Hbuild. cbn [bind].
  rewrite Hlast. cbn [bind].
  match goal with
  | |- context [process_injections (get_price ?m ?d ?i) ?c ?legs ?acc] =>
      destruct (injections_priced m d i c legs acc (legs_parsed _ _ _ Hip))
        as [flows1 Hrun1]; rewrite Hrun1
  end.
  cbn [bind].
  match goal with
  | |- context [process_withdrawals (get_price ?m ?d ?i) ?c ?legs ?acc] =>
      destruct (withdrawals_priced m d i c legs acc (legs_parsed _ _ _ Hwp))
        as [flows2 Hrun2]; rewrite Hrun2
  end.
  cbn [bind]. rewrite Hmin, Hmax. cbn [bind].
  destruct (ts_ltb last first).
  - eexists. split; [|split; [reflexivity | discriminate]].
    cbn [bind raise_if ret raise lift tell app fst snd].
    rewrite ?app_nil_r. reflexivity.
  - eexists. split; [|split; [discriminate|]].
    + cbn [bind raise_if ret raise lift tell app fst snd].
      rewrite ?app_nil_r. reflexivity.
    + intros _. eexists. split; reflexivity.
Qed.

End Calls.

(** ** The volume test (forecasting.py:120-125) in binary64 *)

Section VolumeTest.

Context {L : Libraries}.

Variables (injection_dates withdrawal_dates : list string).
Variables (injection_volumes withdrawal_volumes : list float).
Variables (csv_file : string) (max_storage_capacity : float).
Variable storage_costs : option StorageCosts.

Let call : M ContractResult :=
  price_storage_contract injection_dates withdrawal_dates
    injection_volumes withdrawal_volumes
    csv_file max_storage_capacity storage_costs.

(** C4, as amended.  Once the tests of rules 1 to 5 pass, the call raises
    [VolumeMismatchError] exactly when
    [abs(sum(injection_volumes) - sum(withdrawal_volumes)) > 1e-6]
    evaluates to true in binary64, the sums being accumulated from left to
    right; it then raises it before any pricing step.  Lists whose sums come
    out as 100 and 99.999999 do not raise it; lists whose sums come out as
    100 and 99.9 do. *)
Theorem volume_test_in_binary64 :
  forall injections withdrawals,
    List.length injection_dates = List.length injection_volumes ->
    List.length withdrawal_dates = List.length withdrawal_volumes ->
    injection_dates <> [] -> withdrawal_dates <> [] ->
    parse_all injection_dates = Some injections ->
    parse_all withdrawal_dates = Some withdrawals ->
    Forall (fun v => (v <=? 0) = false) injection_volumes ->
    Forall (fun v => (v <=? 0) = false) withdrawal_volumes ->
    (outcome call = inl VolumeMismatchError
     <-> (1e-6 <? abs (py_sum injection_volumes - py_sum withdrawal_volumes))
         = true)
    /\ (outcome call = inl VolumeMismatchError ->
        call = ([], inl VolumeMismatchError))
    /\ (py_sum injection_volumes = 100 ->
        py_sum withdrawal_volumes = 99.999999 ->
        outcome call <> inl VolumeMismatchError)
    /\ (py_sum injection_volumes = 100 ->
        py_sum withdrawal_volumes = 99.9 ->
        call = ([], inl VolumeMismatchError)).
Proof.
  intros ip wp Hli Hlw Hi Hw Hip Hwp Hpi Hpw.
  assert (Hraise : (1e-6 <? abs (py_sum injection_volumes
                                  - py_sum withdrawal_volumes)) = true ->
                   call = ([], inl VolumeMismatchError))
    by (intro Htest; eapply mismatch_raised; eauto).
  assert (Hiff : outcome call = inl VolumeMismatchError
                 <-> (1e-6 <? abs (py_sum injection_volumes
                                    - py_sum withdrawal_volumes)) = true).
  { split.
    - intro Hout. destruct call as [t res] eqn:Hrun. cbn in Hout. subst res.
      destruct (raised_inv _ _ _ _ _ _ _ _ _ Hrun)
        as [(_ & _ & _ & Htest) | [(Hkind & _) | (Habs & _)]];
        [now apply Htest | discriminate | discriminate].
    - intro Htest. now rewrite (Hraise Htest). }
  split; [exact Hiff|]. split; [|split].
  - intro Hout. apply Hraise. now apply Hiff.
  - intros Hin Hout Hraised. apply Hiff in Hraised.
    rewrite Hin, Hout in Hraised. vm_compute in Hraised. discriminate.
  - intros Hin Hout. apply Hraise. rewrite Hin, Hout. reflexivity.
Qed.

End VolumeTest.

(** ** Volumes that are not numbers *)

Section NotANumber.

Context {L : Libraries}.

(** C1, at the failing input.  One injection and one withdrawal of volume
    NaN, the withdrawal dated before the injection, over a price file that
    loads: every test of rules 1 to 7 is false on NaN, so the call loads the
    table, fits the model, prices both legs and posts them to the totals,
    and only then raises "Last withdrawal date must be after first injection
    date". *)
Theorem nan_volumes_priced_then_refused :
  forall (injection_date withdrawal_date : string) (d_inj d_wd : Timestamp)
         (csv_file : string) (max_storage_capacity : float)
         (storage_costs : option StorageCosts)
         (df : DataFrame) (model : Model) (row : Row),
    to_datetime injection_date = Some d_inj ->
    to_datetime withdrawal_date = Some d_wd ->
    ts_lt d_wd d_inj ->
    load_price_data csv_file = inr df ->
    build_price_model df = inr model ->
    iloc_last df = inr row ->
    let price := price_at model (Dates row) (TimeIndex row) in
    price_storage_contract [injection_date] [withdrawal_date] [nan] [nan]
      csv_file max_storage_capacity storage_costs
    = ([LoadPriceData csv_file; BuildPriceModel;
        GetPrice injection_date;
        PostInjection nan (price injection_date) (nan * price injection_date);
        GetPrice withdrawal_date;
        PostWithdrawal nan (price withdrawal_date)
                       (nan * price withdrawal_date)],
       inl InvalidScheduleOrderError).
Proof.
  intros s1 s2 d1 d2 csv cap costs df model row H1 H2 Hord Hload Hbuild Hlast.
  cbv zeta.
  assert (Hp1 : parse_all [s1] = Some [d1]) by (cbn; now rewrite H1).
  assert (Hp2 : parse_all [s2] = Some [d2]) by (cbn; now rewrite H2).
  assert (Hcheck : check_storage (sorted_operations [d1] [d2] [nan] [nan]) cap 0
                   = inr tt).
  { unfold sorted_operations.
    cbn [make_operations app sort_by_date fold_right insert_by_date op_date].
    unfold ts_lt in Hord. rewrite Hord.
    cbn [check_storage op_type op_volume].
    change (0 - nan <? 0) with false. cbv iota.
    change (0 - nan + nan) with nan. now rewrite ltb_nan_r. }
  destruct (priced [s1] [s2] [nan] [nan] csv cap costs [d1] [d2] df model row
              d1 d2 eq_refl eq_refl ltac:(discriminate) ltac:(discriminate)
              Hp1 Hp2
              ltac:(repeat constructor) ltac:(repeat constructor)
              eq_refl Hcheck Hload Hbuild Hlast eq_refl eq_refl)
    as (res & Hrun & Hrefused & _).
  rewrite Hrun, (Hrefused Hord). reflexivity.
Qed.

(** C3, at the failing input.  The same two legs in date order: the call
    returns, although the occupancy after each operation is NaN, which is
    not within [0, max_storage_capacity] for any capacity. *)
Theorem nan_occupancy_accepted :
  forall (injection_date withdrawal_date : string) (d_inj d_wd : Timestamp)
         (csv_file : string) (max_storage_capacity : float)
         (storage_costs : option StorageCosts)
         (df : DataFrame) (model : Model) (row : Row),
    to_datetime injection_date = Some d_inj ->
    to_datetime withdrawal_date = Some d_wd ->
    ts_le d_inj d_wd ->
    load_price_data csv_file = inr df ->
    build_price_model df = inr model ->
    iloc_last df = inr row ->
    (exists t r,
        price_storage_contract [injection_date] [withdrawal_date] [nan] [nan]
          csv_file max_storage_capacity storage_costs = (t, inr r))
    /\ occupancy_levels (sorted_operations [d_inj] [d_wd] [nan] [nan]) 0
       = [nan; nan]
    /\ ~ within_capacity max_storage_capacity nan.
Proof.
  intros s1 s2 d1 d2 csv cap costs df model row H1 H2 Hord Hload Hbuild Hlast.
  assert (Hp1 : parse_all [s1] = Some [d1]) by (cbn; now rewrite H1).
  assert (Hp2 : parse_all [s2] = Some [d2]) by (cbn; now rewrite H2).
  assert (Hsorted : sorted_operations [d1] [d2] [nan] [nan]
                    = [mkOperation d1 Injection nan 0;
                       mkOperation d2 Withdrawal nan 0]).
  { unfold sorted_operations.
    cbn [make_operations app sort_by_date fold_right insert_by_date op_date].
    unfold ts_le in Hord. now rewrite Hord. }
  assert (Hcheck : check_storage (sorted_operations [d1] [d2] [nan] [nan]) cap 0
                   = inr tt).
  { rewrite Hsorted. cbn [check_storage op_type op_volume].
    change (0 + nan) with nan. rewrite ltb_nan_r.
    change (nan - nan <? 0) with false. reflexivity. }
  split; [|split].
  - destruct (priced [s1] [s2] [nan] [nan] csv cap costs [d1] [d2] df model row
                d1 d2 eq_refl eq_refl ltac:(discriminate) ltac:(discriminate)
                Hp1 Hp2
                ltac:(repeat constructor) ltac:(repeat constructor)
                eq_refl Hcheck Hload Hbuild Hlast eq_refl eq_refl)
      as (res & Hrun & _ & Hreturned).
    destruct (Hreturned Hord) as (r & -> & _). eauto.
  - rewrite Hsorted. reflexivity.
  - intros [H _]. discriminate.
Qed.

Variables (injection_dates withdrawal_dates : list string).
Variables (injection_volumes withdrawal_volumes : list float).
Variables (csv_file : string) (max_storage_capacity : float).
Variable storage_costs : option StorageCosts.

Let call : M ContractResult :=
  price_storage_contract injection_dates withdrawal_dates
    injection_volumes withdrawal_volumes
    csv_file max_storage_capacity storage_costs.

(** Where the errors of the validation rules are raised.  The errors of
    rules 1 to 7 are raised before any pricing step, whatever the volumes.
    The error of rule 8 is raised only after the table was loaded, the model
    fitted and every leg priced, and only when a withdrawal volume is NaN:
    over volumes that are numbers the test of forecasting.py:217 never
    fires, because a schedule whose last withdrawal precedes its first
    injection already fails the storage replay. *)
Theorem schedule_order_error_needs_nan :
  (forall t e,
      call = (t, inl e) -> is_validation_error e = true ->
      e <> InvalidScheduleOrderError -> t = [])
  /\ (forall t,
        call = (t, inl InvalidScheduleOrderError) ->
        (exists v, In v withdrawal_volumes /\ ~ is_number v)
        /\ exists df model row,
             load_price_data csv_file = inr df /\
             build_price_model df = inr model /\
             iloc_last df = inr row /\
             t = [LoadPriceData csv_file; BuildPriceModel]
                 ++ flat_map (injection_events
                                (price_at model (Dates row) (TimeIndex row)))
                      (combine injection_dates injection_volumes)
                 ++ flat_map (withdrawal_events
                                (price_at model (Dates row) (TimeIndex row)))
                      (combine withdrawal_dates withdrawal_volumes))
  /\ (Forall is_number withdrawal_volumes ->
      forall t, call <> (t, inl InvalidScheduleOrderError)).
Proof.
  assert (Hlate : forall t,
             call = (t, inl InvalidScheduleOrderError) ->
             (exists v, In v withdrawal_volumes /\ ~ is_number v)
             /\ exists df model row,
                  load_price_data csv_file = inr df /\
                  build_price_model df = inr model /\
                  iloc_last df = inr row /\
                  t = [LoadPriceData csv_file; BuildPriceModel]
                      ++ flat_map (injection_events
                                     (price_at model (Dates row) (TimeIndex row)))
                           (combine injection_dates injection_volumes)
                      ++ flat_map (withdrawal_events
                                     (price_at model (Dates row) (TimeIndex row)))
                           (combine withdrawal_dates withdrawal_volumes)).
  { intros t Hrun.
    destruct (raised_inv _ _ _ _ _ _ _ _ _ Hrun)
      as [(_ & Hne & _) | [(Hkind & _) | (_ & Hlate)]];
      [congruence | discriminate |].
    destruct Hlate as (ip & wp & df & model & row & first & last
                       & Hlw & Hip & Hwp & Hpw & Hcheck & Hload & Hbuild
                       & Hlast & Ht & Hmin & Hmax & Hord).
    split; [|exists df, model, row; auto].
    destruct ip as [|i0 irest]; [discriminate|].
    destruct wp as [|w0 wrest]; [discriminate|].
    cbn in Hmin, Hmax. injection Hmin as <-. injection Hmax as <-.
    eapply replay_before_first_injection; eauto.
    now rewrite (parsed_length _ _ Hwp). }
  split; [|split; [exact Hlate|]].
  - intros t e Hrun Hkind Hne.
    destruct (raised_inv _ _ _ _ _ _ _ _ _ Hrun)
      as [(Ht & _) | [(Hkind' & _) | (He & _)]];
      [exact Ht | congruence | congruence].
  - intros Hnum t Hrun. destruct (Hlate t Hrun) as [(v & Hin & Hv) _].
    rewrite Forall_forall in Hnum. exact (Hv (Hnum v Hin)).
Qed.

End NotANumber.

End Binary64Facts.

(** * The theorems on the evaluation instance *)

Module Examples.

Import Demo.

Local Open Scope string_scope.
Local Open Scope list_scope.
Local Open Scope Q_scope.

Lemma demo_parses_calendar_dates : parses_calendar_dates demo_libraries.
Proof.
  intros s t. cbn [to_datetime demo_libraries]. unfold parse_iso_date.
  generalize (list_ascii_of_string s). intro cs.
  do 10 (destruct cs as [|? cs]; try discriminate).
  destruct cs; [|discriminate].
  destruct (_ && _)%bool; [|discriminate].
  destruct (number_of _ _) as [y|]; [|discriminate].
  destruct (number_of _ _) as [m|]; [|discriminate].
  destruct (number_of _ _) as [d|]; [|discriminate].
  cbv zeta. destruct (valid_date _) eqn:E; [|discriminate].
  now intros [= <-].
Qed.


Lemma storage_duration_witness :
  exists t r,
    price_storage_contract ["2024-06-01"] ["2024-09-01"] [1000000] [1000000]
      "Nat_Gas.csv" 2000000 None = (t, inr r)
    /\ duration_months r = 3%Z
    /\ total_storage_cost r == 300000.
Proof.
  destruct (price_storage_contract _ _ _ _ _ _ _) as [t [e|r]] eqn:E.
  - exfalso. vm_compute in E. discriminate.
  - exists t, r. split; [reflexivity|].
    destruct (storage_duration
                ["2024-06-01"] ["2024-09-01"] [1000000] [1000000]
                "Nat_Gas.csv" 2000000 None
                demo_parses_calendar_dates t r E)
      as (ip & wp & first & last & Hip & Hwp & _ & _ & _ & _ & _ & _ & _ & Hex).
    vm_compute in Hip, Hwp. injection Hip as <-. injection Hwp as <-.
    exact (Hex eq_refl eq_refl eq_refl).
Defined.

Lemma estimate_price_clamped_witness :
  estimate_price "2024-06-15" sinking_model (mkTimestamp 2024 12 31) 11
  = inr 0.
Proof.
  destruct (estimate_price_clamped
              "2024-06-15" sinking_model (mkTimestamp 2024 12 31) 11
              (mkTimestamp 2024 6 15) eq_refl)
    as (q & Hq & _ & _ & _ & Hzero).
  rewrite Hq. f_equal. apply Hzero. vm_compute. discriminate.
Defined.

Lemma estimate_at_reference_date_witness :
  exists df last_row,
    load_price_data "Nat_Gas.csv" = inr df
    /\ iloc_last df = inr last_row
    /\ Dates last_row = mkTimestamp 2024 12 31
    /\ TimeIndex last_row = 11%Z
    /\ estimate_price "2024-12-31" sinking_model
         (Dates last_row) (TimeIndex last_row)
       = inr (py_max0 (predict sinking_model (design_row last_row))).
Proof.
  destruct (load_price_data "Nat_Gas.csv") as [e|df] eqn:Eload.
  - exfalso. vm_compute in Eload. discriminate.
  - destruct (iloc_last df) as [e|row] eqn:Elast.
    + exfalso. vm_compute in Eload. injection Eload as <-.
      vm_compute in Elast. discriminate.
    + exists df, row. split; [reflexivity|]. split; [exact Elast|].
      assert (Hrow : Dates row = mkTimestamp 2024 12 31 /\ TimeIndex row = 11%Z).
      { pose proof Eload as Eload'. vm_compute in Eload'.
        injection Eload' as <-. vm_compute in Elast.
        injection Elast as <-. split; reflexivity. }
      destruct Hrow as [Hd Ht]. split; [exact Hd|]. split; [exact Ht|].
      apply (estimate_at_reference_date
               "Nat_Gas.csv" "2024-12-31" df row sinking_model Eload Elast).
      rewrite Hd. reflexivity.
Defined.


Lemma same_day_injections_first_witness :
  spec_validation ["2024-06-01"] ["2024-06-01"] [100] [100] 1000 = None
  /\ outcome (price_storage_contract ["2024-06-01"] ["2024-06-01"] [100] [100]
                "Nat_Gas.csv" 1000 None)
     <> inl InsufficientStorageError.
Proof.
  destruct (proj2 (proj2 (same_day_injections_first (L := demo_libraries)))
              "2024-06-01" (mkTimestamp 2024 6 1) 100 "Nat_Gas.csv" 1000 None
              eq_refl ltac:(reflexivity) ltac:(vm_compute; discriminate))
    as [Hnone Hrun].
  split; [exact Hnone|].
  destruct (price_storage_contract _ _ _ _ _ _ _) as [t [e|r]] eqn:E;
    [|discriminate].
  cbn [outcome snd]. intros [= ->].
  destruct (Hrun _ _ eq_refl) as [_ Hne]. now apply Hne.
Defined.

(** *** The further properties *)

Lemma details_list_the_legs_witness :
  exists t r,
    price_storage_contract
      ["2024-06-01"; "2024-07-01"] ["2024-09-01"; "2024-10-01"]
      [100; 200] [150; 150] "Nat_Gas.csv" 1000 None = (t, inr r)
    /\ map d_date (injection_details r) = ["2024-06-01"; "2024-07-01"]
    /\ map d_volume (withdrawal_details r) = [150; 150]
    /\ total_purchase_cost r == sum_of d_amount (injection_details r).
Proof.
  destruct (price_storage_contract _ _ _ _ _ _ _) as [t [e|r]] eqn:E.
  - exfalso. vm_compute in E. discriminate.
  - exists t, r. split; [reflexivity|].
    destruct (details_list_the_legs
                ["2024-06-01"; "2024-07-01"] ["2024-09-01"; "2024-10-01"]
                [100; 200] [150; 150] "Nat_Gas.csv" 1000 None t r E)
      as (H1 & _ & _ & H4 & _ & H6 & _).
    auto.
Defined.

Lemma pricing_steps_in_order_witness :
  exists t r p1 p2 c1 c2,
    price_storage_contract ["2024-06-01"] ["2024-09-01"] [100] [100]
      "Nat_Gas.csv" 1000 None = (t, inr r)
    /\ t = [LoadPriceData "Nat_Gas.csv"; BuildPriceModel;
            GetPrice "2024-06-01"; PostInjection 100 p1 c1;
            GetPrice "2024-09-01"; PostWithdrawal 100 p2 c2].
Proof.
  destruct (price_storage_contract _ _ _ _ _ _ _) as [t [e|r]] eqn:E.
  - exfalso. vm_compute in E. discriminate.
  - destruct (pricing_steps_in_order
                ["2024-06-01"] ["2024-09-01"] [100] [100]
                "Nat_Gas.csv" 1000 None t r E)
      as (df & model & row & _ & _ & _ & Ht).
    exists t, r. do 4 eexists. split; [reflexivity|]. exact Ht.
Defined.

Lemma larger_capacity_same_result_witness :
  exists t r,
    price_storage_contract ["2024-06-01"] ["2024-09-01"] [100] [100]
      "Nat_Gas.csv" 100 None = (t, inr r)
    /\ price_storage_contract ["2024-06-01"] ["2024-09-01"] [100] [100]
         "Nat_Gas.csv" 5000000 None = (t, inr r).
Proof.
  destruct (price_storage_contract ["2024-06-01"] ["2024-09-01"] [100] [100]
              "Nat_Gas.csv" 100 None) as [t [e|r]] eqn:E.
  - exfalso. vm_compute in E. discriminate.
  - exists t, r. split; [reflexivity|].
    apply (larger_capacity_same_result
             ["2024-06-01"] ["2024-09-01"] [100] [100]
             "Nat_Gas.csv" 100 None t r 5000000 E).
    vm_compute. discriminate.
Defined.



Lemma price_table_shape_witness :
  exists df last_row,
    load_price_data "Nat_Gas.csv" = inr df
    /\ List.length df = 12%nat
    /\ iloc_last df = inr last_row
    /\ TimeIndex last_row = 11%Z.
Proof.
  destruct (load_price_data "Nat_Gas.csv") as [e|df] eqn:Eload.
  - exfalso. vm_compute in Eload. discriminate.
  - destruct (price_table_shape "Nat_Gas.csv" df Eload)
      as (table & Htable & Hlen & _ & _ & _ & _ & Hlast).
    vm_compute in Htable. injection Htable as <-.
    cbn [List.length] in Hlen.
    destruct (iloc_last df) as [e|row] eqn:Elast.
    + exfalso. destruct df; [discriminate|].
      unfold iloc_last in Elast. cbn [rev] in Elast.
      destruct (rev df); discriminate.
    + exists df, row. split; [reflexivity|]. split; [exact Hlen|].
      split; [exact Elast|]. rewrite (Hlast row eq_refl), Hlen. reflexivity.
Defined.

Lemma estimate_at_observation_witness :
  exists df last_row r,
    load_price_data "Nat_Gas.csv" = inr df
    /\ iloc_last df = inr last_row
    /\ In r df
    /\ Dates r = mkTimestamp 2024 3 31
    /\ estimate_price "2024-03-31" sinking_model
         (Dates last_row) (TimeIndex last_row)
       = inr (py_max0 (predict sinking_model (design_row r))).
Proof.
  destruct (load_price_data "Nat_Gas.csv") as [e|df] eqn:Eload.
  - exfalso. vm_compute in Eload. discriminate.
  - destruct (iloc_last df) as [e|last] eqn:Elast.
    + exfalso. vm_compute in Eload. injection Eload as <-.
      vm_compute in Elast. discriminate.
    + pose (r := make_row 2 (mkTimestamp 2024 3 31) 10.2).
      assert (Hfacts : monthly df /\ In r df).
      { pose proof Eload as Eload'. vm_compute in Eload'.
        injection Eload' as <-. split.
        - cbn [monthly Dates]. repeat split; reflexivity.
        - right. right. left. reflexivity. }
      destruct Hfacts as [Hmonthly Hin].
      exists df, last, r. split; [reflexivity|]. split; [exact Elast|].
      split; [exact Hin|]. split; [reflexivity|].
      apply (estimate_at_observation
               "Nat_Gas.csv" "2024-03-31" df r last sinking_model
               Eload Hmonthly Elast Hin).
      reflexivity.
Defined.

Lemma get_price_estimate_returns_witness :
  exists q, get_price_estimate "2024-06-15" "Nat_Gas.csv" = inr q /\ 0 <= q.
Proof.
  destruct (get_price_estimate "2024-06-15" "Nat_Gas.csv") as [e|q] eqn:E.
  - exfalso. vm_compute in E. discriminate.
  - exists q. split; [reflexivity|].
    apply (get_price_estimate_returns "2024-06-15" "Nat_Gas.csv" q E).
Defined.

Lemma contract_prices_are_estimates_witness :
  exists t r,
    price_storage_contract ["2024-06-01"] ["2024-09-01"] [100] [100]
      "Nat_Gas.csv" 1000 None = (t, inr r)
    /\ forall d, In d (injection_details r ++ withdrawal_details r) ->
                 get_price_estimate (d_date d) "Nat_Gas.csv" = inr (d_price d).
Proof.
  destruct (price_storage_contract _ _ _ _ _ _ _) as [t [e|r]] eqn:E.
  - exfalso. vm_compute in E. discriminate.
  - exists t, r. split; [reflexivity|].
    exact (contract_prices_are_estimates
             ["2024-06-01"] ["2024-09-01"] [100] [100]
             "Nat_Gas.csv" 1000 None t r E).
Defined.

Lemma sort_by_date_is_the_stable_sort_witness :
  sort_by_date
    [mkOperation (mkTimestamp 2024 7 1) Injection 5 0;
     mkOperation (mkTimestamp 2024 6 1) Injection 7 1;
     mkOperation (mkTimestamp 2024 6 1) Withdrawal 7 0]
  = [mkOperation (mkTimestamp 2024 6 1) Injection 7 1;
     mkOperation (mkTimestamp 2024 6 1) Withdrawal 7 0;
     mkOperation (mkTimestamp 2024 7 1) Injection 5 0].
Proof.
  symmetry.
  apply (proj2 (proj2 (proj2 (sort_by_date_is_the_stable_sort _)))).
  - repeat constructor; vm_compute; reflexivity.
  - intro d. cbn [filter]. unfold on_date. cbn [op_date].
    destruct (ts_eqb (mkTimestamp 2024 6 1) d) eqn:E1;
      destruct (ts_eqb (mkTimestamp 2024 7 1) d) eqn:E2; try reflexivity.
    apply ts_eqb_eq in E1, E2. rewrite <- E1 in E2. discriminate.
Defined.

Lemma single_round_trip_witness :
  price_storage_contract ["2024-09-01"] ["2024-06-01"] [100] [100]
    "Nat_Gas.csv" 1000 None = ([], inl InsufficientStorageError)
  /\ price_storage_contract ["2024-06-01"] ["2024-09-01"] [6000000] [6000000]
       "Nat_Gas.csv" 5000000 None = ([], inl CapacityExceededError)
  /\ spec_validation ["2024-06-01"] ["2024-09-01"] [5000000] [5000000] 5000000
     = None.
Proof.
  split; [|split].
  - apply (proj1 (proj2 (single_round_trip (L := demo_libraries)
                           "2024-09-01" "2024-06-01"
                           (mkTimestamp 2024 9 1) (mkTimestamp 2024 6 1)
                           100 "Nat_Gas.csv" 1000 None eq_refl eq_refl)));
      reflexivity.
  - apply (proj1 (proj2 (proj2 (single_round_trip (L := demo_libraries)
                           "2024-06-01" "2024-09-01"
                           (mkTimestamp 2024 6 1) (mkTimestamp 2024 9 1)
                           6000000 "Nat_Gas.csv" 5000000 None
                           eq_refl eq_refl))));
      reflexivity.
  - apply (proj2 (proj2 (proj2 (single_round_trip (L := demo_libraries)
                           "2024-06-01" "2024-09-01"
                           (mkTimestamp 2024 6 1) (mkTimestamp 2024 9 1)
                           5000000 "Nat_Gas.csv" 5000000 None
                           eq_refl eq_refl))));
      try reflexivity.
    vm_compute. discriminate.
Defined.

Lemma prompt_loop_until_quit_witness :
  prompt_loop ascii_strip ascii_lower sinking_model []
    ["2024-06-15"; "  QuiT "; "2024-07-15"]
  = ([answer sinking_model [] "2024-06-15"], Quit).
Proof.
  assert (Hbefore : Forall (fun line => ascii_lower (ascii_strip line) <> "quit")
                           ["2024-06-15"])
    by (repeat constructor; vm_compute; discriminate).
  exact (proj2 (prompt_loop_until_quit ascii_strip ascii_lower
                  sinking_model [] ["2024-06-15"] Hbefore)
           "  QuiT " ["2024-07-15"] eq_refl).
Defined.

Lemma answers_within_limit_witness :
  Forall (fun a =>
            match a with
            | Estimated date_input price =>
                0 <= price /\
                exists target last_row,
                  to_datetime date_input = Some target /\
                  ts_le target (mkTimestamp 2025 9 30) /\
                  iloc_last (make_rows 0 [mkTimestamp 2024 12 31] [11.1])
                    = inr last_row /\
                  estimate_price date_input sinking_model
                    (Dates last_row) (TimeIndex last_row) = inr price
            | _ => True
            end)
         (fst (prompt_loop ascii_strip ascii_lower sinking_model
                 (make_rows 0 [mkTimestamp 2024 12 31] [11.1])
                 ["2026-01-01"; "soon"; " 2024-06-15 "])).
Proof.
  exact (answers_within_limit ascii_strip ascii_lower sinking_model
           (make_rows 0 [mkTimestamp 2024 12 31] [11.1])
           ["2026-01-01"; "soon"; " 2024-06-15 "]).
Defined.

Lemma tool_answers_are_estimates_witness :
  exists model df price,
    main = inr (model, df)
    /\ answer model df "2024-06-15" = Estimated "2024-06-15" price.
Proof.
  destruct (main (L := demo_libraries)) as [e|[model df]] eqn:E.
  - exfalso. vm_compute in E. discriminate.
  - destruct (get_price_estimate "2024-06-15" "Nat_Gas.csv") as [e|price] eqn:Eg.
    + exfalso. vm_compute in Eg. discriminate.
    + exists model, df, price. split; [reflexivity|].
      apply (proj2 (tool_answers_are_estimates model df E
                      "2024-06-15" "2024-06-15" price)).
      split; [reflexivity|]. split; [|exact Eg].
      exists (mkTimestamp 2024 6 15). split; reflexivity.
Defined.

End Examples.

(** ** The binary64 theorems on the evaluation instance *)

Module Binary64Examples.

Import PrimFloat Binary64.
Local Open Scope float_scope.
Local Open Scope string_scope.
Local Open Scope list_scope.

(** C4, the claim as it is written, on the totals themselves: one injection
    of 100 against withdrawals of 66.47302194683597 and 33.526977053164025.
    The totals differ by more than 1e-6, and yet the call raises nothing: in
    binary64 the withdrawals add up to 99.999999, and
    [abs(100 - 99.999999) > 1e-6] is false. *)
Lemma volume_test_differs_from_exact_totals :
  (1 # 1000000
   < Qabs (exact_sum [100%float]
           - exact_sum [66.47302194683597%float; 33.526977053164025%float]))%Q
  /\ exists t r,
       price_storage_contract
         ["2024-06-01"] ["2024-09-01"; "2024-10-01"]
         [100] [66.47302194683597; 33.526977053164025]
         "Nat_Gas.csv" 1000 None = (t, inr r).
Proof.
  split.
  - vm_compute. reflexivity.
  - destruct (price_storage_contract _ _ _ _ _ _ _) as [t [e|r]] eqn:E.
    + exfalso. vm_compute in E. discriminate.
    + now exists t, r.
Defined.

Lemma volume_test_in_binary64_witness :
  outcome (price_storage_contract ["2024-06-01"] ["2024-09-01"]
             [100] [99.999999] "Nat_Gas.csv" 1000 None)
  <> inl VolumeMismatchError
  /\ price_storage_contract ["2024-06-01"] ["2024-09-01"]
       [100] [99.9] "Nat_Gas.csv" 1000 None
     = ([], inl VolumeMismatchError).
Proof.
  split.
  - apply (proj1 (proj2 (proj2
             (Binary64Facts.volume_test_in_binary64 (L := demo_libraries)
                ["2024-06-01"] ["2024-09-01"] [100] [99.999999]
                "Nat_Gas.csv" 1000 None
                [mkTimestamp 2024 6 1] [mkTimestamp 2024 9 1]
                eq_refl eq_refl ltac:(discriminate) ltac:(discriminate)
                eq_refl eq_refl
                ltac:(repeat constructor) ltac:(repeat constructor)))));
      reflexivity.
  - apply (proj2 (proj2 (proj2
             (Binary64Facts.volume_test_in_binary64 (L := demo_libraries)
                ["2024-06-01"] ["2024-09-01"] [100] [99.9]
                "Nat_Gas.csv" 1000 None
                [mkTimestamp 2024 6 1] [mkTimestamp 2024 9 1]
                eq_refl eq_refl ltac:(discriminate) ltac:(discriminate)
                eq_refl eq_refl
                ltac:(repeat constructor) ltac:(repeat constructor)))));
      reflexivity.
Defined.

Lemma nan_volumes_priced_then_refused_witness :
  exists t,
    price_storage_contract ["2024-09-01"] ["2024-06-01"] [nan] [nan]
      "Nat_Gas.csv" 1000 None = (t, inl InvalidScheduleOrderError)
    /\ t = [LoadPriceData "Nat_Gas.csv"; BuildPriceModel;
            GetPrice "2024-09-01"; PostInjection nan 11.199999999999999 nan;
            GetPrice "2024-06-01"; PostWithdrawal nan 10.75 nan].
Proof.
  set (df := match load_price_data (L := demo_libraries) "Nat_Gas.csv" with
             | inr d => d
             | inl _ => []
             end).
  set (model := match build_price_model df return @Model demo_libraries with
                | inr m => m
                | inl _ => mkLinearModel [] 0
                end).
  set (row := match iloc_last df with
              | inr r => r
              | inl _ => mkRow (mkTimestamp 0 0 0) 0 0 0 0 0
              end).
  eexists. split.
  - exact (Binary64Facts.nan_volumes_priced_then_refused
             (L := demo_libraries)
             "2024-09-01" "2024-06-01"
             (mkTimestamp 2024 9 1) (mkTimestamp 2024 6 1)
             "Nat_Gas.csv" 1000 None df model row
             eq_refl eq_refl eq_refl eq_refl eq_refl eq_refl).
  - reflexivity.
Defined.

Lemma nan_occupancy_accepted_witness :
  (exists t r,
      price_storage_contract ["2024-06-01"] ["2024-09-01"] [nan] [nan]
        "Nat_Gas.csv" 1000 None = (t, inr r))
  /\ occupancy_levels
       (sorted_operations [mkTimestamp 2024 6 1] [mkTimestamp 2024 9 1]
          [nan] [nan]) 0
     = [nan; nan]
  /\ ~ within_capacity 1000 nan.
Proof.
  set (df := match load_price_data (L := demo_libraries) "Nat_Gas.csv" with
             | inr d => d
             | inl _ => []
             end).
  set (model := match build_price_model df return @Model demo_libraries with
                | inr m => m
                | inl _ => mkLinearModel [] 0
                end).
  set (row := match iloc_last df with
              | inr r => r
              | inl _ => mkRow (mkTimestamp 0 0 0) 0 0 0 0 0
              end).
  exact (Binary64Facts.nan_occupancy_accepted (L := demo_libraries)
           "2024-06-01" "2024-09-01"
           (mkTimestamp 2024 6 1) (mkTimestamp 2024 9 1)
           "Nat_Gas.csv" 1000 None df model row
           eq_refl eq_refl eq_refl eq_refl eq_refl eq_refl).
Defined.

Lemma schedule_order_error_needs_nan_witness :
  Forall is_number [100]
  /\ ~ exists t,
        price_storage_contract ["2024-09-01"] ["2024-06-01"] [100] [100]
          "Nat_Gas.csv" 1000 None
        = (t, inl InvalidScheduleOrderError).
Proof.
  assert (Hnum : Forall is_number [100]) by (repeat constructor).
  split; [exact Hnum|]. intros [t Hrun].
  exact (proj2 (proj2
           (Binary64Facts.schedule_order_error_needs_nan
              (L := demo_libraries)
              ["2024-09-01"] ["2024-06-01"] [100] [100]
              "Nat_Gas.csv" 1000 None)) Hnum t Hrun).
Defined.

End Binary64Examples.
